(** * Report-card ranking engine: grades, averages and positions

    A shallow embedding of the scoring and ranking code of the report-card
    application:

    - [models.py]: [Score.total_score], [Score.grade], [Score.remarks];
    - [views.py]: [calculate_subject_positions], [calculate_class_positions];
      the data [generate_class_report_card] and
      [generate_individual_report_card] compute for their templates; the
      loops of [class_score_entry_bulk] that create and read rows; the role
      helpers, the permission tests in the bodies of the two report views,
      [student_list_view] and [grade_level_list_view].

    Numbers.  [class_score] and [exam_score] are
    [DecimalField(max_digits=5, decimal_places=2)]: a value read back from the
    table is a decimal with exactly two places, so a field is modelled by its
    integer number of hundredths (a [Z]).  Python's decimal addition is exact
    as long as the result has at most 28 digits, so the total of a row and
    the sum of the totals of a student are modelled by integer addition (a
    sum of five-digit fields needs more than 10^22 rows to leave that range).
    The one inexact operation of the code is the division of a sum by a
    count: it is modelled by [dec_truediv], which follows
    [decimal.Decimal.__truediv__] at the default context (28 significant
    digits, round-half-even); the exponent limits of the context, which no
    quotient of such a sum can reach, are left out.

    Sorting.  [sorted] is stable, also under [reverse=True]; for keys
    compared by a strict weak order the result of a stable sort is unique,
    and it is modelled by a stable insertion sort.  The order in which
    [order_by] returns rows with equal keys is not fixed by SQL; the model
    keeps the order of the queryset, and the positions do not depend on it
    ([sorted_writes_perm]).

    Querysets are lists of rows in the order the database returns them; the
    table [Score.objects] is an explicit argument.  A Python exception is a
    [Raise] in the [result] monad.

    Views.  Of a view, what is modelled is the data it computes from the
    tables and the user: decorators, forms, templates and the HTTP response
    are left out.  The exceptions of the object manager are a [Failed] in
    the [query] monad.  [str.format] and the collation of the database are
    parameters of the report data. *)

From Stdlib Require Import ZArith QArith Qabs Qpower Qfield Lia String.
From stdpp Require Import base list gmap sorting.

Local Open Scope Z_scope.

(** ** Exceptions *)

Inductive exn : Type :=
  | IndexError
  | DivisionByZero
  | InvalidOperation.

Inductive result (A : Type) : Type :=
  | Ok (a : A)
  | Raise (e : exn).
Arguments Ok {A} a.
Arguments Raise {A} e.

#[global] Instance result_ret : MRet result := fun A a => Ok a.

#[global] Instance result_bind : MBind result := fun A B k m =>
  match m with
  | Ok a => k a
  | Raise e => Raise e
  end.

(** A [for] loop over [l] threading the loop state [s]; stops at the first
    exception. *)
Fixpoint for_each {A S : Type} (body : S -> A -> result S) (s : S) (l : list A)
  : result S :=
  match l with
  | [] => Ok s
  | x :: l' => s' ← body s x; for_each body s' l'
  end.

(** [l[i]] for a non-negative index. *)
Definition index {A : Type} (l : list A) (i : nat) : result A :=
  match l !! i with
  | Some x => Ok x
  | None => Raise IndexError
  end.

(** ** Decimals *)

(** A finite [decimal.Decimal]: [coefficient * 10 ^ exponent].  The sign is
    carried by the coefficient (Python's [-0] compares equal to [0]). *)
Record Decimal : Type := mkDecimal { coefficient : Z; exponent : Z }.

(** The context precision, [getcontext().prec]. *)
Definition prec : Z := 28.

(** [Decimal(n)] for an [int]. *)
Definition dec_of_int (n : Z) : Decimal := mkDecimal n 0.

(** A two-place decimal given by its number of hundredths. *)
Definition dec_of_hundredths (h : Z) : Decimal := mkDecimal h (-2).

(** The rational number a decimal denotes. *)
Definition dec_value (d : Decimal) : Q :=
  (inject_Z (coefficient d) * Qpower (10 # 1) (exponent d))%Q.

(** [a < b]: both coefficients are padded to the smaller exponent and
    compared as integers. *)
Definition dec_ltb (a b : Decimal) : bool :=
  let m := Z.min (exponent a) (exponent b) in
  coefficient a * 10 ^ (exponent a - m) <? coefficient b * 10 ^ (exponent b - m).

Fixpoint ndigits_aux (fuel : nat) (n : Z) : Z :=
  match fuel with
  | O => 1
  | S fuel' => if n <? 10 then 1 else 1 + ndigits_aux fuel' (n / 10)
  end.

(** [len(str(n))] for [n >= 0]. *)
Definition ndigits (n : Z) : Z := ndigits_aux (Z.to_nat (Z.log2 n)) n.

(** [while exp < ideal_exp and coeff % 10 == 0: coeff //= 10; exp += 1];
    the loop runs at most [ideal_exp - exp] times, which is the fuel. *)
Fixpoint strip_zeros (fuel : nat) (coeff exp ideal_exp : Z) : Z * Z :=
  match fuel with
  | O => (coeff, exp)
  | S fuel' =>
      if (exp <? ideal_exp) && (coeff mod 10 =? 0)
      then strip_zeros fuel' (coeff / 10) (exp + 1) ideal_exp
      else (coeff, exp)
  end.

(** [Decimal._round_half_even] asked to drop the last [d] digits of
    [coeff]: whether the kept digits are to be incremented, which is so when
    the dropped part is above one half of [10 ^ d], or is exactly one half
    with an odd last kept digit. *)
Definition round_half_even (coeff d : Z) : bool :=
  let r := coeff mod 10 ^ d in
  (10 ^ d <? 2 * r) || ((2 * r =? 10 ^ d) && Z.odd (coeff / 10 ^ d)).

(** [Decimal._fix] for a non-negative coefficient [coeff] carrying the sign
    [sign] (1 or -1): round to [prec] significant digits.  The exponent limits
    [Emin] and [Emax] of the context are not modelled. *)
Definition dec_fix (sign coeff exp : Z) : Decimal :=
  if coeff =? 0 then mkDecimal 0 exp
  else
    let exp_min := ndigits coeff + exp - prec in
    if exp <? exp_min then
      let d := exp_min - exp in
      let kept := coeff / 10 ^ d in
      if round_half_even coeff d then
        let kept := kept + 1 in
        if prec <? ndigits kept
        then mkDecimal (sign * (kept / 10)) (exp_min + 1)
        else mkDecimal (sign * kept) exp_min
      else mkDecimal (sign * kept) exp_min
    else mkDecimal (sign * coeff) exp.

(** The quotient computed by [Decimal.__truediv__] once both operands are
    known to be finite and [other] is not zero; [other] is an [int], converted
    to [Decimal(other)], whose exponent is 0. *)
Definition dec_quotient (self : Decimal) (other : Z) : Decimal :=
  if coefficient self =? 0 then
    dec_fix 1 0 (exponent self)
  else
    let sign := Z.sgn (coefficient self) * Z.sgn other in
    let op1 := Z.abs (coefficient self) in
    let op2 := Z.abs other in
    let shift := ndigits op2 - ndigits op1 + prec + 1 in
    let exp := exponent self - shift in
    let '(coeff, remainder) :=
      if 0 <=? shift then Z.div_eucl (op1 * 10 ^ shift) op2
      else Z.div_eucl op1 (op2 * 10 ^ (- shift)) in
    let '(coeff, exp) :=
      if remainder =? 0
      then strip_zeros (Z.to_nat shift) coeff exp (exponent self)
      else (if coeff mod 5 =? 0 then coeff + 1 else coeff, exp) in
    dec_fix sign coeff exp.

(** [self / other]: division by zero raises [InvalidOperation] for [0 / 0]
    and [DivisionByZero] otherwise (both are trapped by the default
    context). *)
Definition dec_truediv (self : Decimal) (other : Z) : result Decimal :=
  if other =? 0 then
    if coefficient self =? 0 then Raise InvalidOperation else Raise DivisionByZero
  else Ok (dec_quotient self other).

(** ** models.py *)

(** The number of hundredths of an [int] constant, for comparisons of a
    two-place decimal with an [int] ([score >= 80]). *)
Definition hundredths (n : Z) : Z := 100 * n.

(** A row of [Student]; only the primary key ([student.id]) is read by the
    ranking code. *)
Record Student : Type := mkStudent {
  pk : Z;
  grade_level : Z
}.

(** A row of [Score].  Foreign keys hold the primary key of the row they
    point to; the two scores are in hundredths. *)
Record Score : Type := mkScore {
  student : Z;
  subject : Z;
  term : Z;
  academic_year : Z;
  class_score : Z;
  exam_score : Z
}.

#[global] Instance Student_eq_dec : EqDecision Student.
Proof. solve_decision. Defined.

#[global] Instance Score_eq_dec : EqDecision Score.
Proof. solve_decision. Defined.

(** [Score.total_score], in hundredths. *)
Definition total_score (self : Score) : Z :=
  class_score self + exam_score self.

(** [Score.grade]. *)
Definition grade (self : Score) : string :=
  let score := total_score self in
  if hundredths 80 <=? score then "A"%string
  else if hundredths 70 <=? score then "B"%string
  else if hundredths 60 <=? score then "C"%string
  else if hundredths 50 <=? score then "D"%string
  else "F"%string.

(** [Score.remarks]. *)
Definition remarks (self : Score) : string :=
  let grade := grade self in
  if String.eqb grade "A"%string then "Excellent"%string
  else if String.eqb grade "B"%string then "Very Good"%string
  else if String.eqb grade "C"%string then "Good"%string
  else if String.eqb grade "D"%string then "Pass"%string
  else "Fail"%string.

(** ** Sorting and dictionaries *)

Section Sorting.
Context {V A : Type} (ltb : V -> V -> bool) (key : A -> V).

(** Insertion in front of a list sorted by decreasing key: [x] goes before
    the first element whose key is not greater than its own, so before
    every element with an equal key. *)
Fixpoint insert_reverse (x : A) (l : list A) : list A :=
  match l with
  | [] => [x]
  | y :: l' =>
      if ltb (key x) (key y) then y :: insert_reverse x l' else x :: y :: l'
  end.

(** [sorted(l, key=key, reverse=True)]: decreasing keys, elements with equal
    keys in their original order (Python's sort is stable, and stays so
    under [reverse=True]). *)
Definition sorted_reverse (l : list A) : list A :=
  foldr insert_reverse [] l.
End Sorting.

(** [a < b] on pairs, lexicographic: the order of
    [order_by('-class_score', '-exam_score')]. *)
Definition pair_ltb (a b : Z * Z) : bool :=
  (a.1 <? b.1) || ((a.1 =? b.1) && (a.2 <? b.2)).

(** [d[k] = v] on a dictionary kept as the list of its items in insertion
    order: a key already present keeps its place. *)
Fixpoint dict_set {V : Type} (d : list (Z * V)) (k : Z) (v : V) : list (Z * V) :=
  match d with
  | [] => [(k, v)]
  | (k', v') :: d' =>
      if decide (k' = k) then (k, v) :: d' else (k', v') :: dict_set d' k v
  end.

(** [d.get(k)] on such a dictionary. *)
Fixpoint dict_get {V : Type} (d : list (Z * V)) (k : Z) : option V :=
  match d with
  | [] => None
  | (k', v') :: d' => if decide (k' = k) then Some v' else dict_get d' k
  end.

(** [enumerate(l)]. *)
Definition enumerate {A : Type} (l : list A) : list (nat * A) :=
  zip (seq 0 (length l)) l.

(** ** views.py: the ranking loop *)

Section RankLoop.
Context {V A K : Type} `{Countable K}.
Context (ltb : V -> V -> bool) (key : A -> V) (dkey : A -> K).

(** One iteration of
<<
    for i, x in enumerate(ranked):
        if i > 0 and key(x) < key(ranked[i-1]):
            current_rank = i + 1
        positions[dkey(x)] = current_rank
>>
    on the loop state [(current_rank, positions)]. *)
Definition rank_step (ranked : list A) (st : nat * gmap K nat) (ix : nat * A)
  : result (nat * gmap K nat) :=
  let '(current_rank, positions) := st in
  let '(i, x) := ix in
  current_rank ←
    (if (0 <? i)%nat then
       previous ← index ranked (i - 1);
       mret (if ltb (key x) (key previous) then (i + 1)%nat else current_rank)
     else mret current_rank);
  mret (current_rank, <[dkey x := current_rank]> positions).

(** [current_rank = 1] followed by the loop; returns the dictionary. *)
Definition rank_loop (ranked : list A) (positions : gmap K nat)
  : result (gmap K nat) :=
  st ← for_each (rank_step ranked) (1%nat, positions) (enumerate ranked);
  mret st.2.
End RankLoop.

(** ** views.py: positions within each subject *)

(** [scores_queryset.values_list('subject', flat=True).distinct()]: every
    subject with a row, once.  (Should the database repeat a subject, as it
    may when the default ordering of [Score] is added to the query, the loop
    only repeats a pass: see [subject_loop_repeats].) *)
Definition distinct_subjects (scores_queryset : list Score) : list Z :=
  remove_dups (subject <$> scores_queryset).

(** [scores_queryset.filter(subject__id=subject_id)]. *)
Definition filter_subject (subject_id : Z) (scores_queryset : list Score)
  : list Score :=
  filter (fun s => subject s = subject_id) scores_queryset.

(** [.order_by('-class_score', '-exam_score')]. *)
Definition order_by_scores (qs : list Score) : list Score :=
  sorted_reverse pair_ltb (fun s => (class_score s, exam_score s)) qs.

(** The dictionary key [(score_obj.student.id, score_obj.subject.id)]. *)
Definition score_key (score_obj : Score) : Z * Z :=
  (student score_obj, subject score_obj).

(** The body of the loop over subjects. *)
Definition subject_pass (scores_queryset : list Score)
    (subject_positions : gmap (Z * Z) nat) (subject_id : Z)
  : result (gmap (Z * Z) nat) :=
  let subject_scores :=
    order_by_scores (filter_subject subject_id scores_queryset) in
  let ranked_scores := sorted_reverse Z.ltb total_score subject_scores in
  rank_loop Z.ltb total_score score_key ranked_scores subject_positions.

Definition calculate_subject_positions (scores_queryset : list Score)
  : result (gmap (Z * Z) nat) :=
  for_each (subject_pass scores_queryset) ∅ (distinct_subjects scores_queryset).

(** ** views.py: positions within the class *)

(** [Score.objects.filter(student=student, academic_year=academic_year,
    term=term)]. *)
Definition filter_student (Score_objects : list Score)
    (student_pk academic_year_pk term_pk : Z) : list Score :=
  filter (fun s => student s = student_pk
                   /\ academic_year s = academic_year_pk
                   /\ term s = term_pk) Score_objects.

(** [sum(s.total_score for s in student_scores)], in hundredths. *)
Definition sum_total_scores (student_scores : list Score) : Z :=
  foldr Z.add 0 (total_score <$> student_scores).

(** The body of the loop over [students_in_class]. *)
Definition average_step (Score_objects : list Score)
    (academic_year_pk term_pk : Z)
    (student_averages : list (Z * Decimal)) (student : Student)
  : result (list (Z * Decimal)) :=
  let student_scores :=
    filter_student Score_objects (pk student) academic_year_pk term_pk in
  if bool_decide (student_scores <> []) then
    let total_scores_sum := sum_total_scores student_scores in
    average_score ←
      dec_truediv (dec_of_hundredths total_scores_sum)
                  (Z.of_nat (length student_scores));
    mret (dict_set student_averages (pk student) average_score)
  else
    mret (dict_set student_averages (pk student) (dec_of_int 0)).

(** The dictionary [student_averages] after the first loop. *)
Definition student_averages (Score_objects : list Score)
    (students_in_class : list Student) (academic_year_pk term_pk : Z)
  : result (list (Z * Decimal)) :=
  for_each (average_step Score_objects academic_year_pk term_pk) []
    students_in_class.

Definition calculate_class_positions (Score_objects : list Score)
    (students_in_class : list Student) (academic_year_pk term_pk : Z)
  : result (gmap Z nat) :=
  student_averages ←
    student_averages Score_objects students_in_class academic_year_pk term_pk;
  let sorted_students_by_avg := sorted_reverse dec_ltb snd student_averages in
  rank_loop dec_ltb snd fst sorted_students_by_avg ∅.

(** ** The ranking rule in the words of the specification *)

Section CompetitionRanks.
Context {V : Type} (ltb : V -> V -> bool).

(** Walk the values from index [i] with the rank [current_rank] of the
    value before ([previous], none at index 0): a value strictly below its
    predecessor takes its 1-based index as rank, any other value inherits
    the current rank. *)
Fixpoint ranks_from (previous : option V) (i current_rank : nat)
    (values : list V) : list nat :=
  match values with
  | [] => []
  | v :: values' =>
      let rank :=
        match previous with
        | Some p => if ltb v p then S i else current_rank
        | None => current_rank
        end in
      rank :: ranks_from (Some v) (S i) rank values'
  end.

Definition competition_ranks (values : list V) : list nat :=
  ranks_from None 0 1 values.

(** The number of values strictly greater than [v]. *)
Definition count_greater (v : V) (values : list V) : nat :=
  length (filter (fun w => ltb v w) values).

(** Standard competition rank: one more than the number of strictly
    greater values. *)
Definition standard_rank (v : V) (values : list V) : nat :=
  S (count_greater v values).

(** No value is followed, anywhere later, by a strictly greater one. *)
Definition descending (values : list V) : Prop :=
  StronglySorted (fun a b => ltb a b = false) values.
End CompetitionRanks.

(** Writing a list of (key, rank) pairs into a dictionary, in order. *)
Definition write_all {K : Type} `{Countable K} (l : list (K * nat))
    (m : gmap K nat) : gmap K nat :=
  foldl (fun m kr => <[kr.1 := kr.2]> m) m l.

(** The (key, rank) pairs the ranking rule gives to the rows of [ranked], in
    order. *)
Definition rank_assignments {V A K : Type} (ltb : V -> V -> bool)
    (key : A -> V) (dkey : A -> K) (ranked : list A) : list (K * nat) :=
  zip (dkey <$> ranked) (competition_ranks ltb (key <$> ranked)).

(** The pair expected for a row of [l]: its key and its standard competition
    rank among the values of [l]. *)
Definition ranked_pair {V A K : Type} (ltb : V -> V -> bool)
    (key : A -> V) (dkey : A -> K) (l : list A) (x : A) : K * nat :=
  (dkey x, standard_rank ltb (key x) (key <$> l)).

(** The rows of one subject in the order the loop ranks them, and the pairs
    it writes for them. *)
Definition ranked_scores (scores_queryset : list Score) (subject_id : Z)
  : list Score :=
  sorted_reverse Z.ltb total_score
    (order_by_scores (filter_subject subject_id scores_queryset)).

Definition subject_writes (scores_queryset : list Score) (subject_id : Z)
  : list (Z * Z * nat) :=
  rank_assignments Z.ltb total_score score_key
    (ranked_scores scores_queryset subject_id).

(** The arithmetic mean of the totals of [student_scores], as the code
    computes it: the sum divided by the count. *)
Definition mean_total_score (student_scores : list Score) : Decimal :=
  dec_quotient (dec_of_hundredths (sum_total_scores student_scores))
               (Z.of_nat (length student_scores)).

(** The ranking value of the student with primary key [student_pk]. *)
Definition average_value (Score_objects : list Score)
    (academic_year_pk term_pk student_pk : Z) : Decimal :=
  let student_scores :=
    filter_student Score_objects student_pk academic_year_pk term_pk in
  if bool_decide (student_scores <> []) then mean_total_score student_scores
  else dec_of_int 0.

(** The dictionary [student_averages] as a fold of assignments. *)
Definition averages_dict (Score_objects : list Score)
    (students_in_class : list Student) (academic_year_pk term_pk : Z)
  : list (Z * Decimal) :=
  foldl (fun d s =>
           dict_set d (pk s)
             (average_value Score_objects academic_year_pk term_pk (pk s)))
        [] students_in_class.

(** The items of [student_averages] in the order the loop ranks them, and the
    pairs it writes for them. *)
Definition sorted_students_by_avg (Score_objects : list Score)
    (students_in_class : list Student) (academic_year_pk term_pk : Z)
  : list (Z * Decimal) :=
  sorted_reverse dec_ltb snd
    (averages_dict Score_objects students_in_class academic_year_pk term_pk).

Definition class_writes (Score_objects : list Score)
    (students_in_class : list Student) (academic_year_pk term_pk : Z)
  : list (Z * nat) :=
  rank_assignments dec_ltb snd fst
    (sorted_students_by_avg Score_objects students_in_class
       academic_year_pk term_pk).

(** The ranks a result holds at the keys [keys] (nothing if it raised). *)
Definition positions_at {K : Type} `{Countable K} (r : result (gmap K nat))
    (keys : list K) : list (option nat) :=
  match r with
  | Ok m => (fun k => m !! k) <$> keys
  | Raise _ => []
  end.

(** Sample data: term 1 of year 1.  [one_subject totals] gives student [i]
    (from 1) one row in subject 1 whose total is the [i]-th of [totals], half
    of it as class score. *)
Definition sample_score (student_pk subject_pk class_h exam_h : Z) : Score :=
  mkScore student_pk subject_pk 1 1 class_h exam_h.

Definition one_subject (totals : list Z) : list Score :=
  imap (fun i total =>
          sample_score (Z.of_nat (S i)) 1 (total / 2) (total - total / 2))
       totals.

Definition sample_roster (n : nat) : list Student :=
  (fun i => mkStudent (Z.of_nat (S i)) 1) <$> seq 0 n.

(** The tie scenario: totals 90, 90, 80, 70, 70, 70. *)
Definition tie_scores : list Score :=
  one_subject (hundredths <$> [90; 90; 80; 70; 70; 70]).

(** Three students: A (1) has 90 in subject 1 and 80 in subject 2, B (2) has
    90 and 70, C (3) has 0 in subject 1 and no row in subject 2; student 4 is
    on the roster without any row. *)
Definition cohort_scores : list Score :=
  [ sample_score 1 1 4500 4500; sample_score 1 2 4000 4000;
    sample_score 2 1 4000 5000; sample_score 2 2 3500 3500;
    sample_score 3 1 0 0 ].

(** The rows of [scores_queryset] for one student in one subject. *)
Definition rows_of (student_pk subject_pk : Z) (scores_queryset : list Score)
  : list Score :=
  filter (fun x => student x = student_pk /\ subject x = subject_pk)
         scores_queryset.

(** [cohort_scores] with the rows of subject 1 in another order and other
    rows in subject 2. *)
Definition cohort_scores_variant : list Score :=
  [ sample_score 3 1 0 0; sample_score 7 2 100 200;
    sample_score 2 1 4000 5000; sample_score 1 1 4500 4500;
    sample_score 3 2 5000 5000 ].

(** The exact arithmetic mean of the totals of [student_scores], as a
    rational number of points. *)
Definition exact_mean (student_scores : list Score) : Q :=
  ((sum_total_scores student_scores # 100)
   / inject_Z (Z.of_nat (length student_scores)))%Q.

(** The coefficient of [d] padded to the exponent [e]. *)
Definition dec_scaled (d : Decimal) (e : Z) : Z :=
  coefficient d * 10 ^ (exponent d - e).

(** The comparison [<] of a totally preordered key type. *)
Class StrictWeakOrder {V : Type} (ltb : V -> V -> bool) : Prop := {
  ltb_irrefl : forall a, ltb a a = false;
  ltb_trans : forall a b c, ltb a b = true -> ltb b c = true -> ltb a c = true;
  ltb_cotrans : forall a b c, ltb a c = true -> ltb a b = true \/ ltb b c = true
}.

(** ** Further notions used to state properties of the views *)

(** The number of rows of [rows] whose total is strictly above [total]. *)
Definition rows_above (total : Z) (rows : list Score) : nat :=
  length (filter (fun y => total < total_score y) rows).

(** Whether the position recorded for the row [y] is strictly below [r]. *)
Definition position_below (m : gmap (Z * Z) nat) (r : nat) (y : Score) : bool :=
  match m !! score_key y with
  | Some ry => bool_decide (ry < r)%nat
  | None => false
  end.

(** The letters in order of merit. *)
Definition grade_points (letter : string) : nat :=
  if String.eqb letter "A" then 4
  else if String.eqb letter "B" then 3
  else if String.eqb letter "C" then 2
  else if String.eqb letter "D" then 1
  else 0.

(** Two terms of student 1 in subject 1 in one queryset, with one row of
    student 2. *)
Definition two_terms : list Score :=
  [ mkScore 1 1 1 1 4500 4500; mkScore 1 1 2 1 2000 2000;
    mkScore 2 1 1 1 3000 3000 ].

(** ** views.py: the data of the report cards *)

(** A row of [Student] with the column the report views filter on. *)
Record StudentRow : Type := mkStudentRow {
  as_student :> Student;
  current_academic_year : option Z
}.

(** A row of [ReportCardRemarks]. *)
Record ReportCardRemarks : Type := mkReportCardRemarks {
  remarks_student : Z;
  remarks_term : Z;
  remarks_academic_year : Z;
  attendance_days_present : Z;
  attendance_days_absent : Z;
  talent_and_interest : string;
  class_teacher_remarks : string;
  headteacher_remarks : string
}.

(** One element of [report_cards_data]; a position is [None] where the view
    stores ['N/A']. *)
Record ReportCardEntry : Type := mkReportCardEntry {
  entry_student : StudentRow;
  entry_student_scores : list (Score * option nat);
  entry_learners_average_score : string;
  entry_position_in_class : option nat;
  entry_remarks : option ReportCardRemarks
}.

(** The entries of the context of [generate_individual_report_card] that are
    computed from the scores. *)
Record IndividualReport : Type := mkIndividualReport {
  report_student_scores : list (Score * option nat);
  report_learners_average_score : string;
  report_position_in_class : option nat;
  report_remarks : option ReportCardRemarks
}.

Section ReportCards.
(** The tables, each in its default ordering, and two operations of the
    platform: [str.format] with the specification [.2f], and the ordering of
    score rows by the name of their subject, which depends on the collation
    of the database. *)
Context (Student_objects : list StudentRow) (Score_objects : list Score)
        (ReportCardRemarks_objects : list ReportCardRemarks).
Context (format_2f : Decimal -> string)
        (order_by_subject_name : list Score -> list Score).

(** [Student.objects.filter(grade_level=..., current_academic_year=...)];
    within one grade level, [order_by('last_name', 'first_name')] is the
    default ordering of [Student]. *)
Definition students_in_class_of (grade_level_pk academic_year_pk : Z)
  : list StudentRow :=
  filter (fun r : StudentRow =>
            grade_level r = grade_level_pk
            /\ current_academic_year r = Some academic_year_pk)
         Student_objects.

(** The grade level of the student a score row points to (the join
    [student__grade_level]). *)
Definition student_grade_level (student_pk : Z) : option Z :=
  (fun r : StudentRow => grade_level r)
    <$> head (filter (fun r : StudentRow => pk r = student_pk) Student_objects).

(** [Score.objects.filter(academic_year=..., term=...,
    student__grade_level=...)]. *)
Definition all_scores_in_grade_term (grade_level_pk academic_year_pk term_pk : Z)
  : list Score :=
  filter (fun s => academic_year s = academic_year_pk
                   /\ term s = term_pk
                   /\ student_grade_level (student s) = Some grade_level_pk)
         Score_objects.

(** [total_scores_sum / n if n > 0 else 0] for the [n] rows
    [student_scores]. *)
Definition learners_average (student_scores : list Score) : result Decimal :=
  if (0 <? length student_scores)%nat then
    dec_truediv (dec_of_hundredths (sum_total_scores student_scores))
                (Z.of_nat (length student_scores))
  else mret (dec_of_int 0).

(** [score_obj.subject_position = subject_positions.get(key, 'N/A')] for
    every row. *)
Definition with_subject_positions (subject_positions : gmap (Z * Z) nat)
    (student_scores : list Score) : list (Score * option nat) :=
  (fun score_obj => (score_obj, subject_positions !! score_key score_obj))
    <$> student_scores.

(** [ReportCardRemarks.objects.filter(student=..., academic_year=...,
    term=...).first()]. *)
Definition remarks_of (student_pk academic_year_pk term_pk : Z)
  : option ReportCardRemarks :=
  head (filter (fun r => remarks_student r = student_pk
                         /\ remarks_academic_year r = academic_year_pk
                         /\ remarks_term r = term_pk)
               ReportCardRemarks_objects).

(** The body of the loop of [generate_class_report_card] over
    [students_in_class]. *)
Definition report_card_step (class_positions : gmap Z nat)
    (subject_positions : gmap (Z * Z) nat) (all_scores : list Score)
    (academic_year_pk term_pk : Z)
    (report_cards_data : list ReportCardEntry) (student_row : StudentRow)
  : result (list ReportCardEntry) :=
  let student_scores :=
    filter (fun s => student s = pk student_row) all_scores in
  let annotated := with_subject_positions subject_positions student_scores in
  learners_average_score ← learners_average student_scores;
  let remarks := remarks_of (pk student_row) academic_year_pk term_pk in
  mret (report_cards_data
        ++ [mkReportCardEntry student_row annotated
              (format_2f learners_average_score)
              (class_positions !! pk student_row) remarks]).

(** [report_cards_data] of [generate_class_report_card]. *)
Definition class_report_cards_data (grade_level_pk academic_year_pk term_pk : Z)
  : result (list ReportCardEntry) :=
  let students_in_class :=
    students_in_class_of grade_level_pk academic_year_pk in
  let all_scores :=
    all_scores_in_grade_term grade_level_pk academic_year_pk term_pk in
  class_positions ←
    calculate_class_positions Score_objects (as_student <$> students_in_class)
      academic_year_pk term_pk;
  subject_positions ← calculate_subject_positions all_scores;
  for_each (report_card_step class_positions subject_positions all_scores
              academic_year_pk term_pk) [] students_in_class.

(** The scores, remarks, average and positions
    [generate_individual_report_card] puts in its context for the student
    row [student_row]. *)
Definition individual_report_data (student_row : StudentRow)
    (academic_year_pk term_pk : Z) : result IndividualReport :=
  let student_scores :=
    order_by_subject_name
      (filter_student Score_objects (pk student_row) academic_year_pk term_pk) in
  let remarks := remarks_of (pk student_row) academic_year_pk term_pk in
  learners_average_score ← learners_average student_scores;
  let students_in_class :=
    students_in_class_of (grade_level student_row) academic_year_pk in
  class_positions ←
    calculate_class_positions Score_objects (as_student <$> students_in_class)
      academic_year_pk term_pk;
  let position_in_class := class_positions !! pk student_row in
  let all_scores :=
    all_scores_in_grade_term (grade_level student_row) academic_year_pk term_pk in
  subject_positions ← calculate_subject_positions all_scores;
  mret (mkIndividualReport
          (with_subject_positions subject_positions student_scores)
          (format_2f learners_average_score) position_in_class remarks).

(** The average shown for the rows [student_scores], when the division does
    not raise. *)
Definition shown_average (student_scores : list Score) : Decimal :=
  if bool_decide (student_scores <> [])
  then mean_total_score student_scores else dec_of_int 0.

(** The entry the loop appends for [student_row], when nothing raises. *)
Definition report_card_entry (class_positions : gmap Z nat)
    (subject_positions : gmap (Z * Z) nat) (all_scores : list Score)
    (academic_year_pk term_pk : Z) (student_row : StudentRow)
  : ReportCardEntry :=
  let student_scores :=
    filter (fun s => student s = pk student_row) all_scores in
  mkReportCardEntry student_row
    (with_subject_positions subject_positions student_scores)
    (format_2f (shown_average student_scores))
    (class_positions !! pk student_row)
    (remarks_of (pk student_row) academic_year_pk term_pk).
End ReportCards.

(** Sample tables: students 1 to 3 are enrolled in grade level 1 for year 1,
    student 4 is in grade level 1 without a current year, student 5 is in
    grade level 2. *)
Definition sample_students : list StudentRow :=
  [ mkStudentRow (mkStudent 1 1) (Some 1); mkStudentRow (mkStudent 2 1) (Some 1);
    mkStudentRow (mkStudent 3 1) (Some 1); mkStudentRow (mkStudent 4 1) None;
    mkStudentRow (mkStudent 5 2) (Some 1) ].

Definition sample_remarks : list ReportCardRemarks :=
  [ mkReportCardRemarks 1 1 1 60 2 "Music" "Keep it up" "Promoted" ].

(** A stand-in for [format_2f] in the examples: it only tells a zero from
    another value. *)
Definition sample_format (d : Decimal) : string :=
  if coefficient d =? 0 then "0.00"%string else "--"%string.

(** ** views.py: rows created by the class score entry page *)

(** Exceptions of the object manager and of the access to a related
    object. *)
Inductive query_exn : Type :=
  | DoesNotExist
  | MultipleObjectsReturned
  | RelatedObjectDoesNotExist.

Inductive query (A : Type) : Type :=
  | Found (a : A)
  | Failed (e : query_exn).
Arguments Found {A} a.
Arguments Failed {A} e.

#[global] Instance query_ret : MRet query := fun A a => Found a.

#[global] Instance query_bind : MBind query := fun A B k m =>
  match m with
  | Found a => k a
  | Failed e => Failed e
  end.

(** A [for] loop over [l] in the [query] monad. *)
Fixpoint query_for_each {A S : Type} (body : S -> A -> query S) (s : S)
    (l : list A) : query S :=
  match l with
  | [] => Found s
  | x :: l' => s' ← body s x; query_for_each body s' l'
  end.

(** The columns of [unique_together] of [Score]. *)
Definition unique_key (s : Score) : Z * Z * Z * Z :=
  (student s, subject s, term s, academic_year s).

(** [Score.objects.get(student=..., subject=..., term=...,
    academic_year=...)] on the rows [table] of [Score]. *)
Definition get_score (table : list Score) (key : Z * Z * Z * Z) : query Score :=
  match filter (fun s => unique_key s = key) table with
  | [] => Failed DoesNotExist
  | [score] => Found score
  | _ => Failed MultipleObjectsReturned
  end.

(** [Score.objects.get_or_create(..., defaults={'class_score': 0,
    'exam_score': 0})]: the row, whether it was created, and the rows of the
    table afterwards.  A created row is put last: the order of the rows of
    the table is not observed by what follows.  Requests are served one at a
    time: the [IntegrityError] of a concurrent insertion is not modelled. *)
Definition get_or_create_score (table : list Score) (key : Z * Z * Z * Z)
  : query (Score * bool * list Score) :=
  match get_score table key with
  | Found score => Found (score, false, table)
  | Failed DoesNotExist =>
      let '(student_pk, subject_pk, term_pk, academic_year_pk) := key in
      let score :=
        mkScore student_pk subject_pk term_pk academic_year_pk 0 0 in
      Found (score, true, table ++ [score])
  | Failed e => Failed e
  end.

(** The body of the inner loop of [class_score_entry_bulk] that prepares
    [initial_data]; an element of [initial_data] is given by the row it is
    read from. *)
Definition initial_data_step (term_pk academic_year_pk : Z) (student : Student)
    (state : list Score * list Score) (subject_pk : Z)
  : query (list Score * list Score) :=
  let '(table, initial_data) := state in
  r ← get_or_create_score table
         (pk student, subject_pk, term_pk, academic_year_pk);
  let '(score, created, table') := r in
  mret (table', initial_data ++ [score]).

(** The two nested loops: the table and [initial_data] afterwards. *)
Definition prepare_initial_data (table : list Score)
    (students_in_class : list Student) (subjects_for_grade : list Z)
    (term_pk academic_year_pk : Z) : query (list Score * list Score) :=
  query_for_each
    (fun state student =>
       query_for_each (initial_data_step term_pk academic_year_pk student)
         state subjects_for_grade)
    (table, []) students_in_class.
(** A row without marks for a student of [students] in a subject of
    [subjects], in the given term and year. *)
Definition blank_row_of (students : list Student) (subjects : list Z)
    (term_pk academic_year_pk : Z) (s : Score) : Prop :=
  class_score s = 0 /\ exam_score s = 0
  /\ term s = term_pk /\ academic_year s = academic_year_pk
  /\ subject s ∈ subjects /\ student s ∈ pk <$> students.

(** [table'] is [table] followed by rows that satisfy [P]. *)
Definition extends_by (P : Score -> Prop) (table table' : list Score) : Prop :=
  exists created : list Score, table' = table ++ created /\ Forall P created.

(** The subjects of grade level 1 in the examples. *)
Definition sample_subjects : list Z := [1; 2].

(** ** views.py: roles and the listing views *)

(** A row of [Teacher]: the grade level the teacher is class teacher of, and
    the subjects taught. *)
Record Teacher : Type := mkTeacher {
  class_teacher_of : option Z;
  subjects_taught : list Z
}.

(** What the views read of [request.user]: the flag, the names of the groups
    and the teacher profile, if there is one. *)
Record User : Type := mkUser {
  is_superuser : bool;
  groups : list string;
  teacher_profile : option Teacher
}.

(** [user.groups.filter(name=name).exists()]. *)
Definition in_group (name : string) (user : User) : bool :=
  existsb (String.eqb name) (groups user).

(** [hasattr(user, 'teacher_profile')]. *)
Definition has_teacher_profile (user : User) : bool :=
  match teacher_profile user with
  | Some _ => true
  | None => false
  end.

(** The attribute access [user.teacher_profile]. *)
Definition get_teacher_profile (user : User) : query Teacher :=
  match teacher_profile user with
  | Some profile => Found profile
  | None => Failed RelatedObjectDoesNotExist
  end.

Definition is_administrator (user : User) : bool :=
  is_superuser user || in_group "Administrators" user.

Definition is_class_teacher (user : User) : query bool :=
  if in_group "Class Teachers" user then
    if has_teacher_profile user then
      profile ← get_teacher_profile user;
      mret (match class_teacher_of profile with
            | Some _ => true
            | None => false
            end)
    else mret false
  else mret false.

Definition is_subject_teacher (user : User) : query bool :=
  if in_group "Subject Teachers" user then
    if has_teacher_profile user then
      profile ← get_teacher_profile user;
      mret (match subjects_taught profile with
            | [] => false
            | _ :: _ => true
            end)
    else mret false
  else mret false.

(** The context a listing view renders: the rows listed and the two
    flags. *)
Record ListContext (A : Type) : Type := mkListContext {
  context_rows : list A;
  context_is_admin : bool;
  context_is_class_teacher : bool
}.
Arguments mkListContext {A} _ _ _.
Arguments context_rows {A} _.
Arguments context_is_admin {A} _.
Arguments context_is_class_teacher {A} _.

(** [student_list_view]: the context and the messages added to the
    request. *)
Definition student_list_view (Student_objects : list StudentRow) (user : User)
  : query (ListContext StudentRow * list string) :=
  let students := Student_objects in
  class_teacher ← is_class_teacher user;
  listed ←
    (if class_teacher : bool then
       profile ← get_teacher_profile user;
       match class_teacher_of profile with
       | Some class_teacher_grade_level =>
           mret (filter (fun r : StudentRow =>
                           grade_level r = class_teacher_grade_level)
                        students, [])
       | None =>
           mret ([], ["You are not assigned as a class teacher to any grade level."%string])
       end
     else mret (students, []));
  let is_admin := is_administrator user in
  class_teacher_flag ← is_class_teacher user;
  mret (mkListContext listed.1 is_admin class_teacher_flag, listed.2).

(** [grade_level_list_view], on the primary keys of [GradeLevel] in the
    order of the column [order]. *)
Definition grade_level_list_view (GradeLevel_objects : list Z) (user : User)
  : query (ListContext Z * list string) :=
  let grade_levels := GradeLevel_objects in
  class_teacher ← is_class_teacher user;
  listed ←
    (if class_teacher : bool then
       profile ← get_teacher_profile user;
       match class_teacher_of profile with
       | Some class_teacher_grade_level =>
           mret (filter (fun g => g = class_teacher_grade_level)
                        GradeLevel_objects, [])
       | None =>
           mret ([], ["You are not assigned as a class teacher to any grade level."%string])
       end
     else mret (grade_levels, []));
  let is_admin := is_administrator user in
  class_teacher_flag ← is_class_teacher user;
  mret (mkListContext listed.1 is_admin class_teacher_flag, listed.2).

(** The grade level a user acts for as class teacher: the one of the teacher
    profile, for a member of the group of class teachers. *)
Definition assigned_grade (user : User) : option Z :=
  if in_group "Class Teachers" user then
    profile ← teacher_profile user; class_teacher_of profile
  else None.

(** The permission test in the body of [generate_class_report_card], for a
    logged-in user: when it is false the view redirects to the dashboard.
    (The view has no other permission requirement than [login_required].) *)
Definition may_generate_class_report (user : User) (grade_level_pk : Z)
  : query bool :=
  if is_administrator user then mret true
  else
    class_teacher ← is_class_teacher user;
    if class_teacher : bool then
      profile ← get_teacher_profile user;
      mret (bool_decide (class_teacher_of profile = Some grade_level_pk))
    else mret false.

(** The permission test in the body of [generate_individual_report_card],
    for a logged-in user: when it is false the view redirects to the
    dashboard. *)
Definition may_generate_individual_report (Score_objects : list Score)
    (user : User) (student_row : StudentRow) (academic_year_pk term_pk : Z)
  : query bool :=
  if is_administrator user then mret true
  else
    class_teacher ← is_class_teacher user;
    own_class ←
      (if class_teacher : bool then
         profile ← get_teacher_profile user;
         mret (bool_decide
                 (class_teacher_of profile = Some (grade_level student_row)))
       else mret false);
    if own_class : bool then mret true
    else
      subject_teacher ← is_subject_teacher user;
      if subject_teacher : bool then
        profile ← get_teacher_profile user;
        mret (bool_decide
                (filter (fun s => student s = pk student_row
                                  /\ term s = term_pk
                                  /\ academic_year s = academic_year_pk
                                  /\ subject s ∈ subjects_taught profile)
                        Score_objects <> []))
      else mret false.

(** A class teacher of grade level 1 who is in no other group. *)
Definition sample_class_teacher : User :=
  mkUser false ["Class Teachers"%string] (Some (mkTeacher (Some 1) [])).

(** * Proofs *)

(** ** Loops *)

Lemma for_each_app {A S : Type} (body : S -> A -> result S) s l1 l2 :
  for_each body s (l1 ++ l2) = (s' ← for_each body s l1; for_each body s' l2).
Proof.
  revert s. induction l1 as [|x l1 IH]; intros s; simpl; [done|].
  destruct (body s x) as [s'|e]; simpl; [apply IH | done].
Qed.

Lemma for_each_ok {A S : Type} (body : S -> A -> result S) (step : S -> A -> S) l :
  (forall s x, x ∈ l -> body s x = Ok (step s x)) ->
  forall s, for_each body s l = Ok (foldl step s l).
Proof.
  induction l as [|x l IH]; intros Hb s; simpl; [done|].
  rewrite Hb by left. simpl. apply IH. intros s' y Hy. apply Hb. by right.
Qed.

(** ** Dictionaries *)

Section WriteAll.
Context {K : Type} `{Countable K}.
Implicit Types (l : list (K * nat)) (m : gmap K nat).

Lemma write_all_app l1 l2 m :
  write_all (l1 ++ l2) m = write_all l2 (write_all l1 m).
Proof. unfold write_all. apply foldl_app. Qed.

Lemma write_all_lookup_notin l m k :
  k ∉ l.*1 -> write_all l m !! k = m !! k.
Proof.
  revert m. induction l as [|[k' r] l IH]; intros m Hk; simpl; [done|].
  rewrite fmap_cons, not_elem_of_cons in Hk. destruct Hk as [Hne Hk].
  rewrite IH by done. simpl in *. by rewrite lookup_insert_ne.
Qed.

Lemma write_all_lookup_last l1 l2 m k r :
  k ∉ l2.*1 -> write_all (l1 ++ (k, r) :: l2) m !! k = Some r.
Proof.
  intros Hk. rewrite write_all_app. simpl.
  rewrite write_all_lookup_notin by done. simpl. apply lookup_insert_eq.
Qed.

Lemma write_all_lookup_Some l m k r :
  write_all l m !! k = Some r -> (k, r) ∈ l \/ m !! k = Some r.
Proof.
  revert m. induction l as [|[k' r'] l IH]; intros m Hl; simpl in *; [by right|].
  apply IH in Hl as [Hl|Hl]; [left; by right|].
  destruct (decide (k' = k)) as [->|Hne].
  - rewrite lookup_insert_eq in Hl. injection Hl as ->. left. left.
  - rewrite lookup_insert_ne in Hl by done. by right.
Qed.

Lemma write_all_lookup_is_Some l m k :
  k ∈ l.*1 -> is_Some (write_all l m !! k).
Proof.
  intros Hk. apply list_elem_of_split_r in Hk as (ks1 & ks2 & Hl & Hk).
  apply fmap_app_inv in Hl as (l1 & l2' & -> & Hl & ->).
  symmetry in Hl. apply fmap_cons_inv in Hl as ([k' r] & l2 & Hk' & -> & ->).
  simpl in Hk'. subst k'. rewrite write_all_lookup_last by done. eauto.
Qed.
End WriteAll.

(** ** Sorting *)

Section SortingFacts.
Context {V A : Type} (ltb : V -> V -> bool) (key : A -> V).
Implicit Types (x : A) (l : list A).

Lemma insert_reverse_perm x l : insert_reverse ltb key x l ≡ₚ x :: l.
Proof.
  induction l as [|y l IH]; simpl; [done|].
  destruct (ltb (key x) (key y)); [|done].
  rewrite IH. apply Permutation_swap.
Qed.

Lemma sorted_reverse_perm l : sorted_reverse ltb key l ≡ₚ l.
Proof.
  induction l as [|x l IH]; simpl; [done|].
  by rewrite insert_reverse_perm, IH.
Qed.


Lemma sorted_reverse_elem_of x l : x ∈ sorted_reverse ltb key l <-> x ∈ l.
Proof. by rewrite sorted_reverse_perm. Qed.

Context `{!StrictWeakOrder ltb}.

Lemma ltb_asym (a b : V) : ltb a b = true -> ltb b a = false.
Proof.
  intros Hab. destruct (ltb b a) eqn:Hba; [|done].
  rewrite <- (ltb_irrefl a). symmetry. by apply ltb_trans with b.
Qed.

Lemma nlt_trans (a b c : V) :
  ltb a b = false -> ltb b c = false -> ltb a c = false.
Proof.
  intros Hab Hbc. destruct (ltb a c) eqn:Hac; [|done].
  destruct (ltb_cotrans a b c Hac); congruence.
Qed.

Lemma insert_reverse_descending x l :
  descending ltb (key <$> l) ->
  descending ltb (key <$> insert_reverse ltb key x l).
Proof.
  unfold descending. induction l as [|y l IH]; simpl; intros Hl.
  - repeat constructor.
  - apply StronglySorted_cons in Hl as [Hy Hl].
    destruct (ltb (key x) (key y)) eqn:Hxy; simpl.
    + apply StronglySorted_cons. split; [|by apply IH].
      rewrite insert_reverse_perm. simpl. constructor; [|done].
      by apply ltb_asym.
    + apply StronglySorted_cons. split.
      * constructor; [done|].
        eapply Forall_impl; [exact Hy|]. simpl. intros b Hb.
        by apply nlt_trans with (key y).
      * by apply StronglySorted_cons.
Qed.

Lemma sorted_reverse_descending l :
  descending ltb (key <$> sorted_reverse ltb key l).
Proof.
  induction l as [|x l IH]; simpl.
  - constructor.
  - by apply insert_reverse_descending.
Qed.
End SortingFacts.

(** ** The ranking rule *)

Section RanksFacts.
Context {V : Type} (ltb : V -> V -> bool).
Implicit Types (v p : V) (vs : list V).

Lemma ranks_from_length prev i cur vs :
  length (ranks_from ltb prev i cur vs) = length vs.
Proof.
  revert prev i cur. induction vs as [|v vs IH]; intros; simpl; [done|].
  by rewrite IH.
Qed.

Lemma competition_ranks_length vs :
  length (competition_ranks ltb vs) = length vs.
Proof. apply ranks_from_length. Qed.

Lemma competition_ranks_first v vs :
  competition_ranks ltb (v :: vs) !! 0%nat = Some 1%nat.
Proof. done. Qed.

Lemma ranks_from_step prev i cur vs j p v r :
  vs !! j = Some p -> vs !! S j = Some v ->
  ranks_from ltb prev i cur vs !! j = Some r ->
  ranks_from ltb prev i cur vs !! S j
  = Some (if ltb v p then S (i + S j) else r).
Proof.
  revert prev i cur j. induction vs as [|v0 vs IH]; intros prev i cur j; [done|].
  destruct j as [|j]; simpl.
  - intros [= ->] Hv [= <-]. destruct vs as [|v1 vs]; [done|].
    simpl in *. injection Hv as ->. by rewrite Nat.add_1_r.
  - intros Hp Hv Hr. rewrite (IH _ _ _ _ Hp Hv Hr).
    by rewrite Nat.add_succ_l, <- Nat.add_succ_r.
Qed.

Lemma competition_ranks_step vs j p v r :
  vs !! j = Some p -> vs !! S j = Some v ->
  competition_ranks ltb vs !! j = Some r ->
  competition_ranks ltb vs !! S j = Some (if ltb v p then S (S j) else r).
Proof. apply ranks_from_step. Qed.




End RanksFacts.

Section StandardRank.
Context {V : Type} (ltb : V -> V -> bool) `{!StrictWeakOrder ltb}.
Implicit Types (v p : V) (vs : list V).

Lemma count_greater_app v vs1 vs2 :
  count_greater ltb v (vs1 ++ vs2)
  = (count_greater ltb v vs1 + count_greater ltb v vs2)%nat.
Proof. unfold count_greater. by rewrite filter_app, length_app. Qed.

Lemma count_greater_none v vs :
  Forall (fun w => ltb v w = false) vs -> count_greater ltb v vs = 0%nat.
Proof.
  unfold count_greater. induction 1 as [|w vs Hw _ IH]; [done|].
  rewrite filter_cons_False; [done|]. rewrite Hw. by intros [].
Qed.

Lemma count_greater_all v vs :
  Forall (fun w => ltb v w = true) vs -> count_greater ltb v vs = length vs.
Proof.
  unfold count_greater. induction 1 as [|w vs Hw _ IH]; [done|].
  rewrite filter_cons_True; [simpl; by rewrite IH|]. by rewrite Hw.
Qed.

Lemma count_greater_perm v vs1 vs2 :
  vs1 ≡ₚ vs2 -> count_greater ltb v vs1 = count_greater ltb v vs2.
Proof. unfold count_greater. by intros ->. Qed.

(** Two values neither of which is below the other have the same values
    above them. *)
Lemma ltb_equiv_r v p w :
  ltb v p = false -> ltb p v = false -> ltb v w = ltb p w.
Proof.
  intros Hvp Hpv. destruct (ltb v w) eqn:Hv, (ltb p w) eqn:Hp; try done.
  - destruct (ltb_cotrans v p w Hv); congruence.
  - destruct (ltb_cotrans p v w Hp); congruence.
Qed.

Lemma count_greater_equiv v p vs :
  ltb v p = false -> ltb p v = false ->
  count_greater ltb v vs = count_greater ltb p vs.
Proof.
  intros Hvp Hpv. unfold count_greater. f_equal.
  apply list_filter_iff. intros w. by rewrite (ltb_equiv_r v p w).
Qed.

Lemma count_greater_descending v pre rest :
  descending ltb (pre ++ v :: rest) ->
  count_greater ltb v (pre ++ v :: rest) = count_greater ltb v pre.
Proof.
  intros Hd. apply StronglySorted_app in Hd as (_ & _ & Hd).
  apply StronglySorted_cons in Hd as [Hv _].
  rewrite count_greater_app, (count_greater_none v (v :: rest)); [lia|].
  constructor; [apply ltb_irrefl | done].
Qed.

Lemma ranks_from_descending rest : forall pre prev cur,
  descending ltb (pre ++ rest) ->
  match prev with
  | None => pre = [] /\ cur = 1%nat
  | Some p => (exists pre', pre = pre' ++ [p])
              /\ cur = standard_rank ltb p (pre ++ rest)
  end ->
  ranks_from ltb prev (length pre) cur rest
  = (fun v => standard_rank ltb v (pre ++ rest)) <$> rest.
Proof.
  induction rest as [|v rest IH]; intros pre prev cur Hd Hinv; [done|].
  simpl.
  assert (match prev with
          | Some p => if ltb v p then S (length pre) else cur
          | None => cur
          end = standard_rank ltb v (pre ++ v :: rest)) as Hrank.
  { unfold standard_rank in *. rewrite count_greater_descending by done.
    destruct prev as [p|].
    - destruct Hinv as [[pre' ->] ->].
      assert (descending ltb (pre' ++ p :: v :: rest)) as Hd'
        by (by rewrite <- app_assoc in Hd).
      pose proof Hd' as (Hpre & _ & Hp)%StronglySorted_app.
      apply StronglySorted_cons in Hp as [Hp _].
      apply Forall_cons in Hp as [Hpv _].
      destruct (ltb v p) eqn:Hvp.
      + f_equal. symmetry. apply count_greater_all.
        apply Forall_app. split; [|by repeat constructor].
        apply Forall_forall. intros w Hw.
        destruct (ltb_cotrans v w p Hvp) as [|Hwp]; [done|].
        rewrite (Hpre w p) in Hwp; [done|done|left].
      + rewrite (count_greater_app v), (count_greater_none v [p])
          by (by repeat constructor).
        rewrite <- app_assoc. simpl.
        rewrite (count_greater_descending p) by done.
        rewrite Nat.add_0_r. f_equal. by apply count_greater_equiv.
    - destruct Hinv as [-> ->]. done. }
  rewrite Hrank. f_equal.
  replace (S (length pre)) with (length (pre ++ [v]))
    by (rewrite length_app; simpl; lia).
  replace (pre ++ v :: rest) with ((pre ++ [v]) ++ rest)
    by (by rewrite <- app_assoc).
  apply IH.
  - by rewrite <- app_assoc.
  - split; [by exists pre|]. by rewrite <- app_assoc.
Qed.

(** On values in decreasing order the walk computes standard competition
    ranks. *)
Lemma competition_ranks_descending vs :
  descending ltb vs ->
  competition_ranks ltb vs = (fun v => standard_rank ltb v vs) <$> vs.
Proof. intros Hd. by apply (ranks_from_descending vs [] None 1%nat). Qed.
End StandardRank.

(** ** The ranking loop *)

Section RankLoopFacts.
Context {V A K : Type} `{Countable K}.
Context (ltb : V -> V -> bool) (key : A -> V) (dkey : A -> K).
Implicit Types (x : A) (m : gmap K nat).

Lemma rank_step_eq pre x rest cur m :
  let rank := match last (key <$> pre) with
              | Some p => if ltb (key x) p then S (length pre) else cur
              | None => cur
              end in
  rank_step ltb key dkey (pre ++ x :: rest) (cur, m) (length pre, x)
  = Ok (rank, <[dkey x := rank]> m).
Proof.
  destruct pre as [|p pre _] using rev_ind; [done|].
  cbv zeta. rewrite fmap_app. cbn [fmap list_fmap].
  rewrite last_snoc, length_app. cbn [length].
  unfold rank_step, index.
  replace (0 <? length pre + 1)%nat with true
    by (symmetry; apply Nat.ltb_lt; lia).
  replace (length pre + 1 - 1)%nat with (length pre) by lia.
  rewrite <- app_assoc. cbn [app]. rewrite list_lookup_middle by done. simpl.
  by rewrite (Nat.add_1_r (length pre + 1)), (Nat.add_1_r (length pre)).
Qed.

Lemma rank_loop_from rest : forall pre cur m,
  exists cur',
    for_each (rank_step ltb key dkey (pre ++ rest)) (cur, m)
             (zip (seq (length pre) (length rest)) rest)
    = Ok (cur', write_all
                  (zip (dkey <$> rest)
                       (ranks_from ltb (last (key <$> pre)) (length pre) cur
                                   (key <$> rest))) m).
Proof.
  induction rest as [|x rest IH]; intros pre cur m; [by exists cur|].
  change (zip (seq (length pre) (length (x :: rest))) (x :: rest))
    with ((length pre, x) :: zip (seq (S (length pre)) (length rest)) rest).
  change (for_each ?b ?s (?y :: ?l)) with (s' ← b s y; for_each b s' l).
  rewrite rank_step_eq.
  set (rank := match last (key <$> pre) with
               | Some p => if ltb (key x) p then S (length pre) else cur
               | None => cur
               end).
  destruct (IH (pre ++ [x]) rank (<[dkey x := rank]> m)) as [cur' Hcur'].
  exists cur'.
  rewrite <- app_assoc, length_app, fmap_app in Hcur'.
  cbn [fmap list_fmap length app] in Hcur'.
  rewrite last_snoc, Nat.add_1_r in Hcur'.
  etrans; [exact Hcur'|]. done.
Qed.

(** The loop writes the pairs of [rank_assignments], in order, and raises
    nothing. *)
Lemma rank_loop_eq ranked m :
  rank_loop ltb key dkey ranked m
  = Ok (write_all (rank_assignments ltb key dkey ranked) m).
Proof.
  unfold rank_loop, enumerate.
  destruct (rank_loop_from ranked [] 1%nat m) as [cur' Hcur'].
  simpl in Hcur'. by rewrite Hcur'.
Qed.
End RankLoopFacts.

Lemma zip_fmap_same {A B C : Type} (f : A -> B) (g : A -> C) (l : list A) :
  zip (f <$> l) (g <$> l) = (fun x => (f x, g x)) <$> l.
Proof. induction l as [|x l IH]; simpl; [done|]. by f_equal. Qed.

Section RankedLookup.
Context {V A K : Type} `{Countable K}.
Context (ltb : V -> V -> bool) `{!StrictWeakOrder ltb}.
Context (key : A -> V) (dkey : A -> K).
Implicit Types (x : A) (l : list A) (m : gmap K nat).

Lemma rank_assignments_sorted l :
  rank_assignments ltb key dkey (sorted_reverse ltb key l)
  = ranked_pair ltb key dkey l <$> sorted_reverse ltb key l.
Proof.
  unfold rank_assignments.
  rewrite competition_ranks_descending
    by (done || apply sorted_reverse_descending; done).
  rewrite <- list_fmap_compose, zip_fmap_same.
  apply list_fmap_ext. intros _ x _. unfold ranked_pair, standard_rank. simpl.
  do 2 f_equal. apply count_greater_perm. by rewrite sorted_reverse_perm.
Qed.

Lemma ranked_pair_keys l l' : (ranked_pair ltb key dkey l <$> l').*1 = dkey <$> l'.
Proof. rewrite <- list_fmap_compose. by apply list_fmap_ext. Qed.

Lemma sorted_writes_lookup_notin l m k :
  (forall x, x ∈ l -> dkey x <> k) ->
  write_all (rank_assignments ltb key dkey (sorted_reverse ltb key l)) m !! k
  = m !! k.
Proof.
  intros Hk. rewrite rank_assignments_sorted.
  apply write_all_lookup_notin. rewrite ranked_pair_keys.
  intros (x & Hx & Hin)%list_elem_of_fmap.
  apply sorted_reverse_elem_of in Hin. by apply (Hk x).
Qed.

(** A key of [l] ends with the standard competition rank of its lowest
    row. *)
Lemma sorted_writes_lookup l m k x :
  x ∈ l -> dkey x = k ->
  (forall y, y ∈ l -> dkey y = k -> ltb (key y) (key x) = false) ->
  write_all (rank_assignments ltb key dkey (sorted_reverse ltb key l)) m !! k
  = Some (standard_rank ltb (key x) (key <$> l)).
Proof.
  intros Hx Hkx Hmin. rewrite rank_assignments_sorted.
  pose proof (sorted_reverse_descending ltb key l) as Hd.
  assert (x ∈ sorted_reverse ltb key l) as Hxs
    by by apply sorted_reverse_elem_of.
  assert (k ∈ dkey <$> sorted_reverse ltb key l) as Hk
    by (apply list_elem_of_fmap; eauto).
  apply list_elem_of_split_r in Hk as (ks1 & ks2 & Hsplit & Hk2).
  apply fmap_app_inv in Hsplit as (sl1 & sl2' & _ & Hsl2 & Hsl).
  symmetry in Hsl2. apply fmap_cons_inv in Hsl2 as (z & sl2 & Hz & -> & ->).
  rewrite Hsl in *. rewrite fmap_app, fmap_cons.
  change (ranked_pair ltb key dkey l z)
    with (dkey z, standard_rank ltb (key z) (key <$> l)).
  rewrite <- Hz.
  rewrite write_all_lookup_last by (by rewrite ranked_pair_keys).
  f_equal. unfold standard_rank. f_equal.
  assert (z ∈ l) as Hzl.
  { apply (sorted_reverse_elem_of ltb key). rewrite Hsl.
    apply elem_of_app. right. left. }
  apply count_greater_equiv; [done|by apply Hmin|].
  apply elem_of_app in Hxs as [Hx1|Hx2].
  - rewrite fmap_app in Hd. apply StronglySorted_app in Hd as (Hd & _ & _).
    apply Hd; [by apply list_elem_of_fmap_2|]. simpl. left.
  - apply elem_of_cons in Hx2 as [->|Hx2]; [apply ltb_irrefl|].
    exfalso. apply Hk2. rewrite <- Hkx. by apply list_elem_of_fmap_2.
Qed.
End RankedLookup.

(** ** The two orders used by the views *)

#[global] Instance Z_ltb_swo : StrictWeakOrder Z.ltb.
Proof.
  split.
  - apply Z.ltb_irrefl.
  - intros a b c ?%Z.ltb_lt ?%Z.ltb_lt. apply Z.ltb_lt. lia.
  - intros a b c ?%Z.ltb_lt. rewrite !Z.ltb_lt. lia.
Qed.

Lemma dec_scaled_le d e e' :
  e' <= e <= exponent d -> dec_scaled d e' = dec_scaled d e * 10 ^ (e - e').
Proof.
  intros He. unfold dec_scaled.
  replace (exponent d - e') with ((exponent d - e) + (e - e')) by lia.
  rewrite Z.pow_add_r by lia. lia.
Qed.

(** Padding further does not change a comparison. *)
Lemma dec_ltb_scaled a b e :
  e <= exponent a -> e <= exponent b ->
  dec_ltb a b = (dec_scaled a e <? dec_scaled b e).
Proof.
  intros Ha Hb. unfold dec_ltb.
  set (m := Z.min (exponent a) (exponent b)).
  change (coefficient a * 10 ^ (exponent a - m)) with (dec_scaled a m).
  change (coefficient b * 10 ^ (exponent b - m)) with (dec_scaled b m).
  rewrite (dec_scaled_le a m e), (dec_scaled_le b m e) by lia.
  assert (0 < 10 ^ (m - e)) as Hpos by (apply Z.pow_pos_nonneg; lia).
  apply eq_true_iff_eq. rewrite !Z.ltb_lt. nia.
Qed.

#[global] Instance dec_ltb_swo : StrictWeakOrder dec_ltb.
Proof.
  split.
  - intros a. unfold dec_ltb. apply Z.ltb_irrefl.
  - intros a b c.
    set (e := Z.min (exponent a) (Z.min (exponent b) (exponent c))).
    rewrite (dec_ltb_scaled a b e), (dec_ltb_scaled b c e),
      (dec_ltb_scaled a c e) by lia.
    rewrite !Z.ltb_lt. lia.
  - intros a b c.
    set (e := Z.min (exponent a) (Z.min (exponent b) (exponent c))).
    rewrite (dec_ltb_scaled a b e), (dec_ltb_scaled b c e),
      (dec_ltb_scaled a c e) by lia.
    rewrite !Z.ltb_lt. lia.
Qed.

Lemma write_all_lookup_empty {K : Type} `{Countable K}
    (l : list (K * nat)) (m : gmap K nat) (k : K) :
  write_all l m !! k
  = match write_all l ∅ !! k with Some r => Some r | None => m !! k end.
Proof.
  destruct (decide (k ∈ l.*1)) as [Hk|Hk].
  - apply list_elem_of_split_r in Hk as (ks1 & ks2 & Hl & Hk).
    apply fmap_app_inv in Hl as (l1 & l2' & -> & Hl & ->).
    symmetry in Hl. apply fmap_cons_inv in Hl as ([k' r] & l2 & Hk' & -> & ->).
    simpl in Hk'. subst k'. by rewrite !write_all_lookup_last.
  - by rewrite !write_all_lookup_notin, lookup_empty.
Qed.

(** ** Positions within each subject *)

Lemma subject_pass_eq qs m sid :
  subject_pass qs m sid = Ok (write_all (subject_writes qs sid) m).
Proof. apply rank_loop_eq. Qed.

Lemma calculate_subject_positions_eq qs :
  calculate_subject_positions qs
  = Ok (foldl (fun m sid => write_all (subject_writes qs sid) m) ∅
              (distinct_subjects qs)).
Proof.
  unfold calculate_subject_positions. apply for_each_ok.
  intros m sid _. apply subject_pass_eq.
Qed.

Lemma order_by_scores_perm qs : order_by_scores qs ≡ₚ qs.
Proof. apply sorted_reverse_perm. Qed.

Lemma ranked_scores_perm qs sid : ranked_scores qs sid ≡ₚ filter_subject sid qs.
Proof.
  unfold ranked_scores. by rewrite sorted_reverse_perm, order_by_scores_perm.
Qed.

Lemma ranked_scores_elem_of qs sid x :
  x ∈ ranked_scores qs sid <-> x ∈ qs /\ subject x = sid.
Proof.
  rewrite ranked_scores_perm. unfold filter_subject.
  rewrite list_elem_of_filter. tauto.
Qed.

Lemma rank_assignments_keys {V A K : Type} (ltb : V -> V -> bool)
    (key : A -> V) (dkey : A -> K) (ranked : list A) :
  (rank_assignments ltb key dkey ranked).*1 = dkey <$> ranked.
Proof.
  unfold rank_assignments. apply fst_zip.
  by rewrite competition_ranks_length, !length_fmap.
Qed.

Lemma subject_writes_keys qs sid k :
  k ∈ (subject_writes qs sid).*1 -> k.2 = sid.
Proof.
  unfold subject_writes. rewrite rank_assignments_keys.
  intros (x & -> & Hx)%list_elem_of_fmap.
  by apply ranked_scores_elem_of in Hx as [_ Hx].
Qed.

Lemma subject_writes_other qs sid st s m :
  sid <> s -> write_all (subject_writes qs sid) m !! (st, s) = m !! (st, s).
Proof.
  intros Hne. apply write_all_lookup_notin.
  intros Hk%subject_writes_keys. simpl in Hk. congruence.
Qed.

Lemma subjects_fold_lookup qs st s sids : forall m,
  foldl (fun m sid => write_all (subject_writes qs sid) m) m sids !! (st, s)
  = if decide (s ∈ sids)
    then match write_all (subject_writes qs s) ∅ !! (st, s) with
         | Some r => Some r
         | None => m !! (st, s)
         end
    else m !! (st, s).
Proof.
  induction sids as [|sid sids IH]; intros m; cbn [foldl].
  - by rewrite decide_False by apply not_elem_of_nil.
  - rewrite IH. destruct (decide (sid = s)) as [->|Hne].
    + rewrite (decide_True (P := s ∈ s :: sids)) by left.
      rewrite (write_all_lookup_empty _ m).
      clear IH. destruct (write_all (subject_writes qs s) ∅ !! (st, s));
        by case_decide.
    + rewrite (subject_writes_other qs sid) by done.
      destruct (decide (s ∈ sids)) as [Hs|Hs].
      * rewrite decide_True by (by right). done.
      * rewrite decide_False; [done|]. rewrite not_elem_of_cons. split; congruence.
Qed.

Lemma distinct_subjects_elem_of qs s :
  s ∈ distinct_subjects qs <-> exists x, x ∈ qs /\ subject x = s.
Proof.
  unfold distinct_subjects. rewrite elem_of_remove_dups, list_elem_of_fmap.
  split; [intros (x & -> & Hx) | intros (x & Hx & <-)]; eauto.
Qed.

Lemma subject_writes_absent qs s :
  s ∉ distinct_subjects qs -> subject_writes qs s = [].
Proof.
  intros Hs. unfold subject_writes.
  destruct (ranked_scores qs s) as [|x r] eqn:Hr; [done|].
  exfalso. apply Hs, distinct_subjects_elem_of. exists x.
  apply ranked_scores_elem_of. rewrite Hr. left.
Qed.

(** The dictionary returned for a queryset: each key holds what the pass over
    its own subject writes. *)
Lemma calculate_subject_positions_lookup qs :
  exists m, calculate_subject_positions qs = Ok m
    /\ forall st s, m !! (st, s) = write_all (subject_writes qs s) ∅ !! (st, s).
Proof.
  eexists. split; [apply calculate_subject_positions_eq|].
  intros st s. rewrite subjects_fold_lookup, lookup_empty.
  case_decide as Hs.
  - by destruct (write_all (subject_writes qs s) ∅ !! (st, s)).
  - by rewrite subject_writes_absent.
Qed.

Lemma order_by_scores_elem_of qs sid x :
  x ∈ order_by_scores (filter_subject sid qs) <-> x ∈ qs /\ subject x = sid.
Proof.
  rewrite order_by_scores_perm. unfold filter_subject.
  rewrite list_elem_of_filter. tauto.
Qed.

(** Looping over any list that names the same subjects, in any order and
    with repetitions, gives the same dictionary. *)
Lemma subject_loop_repeats qs sids :
  (forall s, s ∈ sids <-> s ∈ distinct_subjects qs) ->
  for_each (subject_pass qs) ∅ sids = calculate_subject_positions qs.
Proof.
  intros Hsame.
  destruct (calculate_subject_positions_lookup qs) as (m & -> & Hlook).
  rewrite (for_each_ok _ (fun m sid => write_all (subject_writes qs sid) m))
    by (intros m' sid _; apply subject_pass_eq).
  f_equal. apply map_eq. intros [st s].
  rewrite subjects_fold_lookup, Hlook, lookup_empty.
  case_decide as Hs.
  - by destruct (write_all (subject_writes qs s) ∅ !! (st, s)).
  - rewrite subject_writes_absent; [done|]. by rewrite <- Hsame.
Qed.

(** A student without a row for subject [s] has no entry for [s]. *)
Lemma subject_position_absent qs m st s :
  calculate_subject_positions qs = Ok m ->
  (forall x, x ∈ qs -> subject x = s -> student x <> st) ->
  m !! (st, s) = None.
Proof.
  intros Hm Habs.
  destruct (calculate_subject_positions_lookup qs) as (m' & Hm' & Hlook).
  rewrite Hm in Hm'. injection Hm' as <-. rewrite Hlook.
  unfold subject_writes, ranked_scores.
  rewrite (sorted_writes_lookup_notin Z.ltb total_score score_key);
    [apply lookup_empty|].
  intros x [Hx Hs]%order_by_scores_elem_of [= Hst _]. by apply (Habs x).
Qed.

(** An entry holds the standard competition rank, within its subject, of
    the lowest total recorded under its key. *)
Lemma subject_position_lowest qs m x :
  calculate_subject_positions qs = Ok m ->
  x ∈ qs ->
  (forall y, y ∈ qs -> score_key y = score_key x ->
             total_score x <= total_score y) ->
  m !! score_key x
  = Some (standard_rank Z.ltb (total_score x)
            (total_score <$> filter_subject (subject x) qs)).
Proof.
  intros Hm Hx Hmin.
  destruct (calculate_subject_positions_lookup qs) as (m' & Hm' & Hlook).
  rewrite Hm in Hm'. injection Hm' as <-.
  unfold score_key at 1. rewrite Hlook.
  unfold subject_writes, ranked_scores.
  rewrite (sorted_writes_lookup Z.ltb total_score score_key _ _ _ x).
  - unfold standard_rank. do 2 f_equal. apply count_greater_perm.
    by rewrite order_by_scores_perm.
  - by apply order_by_scores_elem_of.
  - done.
  - intros y [Hy _]%order_by_scores_elem_of Hk. apply Z.ltb_ge. by apply Hmin.
Qed.

(** ** Insertion-ordered dictionaries *)

Section Dict.
Context {V : Type}.
Implicit Types (d : list (Z * V)) (k : Z) (v : V).

Lemma dict_get_set d k v k' :
  dict_get (dict_set d k v) k'
  = if decide (k = k') then Some v else dict_get d k'.
Proof.
  induction d as [|[k0 v0] d IH]; simpl.
  - by repeat case_decide.
  - destruct (decide (k0 = k)) as [->|Hne]; simpl.
    + by repeat case_decide.
    + rewrite IH. repeat case_decide; congruence.
Qed.

Lemma dict_get_None d k : dict_get d k = None <-> k ∉ d.*1.
Proof.
  induction d as [|[k0 v0] d IH]; simpl.
  - split; [intros _; apply not_elem_of_nil | done].
  - rewrite not_elem_of_cons. case_decide as Hk.
    + split; [done | intros [Hne _]; congruence].
    + rewrite IH. split; [intros ?; split; [congruence | done] | by intros [_ ?]].
Qed.

Lemma dict_set_keys d k v :
  (dict_set d k v).*1 = if decide (k ∈ d.*1) then d.*1 else d.*1 ++ [k].
Proof.
  induction d as [|[k0 v0] d IH]; cbn [dict_set].
  - by rewrite decide_False by apply not_elem_of_nil.
  - destruct (decide (k0 = k)) as [->|Hne]; rewrite !fmap_cons; cbn [fst].
    + by rewrite decide_True by left.
    + rewrite IH. destruct (decide (k ∈ d.*1)) as [Hk|Hk].
      * by rewrite decide_True by (by right).
      * rewrite decide_False; [done|].
        rewrite not_elem_of_cons. split; [congruence | done].
Qed.

Lemma dict_set_NoDup d k v : NoDup d.*1 -> NoDup (dict_set d k v).*1.
Proof.
  intros Hd. rewrite dict_set_keys. case_decide as Hk; [done|].
  apply NoDup_app. split_and!; [done| |apply NoDup_singleton].
  intros k' Hk' ->%list_elem_of_singleton. done.
Qed.

Lemma dict_get_Some d k v :
  NoDup d.*1 -> dict_get d k = Some v <-> (k, v) ∈ d.
Proof.
  induction d as [|[k0 v0] d IH]; simpl; intros Hd.
  - split; [done | by intros ?%elem_of_nil].
  - apply NoDup_cons in Hd as [Hk0 Hd]. rewrite elem_of_cons.
    case_decide as Hk.
    + subst k0. split; [intros [= ->]; by left|].
      intros [[= ->]|Hin]; [done|].
      exfalso. apply Hk0. by apply (list_elem_of_fmap_2 fst) in Hin.
    + rewrite IH by done. split; [by right|].
      intros [[= -> ->]|?]; done.
Qed.
End Dict.

(** ** Positions within the class *)

Lemma average_step_eq db y t d s :
  average_step db y t d s
  = Ok (dict_set d (pk s) (average_value db y t (pk s))).
Proof.
  unfold average_step, average_value, mean_total_score.
  case_bool_decide as Hne; [|done].
  unfold dec_truediv.
  destruct (filter_student db (pk s) y t) as [|x l]; [done|].
  done.
Qed.

Lemma student_averages_eq db roster y t :
  student_averages db roster y t = Ok (averages_dict db roster y t).
Proof.
  unfold student_averages, averages_dict. apply for_each_ok.
  intros d s _. apply average_step_eq.
Qed.

Lemma fold_dict_set_get {V : Type} (f : Z -> V) roster k : forall d,
  dict_get (foldl (fun d s => dict_set d (pk s) (f (pk s))) d roster) k
  = if decide (k ∈ pk <$> roster) then Some (f k) else dict_get d k.
Proof.
  induction roster as [|s roster IH]; intros d; cbn [foldl].
  - by rewrite decide_False by apply not_elem_of_nil.
  - rewrite IH, dict_get_set, fmap_cons.
    destruct (decide (k ∈ pk <$> roster)) as [Hk|Hk].
    + by rewrite decide_True by (by right).
    + destruct (decide (pk s = k)) as [->|Hne].
      * by rewrite decide_True by left.
      * rewrite decide_False; [done|].
        rewrite not_elem_of_cons. split; [congruence | done].
Qed.

Lemma fold_dict_set_NoDup {V : Type} (f : Z -> V) roster : forall d,
  NoDup d.*1 ->
  NoDup (foldl (fun d s => dict_set d (pk s) (f (pk s))) d roster).*1.
Proof.
  induction roster as [|s roster IH]; intros d Hd; cbn [foldl]; [done|].
  by apply IH, dict_set_NoDup.
Qed.

Lemma averages_dict_NoDup db roster y t :
  NoDup (averages_dict db roster y t).*1.
Proof. apply fold_dict_set_NoDup. constructor. Qed.

Lemma averages_dict_get db roster y t k :
  dict_get (averages_dict db roster y t) k
  = if decide (k ∈ pk <$> roster) then Some (average_value db y t k) else None.
Proof. unfold averages_dict. by rewrite fold_dict_set_get. Qed.

(** The items of [student_averages]: one per roster key, with its ranking
    value. *)
Lemma averages_dict_elem_of db roster y t k v :
  (k, v) ∈ averages_dict db roster y t
  <-> k ∈ pk <$> roster /\ v = average_value db y t k.
Proof.
  rewrite <- dict_get_Some by apply averages_dict_NoDup.
  rewrite averages_dict_get. case_decide; split; try done.
  - intros [= <-]. done.
  - intros [_ ->]. done.
  - by intros [? _].
Qed.

Lemma calculate_class_positions_eq db roster y t :
  calculate_class_positions db roster y t
  = Ok (write_all (class_writes db roster y t) ∅).
Proof.
  unfold calculate_class_positions. rewrite student_averages_eq. simpl.
  apply rank_loop_eq.
Qed.

(** A roster student holds the standard competition rank of the student's
    ranking value among the values of the roster. *)
Lemma class_position_lookup db roster y t m s :
  calculate_class_positions db roster y t = Ok m ->
  s ∈ roster ->
  m !! pk s
  = Some (standard_rank dec_ltb (average_value db y t (pk s))
            (snd <$> averages_dict db roster y t)).
Proof.
  rewrite calculate_class_positions_eq. intros [= <-] Hs.
  unfold class_writes, sorted_students_by_avg.
  assert ((pk s, average_value db y t (pk s)) ∈ averages_dict db roster y t)
    as Hin.
  { apply averages_dict_elem_of. split; [by apply list_elem_of_fmap_2 | done]. }
  rewrite (sorted_writes_lookup dec_ltb snd fst _ _ _ _ Hin); [done|done|].
  intros [k v] [_ ->]%averages_dict_elem_of Hk. simpl in Hk. subst k.
  apply ltb_irrefl.
Qed.

Lemma class_position_absent db roster y t m k :
  calculate_class_positions db roster y t = Ok m ->
  k ∉ pk <$> roster ->
  m !! k = None.
Proof.
  rewrite calculate_class_positions_eq. intros [= <-] Hk.
  unfold class_writes, sorted_students_by_avg.
  rewrite (sorted_writes_lookup_notin dec_ltb snd fst); [apply lookup_empty|].
  intros [k' v] [Hin _]%averages_dict_elem_of. simpl. congruence.
Qed.

(** ** Decimal division *)

Lemma ndigits_aux_pos fuel n : 1 <= ndigits_aux fuel n.
Proof.
  revert n. induction fuel as [|fuel IH]; intros n; simpl; [lia|].
  destruct (n <? 10); [lia|]. specialize (IH (n / 10)). lia.
Qed.

Lemma ndigits_aux_spec fuel : forall n,
  0 < n < 2 ^ (Z.of_nat fuel + 1) ->
  10 ^ (ndigits_aux fuel n - 1) <= n < 10 ^ ndigits_aux fuel n.
Proof.
  induction fuel as [|fuel IH]; intros n Hn.
  - simpl in *. lia.
  - cbn [ndigits_aux]. destruct (Z.ltb_spec n 10) as [Hlt|Hge].
    + simpl. lia.
    + assert (0 < n / 10 < 2 ^ (Z.of_nat fuel + 1)) as Hn'.
      { split; [apply Z.div_str_pos; lia|].
        apply Z.div_lt_upper_bound; [lia|].
        replace (Z.of_nat (S fuel) + 1) with (Z.succ (Z.of_nat fuel + 1)) in Hn by lia.
        rewrite Z.pow_succ_r in Hn by lia. lia. }
      specialize (IH _ Hn'). pose proof (ndigits_aux_pos fuel (n / 10)) as Hp.
      set (a := ndigits_aux fuel (n / 10)) in *.
      replace (1 + a - 1) with (Z.succ (a - 1)) by lia.
      replace (1 + a) with (Z.succ a) by lia.
      rewrite !Z.pow_succ_r by lia.
      pose proof (Z.div_mod n 10 ltac:(lia)) as Hdm.
      pose proof (Z.mod_pos_bound n 10 ltac:(lia)). lia.
Qed.

Lemma ndigits_spec n :
  0 < n -> 1 <= ndigits n /\ 10 ^ (ndigits n - 1) <= n < 10 ^ ndigits n.
Proof.
  intros Hn. unfold ndigits. split; [apply ndigits_aux_pos|].
  apply ndigits_aux_spec. split; [done|].
  rewrite Z2Nat.id by apply Z.log2_nonneg.
  replace (Z.log2 n + 1) with (Z.succ (Z.log2 n)) by lia.
  by apply Z.log2_spec.
Qed.

Lemma ndigits_gt n k : 0 <= k -> 10 ^ k <= n -> k < ndigits n.
Proof.
  intros Hk Hn.
  assert (0 < n) as Hpos by (pose proof (Z.pow_pos_nonneg 10 k); lia).
  destruct (ndigits_spec n Hpos) as (H1 & _ & Hlt).
  apply (Z.pow_lt_mono_r_iff 10); lia.
Qed.

Lemma ndigits_le n k : 0 < n -> n < 10 ^ k -> ndigits n <= k.
Proof.
  intros Hpos Hn.
  destruct (ndigits_spec n Hpos) as (H1 & Hle & _).
  destruct (Z.le_gt_cases (ndigits n) k) as [|Hgt]; [done|].
  assert (0 <= k).
  { destruct (Z.le_gt_cases 0 k); [done|]. rewrite Z.pow_neg_r in Hn; lia. }
  assert (10 ^ k <= 10 ^ (ndigits n - 1)) by (apply Z.pow_le_mono_r; lia).
  lia.
Qed.

Lemma strip_zeros_spec fuel : forall c e ideal c' e',
  strip_zeros fuel c e ideal = (c', e') ->
  e <= e' /\ c' * 10 ^ (e' - e) = c /\ (0 < c -> 0 < c').
Proof.
  induction fuel as [|fuel IH]; intros c e ideal c' e'; simpl.
  - intros [= <- <-]. rewrite Z.sub_diag. simpl. lia.
  - destruct ((e <? ideal) && (c mod 10 =? 0)) eqn:Hcond.
    + apply andb_true_iff in Hcond as [_ Hmod%Z.eqb_eq].
      intros (He & Hc & Hpos)%IH.
      pose proof (Z.div_mod c 10 ltac:(lia)) as Hdm.
      split_and!; [lia| |].
      * replace (e' - e) with (Z.succ (e' - (e + 1))) by lia.
        rewrite Z.pow_succ_r by lia. lia.
      * intros Hc0. apply Hpos. lia.
    + intros [= <- <-]. rewrite Z.sub_diag. simpl. lia.
Qed.

Lemma round_half_even_exact c d :
  0 <= c -> 0 <= d ->
  let k := c / 10 ^ d + (if round_half_even c d then 1 else 0) in
  2 * Z.abs (k * 10 ^ d - c) <= 10 ^ d.
Proof.
  intros Hc Hd. cbv zeta. unfold round_half_even.
  assert (0 < 10 ^ d) as HT by (apply Z.pow_pos_nonneg; lia).
  set (T := 10 ^ d) in *.
  pose proof (Z.div_mod c T ltac:(lia)) as Hdm.
  pose proof (Z.mod_pos_bound c T HT) as Hr.
  set (q := c / T) in *. set (r := c mod T) in *.
  destruct (Z.ltb_spec T (2 * r)) as [Hup|Hdown]; simpl.
  - lia.
  - destruct (Z.eqb_spec (2 * r) T) as [Htie|Hne]; simpl.
    + destruct (Z.odd q); lia.
    + lia.
Qed.

Lemma round_half_even_sticky c0 rem B d :
  0 <= c0 -> 1 <= d -> 0 < rem < B ->
  let c1 := if c0 mod 5 =? 0 then c0 + 1 else c0 in
  let k := c1 / 10 ^ d + (if round_half_even c1 d then 1 else 0) in
  2 * Z.abs (k * 10 ^ d * B - (c0 * B + rem)) <= 10 ^ d * B.
Proof.
  intros Hc Hd Hrem. cbv zeta. unfold round_half_even.
  assert (0 < 10 ^ (d - 1)) as HT' by (apply Z.pow_pos_nonneg; lia).
  assert (10 ^ d = 10 * 10 ^ (d - 1)) as HT.
  { replace d with (Z.succ (d - 1)) at 1 by lia. apply Z.pow_succ_r. lia. }
  set (T' := 10 ^ (d - 1)) in *. rewrite HT. set (T := 10 * T').
  assert (0 < T) as HTpos by lia.
  pose proof (Z.div_mod c0 T ltac:(lia)) as Hdm.
  pose proof (Z.mod_pos_bound c0 T HTpos) as Hr.
  set (q0 := c0 / T) in *. set (r0 := c0 mod T) in *.
  assert (c0 mod 5 = r0 mod 5) as Hmod5.
  { rewrite Hdm. unfold T.
    replace (10 * T' * q0 + r0) with (r0 + (2 * T' * q0) * 5) by lia.
    apply Z.mod_add. lia. }
  assert (exists q1 r1, (if c0 mod 5 =? 0 then c0 + 1 else c0) = T * q1 + r1
            /\ 0 <= r1 < T /\ q1 = q0
            /\ (r1 = r0 /\ r0 mod 5 <> 0 \/ r1 = r0 + 1 /\ r0 mod 5 = 0))
    as (q1 & r1 & Hc1 & Hr1 & -> & Hcase).
  { destruct (Z.eqb_spec (c0 mod 5) 0) as [H5|H5].
    - exists q0, (r0 + 1). rewrite Hmod5 in H5.
      assert (r0 + 1 < T).
      { pose proof (Z.div_mod r0 5 ltac:(lia)). unfold T. lia. }
      split_and!; [lia|lia|lia|done|right; lia].
    - exists q0, r0. rewrite Hmod5 in H5. split_and!; [lia|lia|lia|done|left; lia]. }
  set (c1 := if c0 mod 5 =? 0 then c0 + 1 else c0) in *.
  assert (c1 / T = q0) as Hq by (symmetry; apply (Z.div_unique c1 T q0 r1); lia).
  assert (c1 mod T = r1) as Hm by (symmetry; apply (Z.mod_unique c1 T q0 r1); lia).
  rewrite Hq, Hm.
  assert (r1 mod 5 <> 0) as Hr5.
  { destruct Hcase as [[-> ?]|[-> H0]]; [done|].
    pose proof (Z.div_mod r0 5 ltac:(lia)) as H1.
    pose proof (Z.div_mod (r0 + 1) 5 ltac:(lia)) as H2.
    pose proof (Z.mod_pos_bound (r0 + 1) 5 ltac:(lia)). lia. }
  assert (2 * r1 <> T) as Hnotie.
  { intros Htie. apply Hr5. unfold T in Htie. assert (r1 = 5 * T') as -> by lia.
    rewrite Z.mul_comm. apply Z.mod_mul. lia. }
  assert (0 < B) by lia.
  destruct (Z.ltb_spec T (2 * r1)) as [Hup|Hdown]; simpl.
  - (* rounded up: the exact quotient is above one half *)
    assert (T <= 2 * r0) as Hhalf.
    { destruct Hcase as [[-> ?]|[-> H0]]; [lia|]. unfold T in *. lia. }
    replace ((q0 + 1) * T * B - (c0 * B + rem))
      with ((T - r0) * B - rem) by (rewrite Hdm; ring).
    assert (0 < (T - r0) * B - rem) by nia.
    rewrite Z.abs_eq by lia. nia.
  - destruct (Z.eqb_spec (2 * r1) T) as [Htie|_]; [done|]. simpl.
    assert (2 * r0 + 2 <= T) as Hhalf.
    { destruct Hcase as [[-> ?]|[-> H0]]; [unfold T in *; lia|lia]. }
    replace ((q0 + 0) * T * B - (c0 * B + rem))
      with (- (r0 * B + rem)) by (rewrite Hdm; ring).
    rewrite Z.abs_opp, Z.abs_eq by nia. nia.
Qed.

Lemma dec_fix_short sign c e :
  0 < c -> ndigits c <= prec -> dec_fix sign c e = mkDecimal (sign * c) e.
Proof.
  intros Hc Hn. unfold dec_fix.
  destruct (Z.eqb_spec c 0); [lia|].
  destruct (Z.ltb_spec e (ndigits c + e - prec)); [lia|done].
Qed.

Lemma dec_fix_long sign c e :
  0 < c -> prec < ndigits c ->
  let d := ndigits c - prec in
  let k := c / 10 ^ d + (if round_half_even c d then 1 else 0) in
  exists m e',
    dec_fix sign c e = mkDecimal (sign * m) e'
    /\ e + d <= e' /\ 0 <= m /\ m * 10 ^ (e' - (e + d)) = k.
Proof.
  intros Hc Hn d k.
  destruct (ndigits_spec c Hc) as (_ & Hlo & Hhi).
  assert (1 <= d) as Hd by (unfold d; lia).
  assert (0 < 10 ^ d) as HT by (apply Z.pow_pos_nonneg; lia).
  assert (10 ^ 27 <= c / 10 ^ d < 10 ^ 28) as Hkept.
  { split.
    - apply Z.div_le_lower_bound; [done|].
      rewrite <- Z.pow_add_r by lia.
      replace (d + 27) with (ndigits c - 1) by (unfold d, prec; lia). done.
    - apply Z.div_lt_upper_bound; [done|].
      rewrite <- Z.pow_add_r by lia.
      replace (d + 28) with (ndigits c) by (unfold d, prec; lia). done. }
  unfold dec_fix.
  destruct (Z.eqb_spec c 0); [lia|].
  replace (ndigits c + e - prec) with (e + d) by (unfold d; lia).
  destruct (Z.ltb_spec e (e + d)); [|lia].
  replace (e + d - e) with d by lia. fold d. unfold k.
  destruct (round_half_even c d).
  - destruct (Z.ltb_spec prec (ndigits (c / 10 ^ d + 1))) as [Hcarry|Hfit].
    + assert (c / 10 ^ d + 1 = 10 ^ 28) as Hfull.
      { destruct (Z.lt_ge_cases (c / 10 ^ d + 1) (10 ^ 28)) as [Hlt|Hge]; [|lia].
        apply ndigits_le in Hlt; [unfold prec in *|]; lia. }
      exists ((c / 10 ^ d + 1) / 10), (e + d + 1).
      split_and!; [reflexivity|lia|apply Z.div_pos; lia|].
      replace (e + d + 1 - (e + d)) with 1 by lia.
      rewrite Z.pow_1_r, Hfull. by vm_compute.
    + exists (c / 10 ^ d + 1), (e + d). split_and!; [reflexivity|lia|lia|].
      rewrite Z.sub_diag, Z.pow_0_r. lia.
  - exists (c / 10 ^ d), (e + d). split_and!; [reflexivity|lia|lia|].
    rewrite Z.sub_diag, Z.pow_0_r. lia.
Qed.

Lemma pow10_split (x y : Z) : 0 <= x -> 0 <= y -> 10 ^ (x + y) = 10 ^ x * 10 ^ y.
Proof. intros. by apply Z.pow_add_r. Qed.

Lemma dec_quotient_core self other :
  coefficient self <> 0 -> other <> 0 ->
  let a := Z.abs (coefficient self) in
  let b := Z.abs other in
  let shift := ndigits b - ndigits a + prec + 1 in
  let exp0 := exponent self - shift in
  let A := if 0 <=? shift then a * 10 ^ shift else a in
  let B := if 0 <=? shift then b else b * 10 ^ (- shift) in
  exists m e',
    dec_quotient self other
    = mkDecimal (Z.sgn (coefficient self) * Z.sgn other * m) e'
    /\ exp0 <= e' /\ 0 <= m
    /\ Z.abs (m * 10 ^ (e' - exp0) * B - A) * (2 * 10 ^ 27) <= A.
Proof.
  intros Hc Ho a b shift exp0 A B.
  assert (0 < a) as Ha by (unfold a; lia).
  assert (0 < b) as Hb by (unfold b; lia).
  destruct (ndigits_spec a Ha) as (Hla & Halo & Hahi).
  destruct (ndigits_spec b Hb) as (Hlb & Hblo & Hbhi).
  assert (0 < B /\ 0 < A /\ 10 ^ 28 * B <= A) as (HB & HA & HAB).
  { unfold A, B. destruct (Z.leb_spec 0 shift) as [Hs|Hs].
    - assert (0 < 10 ^ shift) by (apply Z.pow_pos_nonneg; lia).
      split_and!; [lia|nia|].
      assert (10 ^ 28 * 10 ^ ndigits b = 10 ^ (ndigits a - 1) * 10 ^ shift) as Heq.
      { rewrite <- !pow10_split by lia. f_equal. unfold shift, prec. lia. }
      nia.
    - assert (0 < 10 ^ (- shift)) by (apply Z.pow_pos_nonneg; lia).
      split_and!; [nia|lia|].
      assert (10 ^ 28 * (10 ^ ndigits b * 10 ^ (- shift)) = 10 ^ (ndigits a - 1)) as Heq.
      { rewrite <- !pow10_split by lia. f_equal. unfold shift, prec. lia. }
      nia. }
  unfold dec_quotient. destruct (Z.eqb_spec (coefficient self) 0) as [|_]; [done|].
  fold a b shift exp0.
  replace (if 0 <=? shift then Z.div_eucl (a * 10 ^ shift) b
           else Z.div_eucl a (b * 10 ^ (- shift)))
    with (Z.div_eucl A B) by (unfold A, B; by destruct (0 <=? shift)).
  pose proof (Z.div_mod A B ltac:(lia)) as Hdm.
  pose proof (Z.mod_pos_bound A B HB) as Hrem.
  unfold Z.div, Z.modulo in Hdm, Hrem.
  destruct (Z.div_eucl A B) as [q0 rem]. simpl in Hdm, Hrem.
  assert (10 ^ 28 <= q0) as Hq0 by nia.
  set (sign := Z.sgn (coefficient self) * Z.sgn other).
  destruct (Z.eqb_spec rem 0) as [->|Hne].
  - (* the division is exact *)
    destruct (strip_zeros (Z.to_nat shift) q0 exp0 (exponent self))
      as [c1 e1] eqn:Hstrip.
    apply strip_zeros_spec in Hstrip as (He1 & Hc1 & Hpos).
    specialize (Hpos ltac:(lia)).
    assert (0 < 10 ^ (e1 - exp0)) as HP by (apply Z.pow_pos_nonneg; lia).
    destruct (Z.le_gt_cases (ndigits c1) prec) as [Hshort|Hlong].
    + rewrite dec_fix_short by done. exists c1, e1.
      split_and!; [done|lia|lia|].
      rewrite Hc1. replace (q0 * B - A) with 0 by lia. simpl. lia.
    + destruct (dec_fix_long sign c1 e1 Hpos ltac:(lia))
        as (m & e' & -> & He' & Hm & Hk).
      set (d := ndigits c1 - prec) in *.
      pose proof (round_half_even_exact c1 d ltac:(lia) ltac:(lia)) as Hround.
      cbv zeta in Hround. rewrite <- Hk in Hround.
      destruct (ndigits_spec c1 Hpos) as (_ & Hc1lo & _).
      assert (10 ^ 27 * 10 ^ d <= c1) as Hbig.
      { rewrite <- pow10_split by lia.
        replace (27 + d) with (ndigits c1 - 1) by (unfold d, prec; lia). done. }
      exists m, e'. split_and!; [done|lia|done|].
      replace (e' - exp0) with ((e' - (e1 + d)) + d + (e1 - exp0)) by lia.
      rewrite !pow10_split by lia.
      set (M := m * 10 ^ (e' - (e1 + d))) in *.
      set (T := 10 ^ d) in *. set (P := 10 ^ (e1 - exp0)) in *.
      assert (0 < T) by (apply Z.pow_pos_nonneg; lia).
      replace (m * (10 ^ (e' - (e1 + d)) * T * P) * B - A)
        with ((M * T - c1) * (P * B)) by (unfold M; nia).
      rewrite Z.abs_mul, (Z.abs_eq (P * B)) by nia.
      assert (Z.abs (M * T - c1) * (2 * 10 ^ 27) <= c1) by nia.
      assert (A = c1 * (P * B)) as -> by nia.
      assert (0 < P * B) by nia.
      nia.
  - (* the division is inexact *)
    set (c1 := if q0 mod 5 =? 0 then q0 + 1 else q0).
    assert (q0 <= c1) as Hc1 by (unfold c1; destruct (q0 mod 5 =? 0); lia).
    assert (prec < ndigits c1) as Hlong by (apply ndigits_gt; unfold prec; lia).
    destruct (dec_fix_long sign c1 exp0 ltac:(lia) Hlong)
      as (m & e' & -> & He' & Hm & Hk).
    set (d := ndigits c1 - prec) in *.
    pose proof (round_half_even_sticky q0 rem B d ltac:(lia) ltac:(lia)
                  ltac:(lia)) as Hround.
    cbv zeta in Hround. fold c1 in Hround. rewrite <- Hk in Hround.
    destruct (ndigits_spec c1 ltac:(lia)) as (_ & Hc1lo & _).
    assert (10 ^ 27 * 10 ^ d <= q0) as Hbig.
    { assert (10 ^ 27 * 10 ^ d <= c1) as Hbig1.
      { rewrite <- pow10_split by lia.
        replace (27 + d) with (ndigits c1 - 1) by (unfold d, prec; lia). done. }
      unfold c1 in Hbig1. destruct (Z.eqb_spec (q0 mod 5) 0) as [H5|_]; [|done].
      assert (10 ^ d = 10 * 10 ^ (d - 1)) as HT.
      { replace d with (Z.succ (d - 1)) at 1 by lia. apply Z.pow_succ_r. lia. }
      rewrite HT in *.
      pose proof (Z.div_mod q0 5 ltac:(lia)). lia. }
    exists m, e'. split_and!; [done|lia|done|].
    replace (e' - exp0) with ((e' - (exp0 + d)) + d) by lia.
    rewrite pow10_split by lia.
    set (M := m * 10 ^ (e' - (exp0 + d))) in *. set (T := 10 ^ d) in *.
    assert (0 < T) by (apply Z.pow_pos_nonneg; lia).
    replace (m * (10 ^ (e' - (exp0 + d)) * T) * B - A)
      with (M * T * B - (q0 * B + rem)) by (unfold M; nia).
    nia.
Qed.

Lemma dec_quotient_error_Z self other :
  coefficient self <> 0 -> other <> 0 ->
  exists E,
    E <= exponent self /\ E <= exponent (dec_quotient self other)
    /\ Z.abs (dec_scaled (dec_quotient self other) E * other - dec_scaled self E)
       * (2 * 10 ^ 27)
       <= Z.abs (dec_scaled self E).
Proof.
  intros Hc Ho.
  destruct (dec_quotient_core self other Hc Ho) as (m & e' & -> & He' & Hm & Herr).
  cbv zeta in *.
  set (a := Z.abs (coefficient self)) in *. set (b := Z.abs other) in *.
  set (shift := ndigits b - ndigits a + prec + 1) in *.
  set (exp0 := exponent self - shift) in *.
  assert (coefficient self = Z.sgn (coefficient self) * a) as Hca
    by (unfold a; lia).
  assert (other = Z.sgn other * b) as Hob by (unfold b; lia).
  assert (Z.sgn other * Z.sgn other = 1) as Hso by lia.
  assert (Z.abs (Z.sgn (coefficient self)) = 1) as Hsc by lia.
  unfold dec_scaled. simpl.
  destruct (Z.leb_spec 0 shift) as [Hs|Hs].
  - exists exp0. split_and!; [lia|lia|].
    replace (exponent self - exp0) with shift by lia.
    set (P := 10 ^ (e' - exp0)) in *. set (S := 10 ^ shift) in *.
    assert (0 < S) by (apply Z.pow_pos_nonneg; lia).
    replace (Z.sgn (coefficient self) * Z.sgn other * m * P * other
             - coefficient self * S)
      with (Z.sgn (coefficient self) * (m * P * b - a * S)).
    2:{ rewrite Hob at 2. rewrite Hca at 3.
        transitivity (Z.sgn (coefficient self) * (Z.sgn other * Z.sgn other)
                      * (m * P * b) - Z.sgn (coefficient self) * (a * S));
          [rewrite Hso|]; ring. }
    rewrite Z.abs_mul, Hsc, Z.mul_1_l.
    replace (Z.abs (coefficient self * S)) with (a * S)
      by (rewrite Z.abs_mul; unfold a; lia).
    done.
  - exists (exponent self). split_and!; [lia|lia|].
    rewrite Z.sub_diag. simpl (10 ^ 0). rewrite Z.mul_1_r.
    replace (e' - exponent self) with ((e' - exp0) + (- shift)) by lia.
    rewrite pow10_split by lia.
    set (P := 10 ^ (e' - exp0)) in *. set (S := 10 ^ (- shift)) in *.
    replace (Z.sgn (coefficient self) * Z.sgn other * m * (P * S) * other
             - coefficient self)
      with (Z.sgn (coefficient self) * (m * P * (b * S) - a)).
    2:{ rewrite Hob at 2. rewrite Hca at 3.
        transitivity (Z.sgn (coefficient self) * (Z.sgn other * Z.sgn other)
                      * (m * P * (b * S)) - Z.sgn (coefficient self) * a);
          [rewrite Hso|]; ring. }
    rewrite Z.abs_mul, Hsc, Z.mul_1_l. fold a. done.
Qed.

Lemma Qpower10_pos (e : Z) : (0 < Qpower (10 # 1) e)%Q.
Proof. apply Qpower_0_lt. reflexivity. Qed.

Lemma dec_value_scaled d E :
  E <= exponent d ->
  (dec_value d == inject_Z (dec_scaled d E) * Qpower (10 # 1) E)%Q.
Proof.
  intros HE. unfold dec_value, dec_scaled.
  replace (exponent d) with ((exponent d - E) + E) at 1 by lia.
  rewrite Qpower_plus by discriminate.
  rewrite inject_Z_mult, (Zpower_Qpower 10) by lia.
  change (inject_Z 10) with (10 # 1)%Q. ring.
Qed.

(** The relative error of [x] as an approximation of [s / o], from the same
    bound on integers. *)
Lemma Q_relative_error (r s o K : Z) (p : Q) :
  o <> 0 -> 0 <= K -> (0 < p)%Q ->
  Z.abs (r * o - s) * K <= Z.abs s ->
  (Qabs (inject_Z r * p - inject_Z s * p / inject_Z o) * inject_Z K
   <= Qabs (inject_Z s * p / inject_Z o))%Q.
Proof.
  intros Ho HK Hp Hz.
  assert (~ inject_Z o == 0)%Q as HoQ.
  { intros H. apply Ho. by apply (inject_Z_injective o 0). }
  assert (0 < inject_Z (Z.abs o))%Q as Habs.
  { rewrite <- (Zlt_Qlt 0). lia. }
  assert (inject_Z r * p - inject_Z s * p / inject_Z o
          == inject_Z (r * o - s) * (p * / inject_Z o))%Q as ->.
  { unfold Z.sub. rewrite inject_Z_plus, inject_Z_mult, inject_Z_opp. by field. }
  assert (inject_Z s * p / inject_Z o == inject_Z s * (p * / inject_Z o))%Q as ->
    by (by field).
  rewrite !Qabs_Qmult, Qabs_Qinv, (Qabs_pos p) by (by apply Qlt_le_weak).
  change (Qabs (inject_Z ?z)) with (inject_Z (Z.abs z)).
  set (w := (p * / inject_Z (Z.abs o))%Q).
  assert (0 < w)%Q as Hw
    by (apply Qmult_lt_0_compat; [done|by apply Qinv_lt_0_compat]).
  assert (inject_Z (Z.abs (r * o - s)) * w * inject_Z K
          == inject_Z (Z.abs (r * o - s) * K) * w)%Q as ->
    by (rewrite inject_Z_mult; ring).
  apply Qmult_le_compat_r; [|by apply Qlt_le_weak].
  by rewrite <- Zle_Qle.
Qed.

(** Python's quotient is the exact quotient rounded to 28 significant digits:
    its relative error is at most [5e-28]. *)
Lemma dec_quotient_rounded self other :
  other <> 0 ->
  (Qabs (dec_value (dec_quotient self other) - dec_value self / inject_Z other)
   * inject_Z (2 * 10 ^ 27)
   <= Qabs (dec_value self / inject_Z other))%Q.
Proof.
  intros Ho.
  destruct (Z.eq_dec (coefficient self) 0) as [Hc|Hc].
  - assert (dec_value (dec_quotient self other) == 0)%Q as Hq.
    { unfold dec_quotient, dec_value. rewrite Hc. simpl. ring. }
    assert (dec_value self == 0)%Q as Hs.
    { unfold dec_value. rewrite Hc. ring. }
    rewrite Hq, Hs. unfold Qdiv. rewrite Qmult_0_l.
    change (Qabs (0 - 0)) with 0%Q. rewrite Qmult_0_l. apply Qle_refl.
  - destruct (dec_quotient_error_Z self other Hc Ho) as (E & HE & HE' & Herr).
    rewrite (dec_value_scaled (dec_quotient self other) E HE').
    rewrite (dec_value_scaled self E HE).
    apply Q_relative_error; [done|lia|apply Qpower10_pos|done].
Qed.

(** * The claims *)

(** ** Ranking rule *)

Lemma competition_ranks_rule {V : Type} (ltb : V -> V -> bool) pre p v rest :
  let values := pre ++ p :: v :: rest in
  let i := S (length pre) in
  competition_ranks ltb values !! i
  = if ltb v p then Some (i + 1)%nat
    else competition_ranks ltb values !! (i - 1)%nat.
Proof.
  intros values i.
  assert (values !! length pre = Some p) as Hp
    by (by apply list_lookup_middle).
  assert (values !! S (length pre) = Some v) as Hv.
  { unfold values. change (pre ++ p :: v :: rest) with (pre ++ [p] ++ v :: rest).
    rewrite app_assoc. apply list_lookup_middle. rewrite length_app. simpl. lia. }
  destruct (competition_ranks ltb values !! length pre) as [r|] eqn:Hr.
  - unfold i. rewrite (competition_ranks_step ltb values _ p v r) by done.
    replace (S (length pre) - 1)%nat with (length pre) by lia.
    rewrite Hr, Nat.add_1_r. by destruct (ltb v p).
  - apply lookup_ge_None in Hr. rewrite competition_ranks_length in Hr.
    apply lookup_lt_Some in Hp. lia.
Qed.

(** C1.  Both views rank by the same rule: the rows (or items) are put in
    decreasing order of value, the first one gets rank 1, and the one at
    index [i > 0] gets rank [i + 1] when its value is strictly below the
    previous one and the previous rank otherwise.  Totals 90, 90, 80, 70, 70,
    70 get ranks 1, 1, 3, 4, 4, 4 in both views. *)
Theorem ranking_is_standard_competition :
  (forall qs : list Score,
     calculate_subject_positions qs
     = Ok (foldl (fun m sid =>
                    write_all
                      (zip (score_key <$> ranked_scores qs sid)
                           (competition_ranks Z.ltb
                              (total_score <$> ranked_scores qs sid))) m)
                 ∅ (distinct_subjects qs))
     /\ forall sid, descending Z.ltb (total_score <$> ranked_scores qs sid))
  /\ (forall (db : list Score) (roster : list Student) (y t : Z),
        let ranked := sorted_students_by_avg db roster y t in
        calculate_class_positions db roster y t
        = Ok (write_all
                (zip ranked.*1 (competition_ranks dec_ltb ranked.*2)) ∅)
        /\ descending dec_ltb ranked.*2)
  /\ (forall (V : Type) (ltb : V -> V -> bool) (v : V) (values : list V),
        competition_ranks ltb (v :: values) !! 0%nat = Some 1%nat)
  /\ (forall (V : Type) (ltb : V -> V -> bool) (pre : list V) (p v : V)
             (rest : list V),
        let values := pre ++ p :: v :: rest in
        let i := S (length pre) in
        competition_ranks ltb values !! i
        = if ltb v p then Some (i + 1)%nat
          else competition_ranks ltb values !! (i - 1)%nat)
  /\ competition_ranks Z.ltb (hundredths <$> [90; 90; 80; 70; 70; 70])
     = [1; 1; 3; 4; 4; 4]%nat
  /\ positions_at (calculate_subject_positions tie_scores)
       ((fun st => (st, 1)) <$> [1; 2; 3; 4; 5; 6])
     = Some <$> [1; 1; 3; 4; 4; 4]%nat
  /\ positions_at
       (calculate_class_positions tie_scores (sample_roster 6) 1 1)
       [1; 2; 3; 4; 5; 6]
     = Some <$> [1; 1; 3; 4; 4; 4]%nat.
Proof.
  split_and!.
  - intros qs. split; [apply calculate_subject_positions_eq|].
    intros sid. apply sorted_reverse_descending. apply _.
  - intros db roster y t ranked. split; [apply calculate_class_positions_eq|].
    apply sorted_reverse_descending. apply _.
  - done.
  - intros. apply competition_ranks_rule.
  - done.
  - by vm_compute.
  - by vm_compute.
Qed.

(** ** Totals, grades and remarks *)

Lemma grade_cases (self : Score) :
  let t := total_score self in
  (hundredths 80 <= t /\ grade self = "A"%string)
  \/ (hundredths 70 <= t < hundredths 80 /\ grade self = "B"%string)
  \/ (hundredths 60 <= t < hundredths 70 /\ grade self = "C"%string)
  \/ (hundredths 50 <= t < hundredths 60 /\ grade self = "D"%string)
  \/ (t < hundredths 50 /\ grade self = "F"%string).
Proof.
  unfold grade. cbv zeta.
  destruct (Z.leb_spec (hundredths 80) (total_score self)); [by left|].
  destruct (Z.leb_spec (hundredths 70) (total_score self)); [by right; left|].
  destruct (Z.leb_spec (hundredths 60) (total_score self));
    [by right; right; left|].
  destruct (Z.leb_spec (hundredths 50) (total_score self));
    [by right; right; right; left|].
  by right; right; right; right.
Qed.

Ltac in_list :=
  repeat first [ apply list_elem_of_here | apply list_elem_of_further ].

Lemma grade_remarks_pairs (self : Score) :
  (grade self, remarks self)
  ∈ [("A", "Excellent"); ("B", "Very Good"); ("C", "Good"); ("D", "Pass");
     ("F", "Fail")]%string.
Proof.
  unfold remarks. cbv zeta.
  destruct (grade_cases self) as [[_ ->]|[[_ ->]|[[_ ->]|[[_ ->]|[_ ->]]]]];
    simpl; in_list.
Qed.

(** C2.  The grade of a row is decided by the band its total falls in, each
    band closed below and open above: from 80 "A", from 70 to below 80 "B",
    from 60 to below 70 "C", from 50 to below 60 "D", below 50 "F".  So a
    total of 80.00 is an "A", 79.99 a "B", 50.00 a "D" and 49.99 an "F". *)
Theorem grade_bands (self : Score) :
  let t := total_score self in
  (hundredths 80 <= t -> grade self = "A"%string)
  /\ (hundredths 70 <= t < hundredths 80 -> grade self = "B"%string)
  /\ (hundredths 60 <= t < hundredths 70 -> grade self = "C"%string)
  /\ (hundredths 50 <= t < hundredths 60 -> grade self = "D"%string)
  /\ (t < hundredths 50 -> grade self = "F"%string)
  /\ (t = 8000 -> grade self = "A"%string)
  /\ (t = 7999 -> grade self = "B"%string)
  /\ (t = 5000 -> grade self = "D"%string)
  /\ (t = 4999 -> grade self = "F"%string).
Proof.
  pose proof (grade_cases self) as H. cbv zeta in *. unfold hundredths in *.
  destruct H as [[? ->]|[[? ->]|[[? ->]|[[? ->]|[? ->]]]]];
    split_and!; intros; (done || lia).
Qed.

Lemma grade_bands_witness :
  grade (sample_score 1 1 4000 4000) = "A"%string
  /\ grade (sample_score 1 1 3999 4000) = "B"%string
  /\ grade (sample_score 1 1 3000 3500) = "C"%string
  /\ grade (sample_score 1 1 2500 2500) = "D"%string
  /\ grade (sample_score 1 1 2499 2500) = "F"%string.
Proof.
  split_and!.
  - apply (grade_bands (sample_score 1 1 4000 4000)). unfold hundredths, total_score; simpl; lia.
  - apply (grade_bands (sample_score 1 1 3999 4000)). unfold hundredths, total_score; simpl; lia.
  - apply (grade_bands (sample_score 1 1 3000 3500)). unfold hundredths, total_score; simpl; lia.
  - apply (grade_bands (sample_score 1 1 2500 2500)). unfold hundredths, total_score; simpl; lia.
  - apply (grade_bands (sample_score 1 1 2499 2500)). unfold hundredths, total_score; simpl; lia.
Defined.

(** C6.  With both scores between 0 and 50 the total is their exact sum, as
    an integer number of hundredths and as a decimal value, and lies between
    0 and 100. *)
Theorem total_score_exact_and_bounded (self : Score)
    (Hclass : 0 <= class_score self <= hundredths 50)
    (Hexam : 0 <= exam_score self <= hundredths 50) :
  total_score self = class_score self + exam_score self
  /\ (dec_value (dec_of_hundredths (total_score self))
      == dec_value (dec_of_hundredths (class_score self))
         + dec_value (dec_of_hundredths (exam_score self)))%Q
  /\ 0 <= total_score self <= hundredths 100.
Proof.
  unfold total_score, hundredths in *. split_and!; [done| |lia|lia].
  unfold dec_value, dec_of_hundredths. simpl.
  rewrite inject_Z_plus. ring.
Qed.

Lemma total_score_exact_and_bounded_witness :
  total_score (sample_score 1 1 5000 4999) = 5000 + 4999
  /\ 0 <= total_score (sample_score 1 1 5000 4999) <= hundredths 100.
Proof.
  assert (0 <= 5000 <= hundredths 50) as H1 by (unfold hundredths; lia).
  assert (0 <= 4999 <= hundredths 50) as H2 by (unfold hundredths; lia).
  destruct (total_score_exact_and_bounded (sample_score 1 1 5000 4999) H1 H2)
    as (Hsum & _ & Hrange).
  exact (conj Hsum Hrange).
Defined.

(** C7.  Every row has one of the five letters as grade and the remark
    fixed for that letter: "Excellent" for "A", "Very Good" for "B", "Good"
    for "C", "Pass" for "D", "Fail" for "F".  Two rows with the same grade
    have the same remark. *)
Theorem remarks_determined_by_grade (s1 s2 : Score)
    (Hgrade : grade s1 = grade s2) :
  remarks s1 = remarks s2
  /\ (grade s1, remarks s1)
     ∈ [("A", "Excellent"); ("B", "Very Good"); ("C", "Good"); ("D", "Pass");
        ("F", "Fail")]%string
  /\ (grade s1 = "A" -> remarks s1 = "Excellent")%string
  /\ (grade s1 = "B" -> remarks s1 = "Very Good")%string
  /\ (grade s1 = "C" -> remarks s1 = "Good")%string
  /\ (grade s1 = "D" -> remarks s1 = "Pass")%string
  /\ (grade s1 = "F" -> remarks s1 = "Fail")%string.
Proof.
  split_and!.
  - unfold remarks. cbv zeta. by rewrite Hgrade.
  - apply grade_remarks_pairs.
  - unfold remarks. by intros ->.
  - unfold remarks. by intros ->.
  - unfold remarks. by intros ->.
  - unfold remarks. by intros ->.
  - unfold remarks. by intros ->.
Qed.

Lemma remarks_determined_by_grade_witness :
  remarks (sample_score 1 1 4000 4000) = remarks (sample_score 2 2 4500 5000).
Proof.
  assert (grade (sample_score 1 1 4000 4000)
          = grade (sample_score 2 2 4500 5000)) as Hgrade by reflexivity.
  exact (proj1 (remarks_determined_by_grade _ _ Hgrade)).
Defined.

(** C9.  Grade and remark are defined for every total, inside [0,100] or
    not: a total below 50, negative ones included, gives "F" and "Fail"; a
    total of 80 or more, above 100 included, gives "A" and "Excellent"; and
    the result is always one of the five grade and remark pairs. *)
Theorem grade_defined_outside_range (self : Score) :
  (total_score self < hundredths 50 ->
     grade self = "F"%string /\ remarks self = "Fail"%string)
  /\ (hundredths 80 <= total_score self ->
     grade self = "A"%string /\ remarks self = "Excellent"%string)
  /\ (grade self, remarks self)
     ∈ [("A", "Excellent"); ("B", "Very Good"); ("C", "Good"); ("D", "Pass");
        ("F", "Fail")]%string.
Proof.
  pose proof (grade_cases self) as H. cbv zeta in H.
  unfold remarks. cbv zeta. unfold hundredths in *.
  destruct H as [[? ->]|[[? ->]|[[? ->]|[[? ->]|[? ->]]]]];
    split_and!; intros; try done; try lia; simpl; in_list.
Qed.

Lemma grade_defined_outside_range_witness :
  (grade (sample_score 1 1 (-500) 200) = "F"%string
   /\ remarks (sample_score 1 1 (-500) 200) = "Fail"%string)
  /\ (grade (sample_score 1 1 9000 9000) = "A"%string
      /\ remarks (sample_score 1 1 9000 9000) = "Excellent"%string).
Proof.
  split.
  - apply (grade_defined_outside_range (sample_score 1 1 (-500) 200)).
    unfold hundredths, total_score; simpl; lia.
  - apply (grade_defined_outside_range (sample_score 1 1 9000 9000)).
    unfold hundredths, total_score; simpl; lia.
Defined.

(** ** Totality *)

Lemma calculate_subject_positions_single x :
  calculate_subject_positions [x] = Ok {[score_key x := 1%nat]}.
Proof.
  rewrite calculate_subject_positions_eq.
  unfold distinct_subjects, subject_writes, ranked_scores, order_by_scores,
    filter_subject.
  simpl. rewrite filter_cons_True by done. by rewrite filter_nil.
Qed.

Lemma calculate_class_positions_single db s y t :
  calculate_class_positions db [s] y t = Ok {[pk s := 1%nat]}.
Proof. by rewrite calculate_class_positions_eq. Qed.

(** C5.  Neither view raises, whatever the rows, scores (negative ones
    included) and roster: each returns a dictionary.  Without rows, or
    without students, the dictionary is empty; a single row, or a single
    student, gets rank 1. *)
Theorem ranking_never_raises :
  (forall qs : list Score, exists m, calculate_subject_positions qs = Ok m)
  /\ (forall (db : list Score) (roster : list Student) (y t : Z),
        exists m, calculate_class_positions db roster y t = Ok m)
  /\ calculate_subject_positions [] = Ok ∅
  /\ (forall (db : list Score) (y t : Z),
        calculate_class_positions db [] y t = Ok ∅)
  /\ (forall x : Score,
        calculate_subject_positions [x] = Ok {[score_key x := 1%nat]})
  /\ (forall (db : list Score) (s : Student) (y t : Z),
        calculate_class_positions db [s] y t = Ok {[pk s := 1%nat]})
  /\ positions_at (calculate_subject_positions (one_subject [-500; -1000; 300]))
       ((fun st => (st, 1)) <$> [1; 2; 3])
     = Some <$> [2; 3; 1]%nat
  /\ positions_at
       (calculate_class_positions (one_subject [-500; -1000; 300])
          (sample_roster 3) 1 1)
       [1; 2; 3]
     = Some <$> [2; 3; 1]%nat.
Proof.
  split_and!.
  - intros qs. eexists. apply calculate_subject_positions_eq.
  - intros db roster y t. eexists. apply calculate_class_positions_eq.
  - done.
  - done.
  - apply calculate_subject_positions_single.
  - apply calculate_class_positions_single.
  - by vm_compute.
  - by vm_compute.
Qed.

(** ** Independence of the order of the rows *)

Section RankedPermutation.
Context {V A K : Type} `{Countable K}.
Context (ltb : V -> V -> bool) `{!StrictWeakOrder ltb}.
Context (key : A -> V) (dkey : A -> K).
Implicit Types (x : A) (l : list A) (m : gmap K nat).

Lemma exists_lowest l :
  l <> [] ->
  exists x, x ∈ l /\ forall y, y ∈ l -> ltb (key y) (key x) = false.
Proof.
  induction l as [|x l IH]; [done|]. intros _.
  destruct l as [|x' l'].
  - exists x. split; [left|]. intros y ->%list_elem_of_singleton.
    apply ltb_irrefl.
  - destruct IH as (z & Hz & Hmin); [done|].
    destruct (ltb (key x) (key z)) eqn:Hxz.
    + exists x. split; [left|]. intros y [->|Hy]%elem_of_cons.
      * apply ltb_irrefl.
      * destruct (ltb (key y) (key x)) eqn:Hyx; [|done].
        rewrite <- (Hmin y Hy). symmetry. by apply ltb_trans with (key x).
    + exists z. split; [by right|]. intros y [->|Hy]%elem_of_cons; [done|].
      by apply Hmin.
Qed.

Lemma sorted_writes_perm l1 l2 m k :
  l1 ≡ₚ l2 ->
  write_all (rank_assignments ltb key dkey (sorted_reverse ltb key l1)) m !! k
  = write_all (rank_assignments ltb key dkey (sorted_reverse ltb key l2)) m
    !! k.
Proof.
  intros Hperm.
  destruct (filter (fun x => dkey x = k) l1) as [|x0 g] eqn:Hg.
  - assert (forall x, x ∈ l1 -> dkey x <> k) as Hno.
    { intros x Hx Hk. eapply filter_nil_not_elem_of; [exact Hg|exact Hk|done]. }
    rewrite (sorted_writes_lookup_notin ltb key dkey l1) by done.
    rewrite (sorted_writes_lookup_notin ltb key dkey l2); [done|].
    intros x Hx. apply Hno. by rewrite Hperm.
  - destruct (exists_lowest (filter (fun x => dkey x = k) l1))
      as (x & [Hkx Hx]%list_elem_of_filter & Hmin); [by rewrite Hg|].
    assert (forall y, y ∈ l1 -> dkey y = k -> ltb (key y) (key x) = false)
      as Hmin1.
    { intros y Hy Hky. apply Hmin. by apply list_elem_of_filter. }
    rewrite (sorted_writes_lookup ltb key dkey l1 m k x) by done.
    rewrite (sorted_writes_lookup ltb key dkey l2 m k x).
    + unfold standard_rank. do 2 f_equal. apply count_greater_perm.
      by rewrite Hperm.
    + by rewrite <- Hperm.
    + done.
    + intros y Hy. apply Hmin1. by rewrite Hperm.
Qed.
End RankedPermutation.

(** ** Missing scores *)

(** C3.  The two views treat missing scores differently.  A student without
    a row for subject [X] has no entry for [X] in the subject positions.  A
    roster student without any row for the term and year still gets an entry
    in the class positions: the student's ranking value is 0, and the
    position is the standard competition rank of 0 among the roster's
    values. *)
Theorem missing_scores_asymmetry
    (qs : list Score) (st X : Z)
    (db : list Score) (roster : list Student) (y t : Z) (s : Student)
    (Hno_row : rows_of st X qs = [])
    (Hroster : s ∈ roster)
    (Hno_scores : filter_student db (pk s) y t = []) :
  (exists m, calculate_subject_positions qs = Ok m /\ m !! (st, X) = None)
  /\ (exists avgs m,
        student_averages db roster y t = Ok avgs
        /\ dict_get avgs (pk s) = Some (dec_of_int 0)
        /\ calculate_class_positions db roster y t = Ok m
        /\ m !! pk s = Some (standard_rank dec_ltb (dec_of_int 0) avgs.*2)).
Proof.
  assert (average_value db y t (pk s) = dec_of_int 0) as Hzero
    by (unfold average_value; by rewrite Hno_scores).
  split.
  - destruct (calculate_subject_positions_lookup qs) as (m & Hm & _).
    exists m. split; [done|]. apply (subject_position_absent qs); [done|].
    intros x Hx Hsub Hst.
    by eapply (filter_nil_not_elem_of _ _ x Hno_row).
  - exists (averages_dict db roster y t). eexists. split_and!.
    + apply student_averages_eq.
    + rewrite averages_dict_get, decide_True by (by apply list_elem_of_fmap_2).
      by rewrite Hzero.
    + apply calculate_class_positions_eq.
    + rewrite <- Hzero. apply (class_position_lookup db roster y t); [|done].
      apply calculate_class_positions_eq.
Qed.

Lemma missing_scores_asymmetry_witness :
  (exists m, calculate_subject_positions cohort_scores = Ok m
             /\ m !! (3, 2) = None)
  /\ (exists avgs m,
        student_averages cohort_scores (sample_roster 4) 1 1 = Ok avgs
        /\ dict_get avgs 4 = Some (dec_of_int 0)
        /\ calculate_class_positions cohort_scores (sample_roster 4) 1 1 = Ok m
        /\ m !! 4 = Some (standard_rank dec_ltb (dec_of_int 0) avgs.*2)).
Proof.
  apply (missing_scores_asymmetry cohort_scores 3 2 cohort_scores
           (sample_roster 4) 1 1 (mkStudent 4 1)).
  - reflexivity.
  - unfold sample_roster. simpl. in_list.
  - reflexivity.
Defined.

(** ** Independence of subjects *)

Lemma subject_writes_perm qs1 qs2 s st m :
  filter_subject s qs1 ≡ₚ filter_subject s qs2 ->
  write_all (subject_writes qs1 s) m !! (st, s)
  = write_all (subject_writes qs2 s) m !! (st, s).
Proof.
  intros Hperm. unfold subject_writes, ranked_scores.
  apply (sorted_writes_perm Z.ltb total_score score_key).
  by rewrite !order_by_scores_perm.
Qed.

(** C8.  The positions in subject [s] depend only on the rows of [s]: two
    querysets with the same rows for [s], in any order, give every student
    the same position in [s], whatever their rows for other subjects.  The
    result does not depend on the order of the rows at all, and running the
    loop again over its own result changes nothing. *)
Theorem subject_positions_independent (qs1 qs2 : list Score) (s : Z)
    (Hsame : filter_subject s qs1 ≡ₚ filter_subject s qs2) :
  (exists m1 m2,
     calculate_subject_positions qs1 = Ok m1
     /\ calculate_subject_positions qs2 = Ok m2
     /\ forall st, m1 !! (st, s) = m2 !! (st, s))
  /\ (qs1 ≡ₚ qs2 ->
      calculate_subject_positions qs1 = calculate_subject_positions qs2)
  /\ (forall m, calculate_subject_positions qs1 = Ok m ->
        for_each (subject_pass qs1) m (distinct_subjects qs1) = Ok m).
Proof.
  destruct (calculate_subject_positions_lookup qs1) as (m1 & Hm1 & Hl1).
  destruct (calculate_subject_positions_lookup qs2) as (m2 & Hm2 & Hl2).
  split_and!.
  - exists m1, m2. split_and!; [done|done|].
    intros st. rewrite Hl1, Hl2. by apply subject_writes_perm.
  - intros Hperm. rewrite Hm1, Hm2. f_equal. apply map_eq. intros [st s'].
    rewrite Hl1, Hl2. apply subject_writes_perm.
    unfold filter_subject. by rewrite Hperm.
  - intros m Hm. rewrite Hm1 in Hm. injection Hm as <-.
    rewrite (for_each_ok _ (fun m sid => write_all (subject_writes qs1 sid) m))
      by (intros m sid _; apply subject_pass_eq).
    f_equal. apply map_eq. intros [st s'].
    rewrite subjects_fold_lookup, Hl1.
    case_decide; [|done].
    by destruct (write_all (subject_writes qs1 s') ∅ !! (st, s')).
Qed.

Lemma subject_positions_independent_witness :
  exists m1 m2,
    calculate_subject_positions cohort_scores = Ok m1
    /\ calculate_subject_positions cohort_scores_variant = Ok m2
    /\ forall st, m1 !! (st, 1) = m2 !! (st, 1).
Proof.
  assert (filter_subject 1 cohort_scores
          ≡ₚ filter_subject 1 cohort_scores_variant) as Hsame.
  { apply (bool_decide_unpack _). by vm_compute. }
  exact (proj1 (subject_positions_independent _ _ 1 Hsame)).
Defined.

(** ** Bounds and monotonicity of ranks *)

Lemma NoDup_fmap_inj {A B : Type} (f : A -> B) (l : list A) x y :
  NoDup (f <$> l) -> x ∈ l -> y ∈ l -> f x = f y -> x = y.
Proof.
  intros Hnd [i Hi]%list_elem_of_lookup [j Hj]%list_elem_of_lookup Hf.
  assert (i = j) as ->.
  { apply (NoDup_lookup (f <$> l) i j (f x)); [done| |].
    - by rewrite list_lookup_fmap, Hi.
    - by rewrite list_lookup_fmap, Hj, Hf. }
  congruence.
Qed.

Lemma filter_length_lt {A : Type} (P Q : A -> Prop)
    `{!forall x, Decision (P x)} `{!forall x, Decision (Q x)} (l : list A) a :
  (forall w, P w -> Q w) -> a ∈ l -> ~ P a -> Q a ->
  (length (filter P l) < length (filter Q l))%nat.
Proof.
  intros HPQ Ha HnP HQ.
  assert (forall l', length (filter P l') <= length (filter Q l'))%nat as Hle.
  { induction l' as [|w l' IH]; [done|].
    rewrite !filter_cons. destruct (decide (P w)) as [HP|HP].
    - rewrite decide_True by auto. simpl. lia.
    - destruct (decide (Q w)); simpl; lia. }
  induction l as [|w l IH]; [by apply elem_of_nil in Ha|].
  rewrite !filter_cons. apply elem_of_cons in Ha as [<-|Ha].
  - rewrite decide_False, decide_True by done. simpl.
    specialize (Hle l). lia.
  - specialize (IH Ha). destruct (decide (P w)) as [HP|HP].
    + rewrite decide_True by auto. simpl. lia.
    + destruct (decide (Q w)); simpl; lia.
Qed.





(** With one row per student and subject, the entry of a row is its own
    standard competition rank. *)
Lemma subject_position_unique qs m x :
  NoDup (score_key <$> qs) ->
  calculate_subject_positions qs = Ok m ->
  x ∈ qs ->
  m !! score_key x
  = Some (standard_rank Z.ltb (total_score x)
            (total_score <$> filter_subject (subject x) qs)).
Proof.
  intros Hnd Hm Hx. apply subject_position_lowest; [done|done|].
  intros y Hy Hk.
  assert (y = x) as -> by by apply (NoDup_fmap_inj score_key qs).
  lia.
Qed.










(** ** The ranking value of a student *)

Lemma dec_value_hundredths (h : Z) :
  (dec_value (dec_of_hundredths h) == h # 100)%Q.
Proof. unfold dec_value, dec_of_hundredths, Qeq. simpl. lia. Qed.

Lemma mean_total_score_rounded (student_scores : list Score) :
  student_scores <> [] ->
  (Qabs (dec_value (mean_total_score student_scores) - exact_mean student_scores)
   * inject_Z (2 * 10 ^ 27)
   <= Qabs (exact_mean student_scores))%Q.
Proof.
  intros Hne. unfold mean_total_score, exact_mean.
  rewrite <- dec_value_hundredths. apply dec_quotient_rounded.
  destruct student_scores; [done|]. simpl length. lia.
Qed.

(** C4.  For a roster student with at least one row for the term and year,
    the value stored in [student_averages], and ranked, is the sum of the
    totals of these rows divided by their number: the decimal quotient
    computed by [/], which is the exact arithmetic mean rounded to 28
    significant digits (relative error at most 5e-28), and not the sum. *)
Theorem class_ranking_value_is_mean
    (db : list Score) (roster : list Student) (y t : Z) (s : Student)
    (Hroster : s ∈ roster)
    (Hscores : filter_student db (pk s) y t <> []) :
  let student_scores := filter_student db (pk s) y t in
  let average_score := mean_total_score student_scores in
  dec_truediv (dec_of_hundredths (sum_total_scores student_scores))
              (Z.of_nat (length student_scores))
  = Ok average_score
  /\ (exists avgs m,
        student_averages db roster y t = Ok avgs
        /\ dict_get avgs (pk s) = Some average_score
        /\ (pk s, average_score) ∈ sorted_students_by_avg db roster y t
        /\ calculate_class_positions db roster y t = Ok m
        /\ m !! pk s = Some (standard_rank dec_ltb average_score avgs.*2))
  /\ (Qabs (dec_value average_score - exact_mean student_scores)
      * inject_Z (2 * 10 ^ 27)
      <= Qabs (exact_mean student_scores))%Q.
Proof.
  cbv zeta.
  assert (average_value db y t (pk s)
          = mean_total_score (filter_student db (pk s) y t)) as Havg.
  { unfold average_value. by rewrite bool_decide_eq_true_2. }
  assert ((pk s, mean_total_score (filter_student db (pk s) y t))
          ∈ averages_dict db roster y t) as Hin.
  { apply averages_dict_elem_of. split; [by apply list_elem_of_fmap_2|done]. }
  set (student_scores := filter_student db (pk s) y t) in *.
  clearbody student_scores.
  split_and!.
  - unfold dec_truediv, mean_total_score.
    destruct (Z.eqb_spec (Z.of_nat (length student_scores)) 0) as [H0|_];
      [|reflexivity].
    destruct student_scores; [done|]. simpl in H0. lia.
  - exists (averages_dict db roster y t). eexists. split_and!.
    + apply student_averages_eq.
    + by rewrite averages_dict_get, decide_True, Havg
        by (by apply list_elem_of_fmap_2).
    + by apply sorted_reverse_elem_of.
    + apply calculate_class_positions_eq.
    + rewrite <- Havg.
      apply (class_position_lookup db roster y t); [|done].
      apply calculate_class_positions_eq.
  - by apply mean_total_score_rounded.
Qed.

Lemma class_ranking_value_is_mean_witness :
  mean_total_score (filter_student cohort_scores 1 1 1) = mkDecimal 8500 (-2)
  /\ sum_total_scores (filter_student cohort_scores 1 1 1) = 17000
  /\ exists avgs m,
       student_averages cohort_scores (sample_roster 4) 1 1 = Ok avgs
       /\ dict_get avgs 1 = Some (mkDecimal 8500 (-2))
       /\ calculate_class_positions cohort_scores (sample_roster 4) 1 1 = Ok m
       /\ m !! 1 = Some (standard_rank dec_ltb (mkDecimal 8500 (-2)) avgs.*2).
Proof.
  assert (mkStudent 1 1 ∈ sample_roster 4) as Hroster
    by (unfold sample_roster; simpl; in_list).
  assert (filter_student cohort_scores (pk (mkStudent 1 1)) 1 1 <> [])
    as Hscores by (by vm_compute).
  destruct (class_ranking_value_is_mean cohort_scores (sample_roster 4) 1 1
              (mkStudent 1 1) Hroster Hscores)
    as (_ & (avgs & m & Ha & Hget & _ & Hm & Hrank) & _).
  split_and!; [by vm_compute|by vm_compute|].
  exists avgs, m. by split_and!.
Defined.

(** Three totals of 100, 100 and 0 have the mean 200/3, which no decimal
    holds: the ranking value is its rounding to 28 digits. *)
Example mean_of_three_is_rounded :
  mean_total_score (one_subject [10000; 10000; 0])
  = mkDecimal 6666666666666666666666666667 (-26).
Proof. by vm_compute. Qed.

(** * Further properties of the views *)

(** ** Positions as counts *)

Lemma count_greater_rows (v : Z) (rows : list Score) :
  count_greater Z.ltb v (total_score <$> rows) = rows_above v rows.
Proof.
  unfold count_greater, rows_above.
  induction rows as [|y rows IH]; [done|].
  rewrite fmap_cons, !filter_cons.
  destruct (Z.ltb_spec v (total_score y)) as [Hlt|Hge].
  - rewrite decide_True by done. rewrite decide_True by done.
    simpl. by rewrite IH.
  - rewrite decide_False by (by intros []). rewrite decide_False by lia. done.
Qed.

Lemma subject_position_rows_above (qs : list Score) (m : gmap (Z * Z) nat)
    (x : Score) :
  calculate_subject_positions qs = Ok m ->
  x ∈ qs ->
  (forall y, y ∈ qs -> student y = student x -> subject y = subject x ->
     total_score x <= total_score y) ->
  m !! (student x, subject x)
  = Some (S (rows_above (total_score x) (filter_subject (subject x) qs))).
Proof.
  intros Hm Hx Hlowest.
  change (student x, subject x) with (score_key x).
  rewrite (subject_position_lowest qs m x); [|done|done|].
  - unfold standard_rank. by rewrite count_greater_rows.
  - intros y' Hy [= Hst Hsu]. by apply Hlowest.
Qed.

Lemma subject_position_rows_above_unique (qs : list Score)
    (m : gmap (Z * Z) nat) (x : Score) :
  NoDup (score_key <$> qs) ->
  calculate_subject_positions qs = Ok m ->
  x ∈ qs ->
  m !! (student x, subject x)
  = Some (S (rows_above (total_score x) (filter_subject (subject x) qs))).
Proof.
  intros Hunique Hm Hx. apply subject_position_rows_above; [done|done|].
  intros y Hy Hst Hsu.
  assert (y = x) as ->; [|lia].
  apply (NoDup_fmap_inj score_key qs); [done|done|done|].
  unfold score_key. by rewrite Hst, Hsu.
Qed.

Lemma subject_positions_run (qs : list Score) :
  exists m, calculate_subject_positions qs = Ok m.
Proof.
  destruct (calculate_subject_positions_lookup qs) as (m & Hm & _).
  by exists m.
Qed.

(** X1.  The position [calculate_subject_positions] records for a student in
    a subject is one more than the number of rows of that subject, in the
    queryset, whose total is strictly higher than the student's.  Where the
    queryset holds several rows of the student in the subject (rows of
    several terms, say), the total that counts is the lowest of them. *)
Theorem subject_position_counts_higher_totals (qs : list Score) (x : Score)
    (Hx : x ∈ qs)
    (Hlowest : forall y, y ∈ qs -> student y = student x ->
                 subject y = subject x -> total_score x <= total_score y) :
  exists m,
    calculate_subject_positions qs = Ok m
    /\ m !! (student x, subject x)
       = Some (S (rows_above (total_score x) (filter_subject (subject x) qs))).
Proof.
  destruct (subject_positions_run qs) as (m & Hm).
  exists m. split; [done|]. by apply subject_position_rows_above.
Qed.

Lemma subject_position_counts_higher_totals_witness :
  exists m,
    calculate_subject_positions two_terms = Ok m /\ m !! (1, 1) = Some 3%nat.
Proof.
  assert (mkScore 1 1 2 1 2000 2000 ∈ two_terms) as Hx
    by (unfold two_terms; in_list).
  apply (subject_position_counts_higher_totals two_terms _ Hx).
  intros y Hy _ _. unfold two_terms in Hy.
  repeat (apply elem_of_cons in Hy as [->|Hy]; [vm_compute; discriminate|]).
  by apply elem_of_nil in Hy.
Defined.

(** X2.  Equal values share a position, in both rankings: two rows of one
    subject with the same total get the same subject position, and two
    students of the roster whose averages compare equal get the same class
    position. *)
Theorem equal_values_share_a_position
    (qs db : list Score) (roster : list Student) (y t : Z)
    (Hunique : NoDup (score_key <$> qs)) :
  (exists m,
     calculate_subject_positions qs = Ok m
     /\ forall x x', x ∈ qs -> x' ∈ qs -> subject x = subject x' ->
          total_score x = total_score x' ->
          m !! score_key x = m !! score_key x')
  /\ (exists m,
        calculate_class_positions db roster y t = Ok m
        /\ forall s s', s ∈ roster -> s' ∈ roster ->
             dec_ltb (average_value db y t (pk s))
                     (average_value db y t (pk s')) = false ->
             dec_ltb (average_value db y t (pk s'))
                     (average_value db y t (pk s)) = false ->
             m !! pk s = m !! pk s').
Proof.
  split.
  - destruct (subject_positions_run qs) as (m & Hm).
    exists m. split; [done|]. intros x x' Hx Hx' Hs Ht.
    rewrite !(subject_position_unique qs m) by done. by rewrite Hs, Ht.
  - pose proof (calculate_class_positions_eq db roster y t) as Hm.
    eexists. split; [exact Hm|]. intros s s' Hs Hs' H1 H2.
    rewrite !(class_position_lookup db roster y t _ _ Hm) by done.
    unfold standard_rank. f_equal. f_equal.
    by apply count_greater_equiv; [apply _| |].
Qed.

Lemma equal_values_share_a_position_witness :
  exists m,
    calculate_subject_positions cohort_scores = Ok m
    /\ m !! (1, 1) = m !! (2, 1).
Proof.
  assert (NoDup (score_key <$> cohort_scores)) as Hunique
    by (apply (bool_decide_unpack _); by vm_compute).
  destruct (equal_values_share_a_position cohort_scores cohort_scores
              (sample_roster 4) 1 1 Hunique) as ((m & Hm & Htie) & _).
  exists m. split; [done|].
  apply (Htie (sample_score 1 1 4500 4500) (sample_score 2 1 4000 5000));
    [unfold cohort_scores; in_list | unfold cohort_scores; in_list
    | reflexivity | reflexivity].
Defined.

Lemma subject_position_is_Some qs m st s :
  calculate_subject_positions qs = Ok m ->
  is_Some (m !! (st, s)) <-> exists x, x ∈ qs /\ student x = st /\ subject x = s.
Proof.
  intros Hm.
  destruct (calculate_subject_positions_lookup qs) as (m' & Hm' & Hlook).
  rewrite Hm in Hm'. injection Hm' as <-. split.
  - intros [r Hr]. rewrite Hlook in Hr.
    apply write_all_lookup_Some in Hr as [Hr|Hr];
      [|by rewrite lookup_empty in Hr].
    apply (list_elem_of_fmap_2 fst) in Hr.
    unfold subject_writes in Hr. rewrite rank_assignments_keys in Hr.
    apply list_elem_of_fmap in Hr as (x & [= -> ->] & Hx).
    apply ranked_scores_elem_of in Hx as [Hx _]. by exists x.
  - intros (x & Hx & <- & <-). rewrite Hlook.
    apply write_all_lookup_is_Some.
    unfold subject_writes. rewrite rank_assignments_keys.
    apply (list_elem_of_fmap_2' _ _ x); [|done].
    by apply ranked_scores_elem_of.
Qed.

Lemma class_position_is_Some db roster y t m k :
  calculate_class_positions db roster y t = Ok m ->
  is_Some (m !! k) <-> exists s, s ∈ roster /\ pk s = k.
Proof.
  intros Hm. split.
  - intros [r Hr].
    destruct (decide (k ∈ pk <$> roster)) as [Hk|Hk].
    + apply list_elem_of_fmap in Hk as (s & -> & Hs). by exists s.
    + by rewrite (class_position_absent db roster y t _ k Hm Hk) in Hr.
  - intros (s & Hs & <-).
    by rewrite (class_position_lookup db roster y t _ s Hm Hs).
Qed.

(** X3.  The two dictionaries cover exactly their input: a (student,
    subject) pair has a subject position if and only if the queryset holds a
    row of that student in that subject, and a student has a class position
    if and only if the student is on the roster. *)
Theorem positions_cover_exactly_the_input
    (qs db : list Score) (roster : list Student) (y t : Z) :
  (exists m,
     calculate_subject_positions qs = Ok m
     /\ forall st s,
          is_Some (m !! (st, s))
          <-> exists x, x ∈ qs /\ student x = st /\ subject x = s)
  /\ (exists m,
        calculate_class_positions db roster y t = Ok m
        /\ forall k, is_Some (m !! k) <-> exists s, s ∈ roster /\ pk s = k).
Proof.
  split.
  - destruct (subject_positions_run qs) as (m & Hm).
    exists m. split; [done|]. intros st s.
    by apply subject_position_is_Some.
  - pose proof (calculate_class_positions_eq db roster y t) as Hm.
    eexists. split; [exact Hm|]. intros k.
    by apply (class_position_is_Some db roster y t).
Qed.

Lemma filter_ext_in {A : Type} (P Q : A -> Prop)
    `{!forall x, Decision (P x)} `{!forall x, Decision (Q x)} (l : list A) :
  (forall x, x ∈ l -> P x <-> Q x) -> filter P l = filter Q l.
Proof.
  induction l as [|x l IH]; intros Hext; [done|].
  rewrite !filter_cons.
  rewrite IH by (intros y Hy; apply Hext; by right).
  destruct (decide (P x)) as [HP|HP].
  - rewrite decide_True; [done|]. apply Hext; [left|done].
  - rewrite decide_False; [done|]. intros HQ. apply HP, Hext; [left|done].
Qed.

Lemma rows_above_antitone (a b : Z) (rows : list Score) :
  a <= b -> (rows_above b rows <= rows_above a rows)%nat.
Proof.
  intros Hab. unfold rows_above.
  induction rows as [|y rows IH]; [done|].
  rewrite !filter_cons.
  destruct (decide (b < total_score y)).
  - rewrite decide_True by lia. simpl. lia.
  - destruct (decide (a < total_score y)); simpl; lia.
Qed.

Lemma rows_above_lt (a b : Z) (rows : list Score) (y : Score) :
  y ∈ rows -> total_score y = b -> a < b ->
  (rows_above b rows < rows_above a rows)%nat.
Proof.
  intros Hy Hb Hab. unfold rows_above.
  apply (filter_length_lt _ _ rows y); [lia|done|lia|lia].
Qed.

(** X4.  A subject position can be read off the positions themselves: with
    one row per student and subject, the position of a row is one more than
    the number of rows of its subject that were given a strictly smaller
    position. *)
Theorem position_counts_better_rows (qs : list Score) (x : Score)
    (Hunique : NoDup (score_key <$> qs)) (Hx : x ∈ qs) :
  exists m r,
    calculate_subject_positions qs = Ok m
    /\ m !! (student x, subject x) = Some r
    /\ S (length (filter (fun y => position_below m r y)
                         (filter_subject (subject x) qs))) = r.
Proof.
  destruct (subject_positions_run qs) as (m & Hm).
  pose proof (subject_position_rows_above_unique qs m x Hunique Hm Hx) as Hr.
  exists m, (S (rows_above (total_score x) (filter_subject (subject x) qs))).
  split_and!; [done|done|]. f_equal.
  transitivity (length (filter (fun y => total_score x < total_score y)
                               (filter_subject (subject x) qs)));
    [|reflexivity].
  f_equal. apply filter_ext_in. intros y [Hs Hy]%list_elem_of_filter.
  unfold position_below.
  pose proof (subject_position_rows_above_unique qs m y Hunique Hm Hy) as Hry.
  change (score_key y) with (student y, subject y). rewrite Hry, Hs.
  rewrite bool_decide_spec. split.
  - intros Hlt. destruct (Z.lt_ge_cases (total_score x) (total_score y)); [done|].
    pose proof (rows_above_antitone (total_score y) (total_score x)
                  (filter_subject (subject x) qs) ltac:(lia)). lia.
  - intros Hlt. apply ->Nat.succ_lt_mono.
    apply (rows_above_lt _ _ _ y); [|done|done].
    unfold filter_subject. by apply list_elem_of_filter.
Qed.

Lemma position_counts_better_rows_witness :
  exists m r,
    calculate_subject_positions tie_scores = Ok m
    /\ m !! (4, 1) = Some r
    /\ S (length (filter (fun y => position_below m r y)
                         (filter_subject 1 tie_scores))) = r.
Proof.
  assert (NoDup (score_key <$> tie_scores)) as Hunique
    by (apply (bool_decide_unpack _); by vm_compute).
  assert (sample_score 4 1 3500 3500 ∈ tie_scores) as Hx
    by (vm_compute; in_list).
  exact (position_counts_better_rows tie_scores _ Hunique Hx).
Defined.

(** X5.  Adding one row to the queryset moves another row down by exactly
    one place when the new row is in the same subject and has a strictly
    higher total, and leaves its position unchanged otherwise: a new row
    never improves anybody's position and never touches another subject. *)
Theorem new_row_moves_only_lower_rows (qs : list Score) (new x : Score)
    (Hunique : NoDup (score_key <$> new :: qs)) (Hx : x ∈ qs) :
  exists m m' r,
    calculate_subject_positions qs = Ok m
    /\ calculate_subject_positions (new :: qs) = Ok m'
    /\ m !! (student x, subject x) = Some r
    /\ m' !! (student x, subject x)
       = Some (if decide (subject new = subject x
                          /\ total_score x < total_score new)
               then S r else r).
Proof.
  assert (NoDup (score_key <$> qs)) as Hunique'
    by (rewrite fmap_cons in Hunique; by apply NoDup_cons in Hunique as [_ ?]).
  destruct (subject_positions_run qs) as (m & Hm).
  destruct (subject_positions_run (new :: qs)) as (m' & Hm').
  pose proof (subject_position_rows_above_unique qs m x Hunique' Hm Hx) as Hr.
  pose proof (subject_position_rows_above_unique (new :: qs) m' x Hunique Hm'
                ltac:(by right)) as Hr'.
  exists m, m', (S (rows_above (total_score x) (filter_subject (subject x) qs))).
  split_and!; [done|done|done|].
  rewrite Hr'. f_equal. unfold filter_subject. rewrite filter_cons.
  destruct (decide (subject new = subject x)) as [Hs|Hs].
  - unfold rows_above at 1. rewrite filter_cons.
    destruct (decide (total_score x < total_score new)) as [Hlt|Hge].
    + by rewrite decide_True by done.
    + rewrite decide_False by (by intros [_ ?]). done.
  - rewrite decide_False by (by intros [? _]). done.
Qed.

Lemma new_row_moves_only_lower_rows_witness :
  exists m m' r,
    calculate_subject_positions cohort_scores = Ok m
    /\ calculate_subject_positions (sample_score 9 1 3000 3000 :: cohort_scores)
       = Ok m'
    /\ m !! (3, 1) = Some r
    /\ m' !! (3, 1) = Some (S r).
Proof.
  assert (NoDup (score_key <$> sample_score 9 1 3000 3000 :: cohort_scores))
    as Hunique by (apply (bool_decide_unpack _); by vm_compute).
  assert (sample_score 3 1 0 0 ∈ cohort_scores) as Hx
    by (unfold cohort_scores; in_list).
  exact (new_row_moves_only_lower_rows cohort_scores _ _ Hunique Hx).
Defined.

(** ** Class positions and their inputs *)

Lemma sum_total_scores_perm l1 l2 :
  l1 ≡ₚ l2 -> sum_total_scores l1 = sum_total_scores l2.
Proof.
  assert (forall x l, sum_total_scores (x :: l)
                      = total_score x + sum_total_scores l) as Hcons by done.
  induction 1 as [|x l1 l2 _ IH|x y l|l1 l2 l3 _ IH1 _ IH2];
    rewrite ?Hcons; lia.
Qed.

Lemma mean_total_score_perm l1 l2 :
  l1 ≡ₚ l2 -> mean_total_score l1 = mean_total_score l2.
Proof.
  intros Hp. unfold mean_total_score.
  by rewrite (sum_total_scores_perm _ _ Hp), (Permutation_length Hp).
Qed.

Lemma average_value_same_rows db1 db2 y t k :
  filter_student db1 k y t ≡ₚ filter_student db2 k y t ->
  average_value db1 y t k = average_value db2 y t k.
Proof.
  intros Hp. unfold average_value.
  rewrite (mean_total_score_perm _ _ Hp).
  destruct (filter_student db1 k y t) as [|x l] eqn:H1.
  - apply Permutation_nil_l in Hp. by rewrite <- Hp.
  - destruct (filter_student db2 k y t) as [|x' l'] eqn:H2; [|done].
    by apply Permutation_nil_r in Hp.
Qed.

Lemma averages_dict_perm db1 db2 r1 r2 y t :
  (forall k, k ∈ pk <$> r1 <-> k ∈ pk <$> r2) ->
  (forall k, k ∈ pk <$> r1 ->
     filter_student db1 k y t ≡ₚ filter_student db2 k y t) ->
  averages_dict db1 r1 y t ≡ₚ averages_dict db2 r2 y t.
Proof.
  intros Hset Hrows. apply NoDup_Permutation.
  - apply (NoDup_fmap_1 fst), averages_dict_NoDup.
  - apply (NoDup_fmap_1 fst), averages_dict_NoDup.
  - intros [k v]. rewrite !averages_dict_elem_of, <- Hset. split.
    + intros [Hk ->]. split; [done|]. by apply average_value_same_rows, Hrows.
    + intros [Hk ->]. split; [done|]. symmetry.
      by apply average_value_same_rows, Hrows.
Qed.

Lemma class_positions_same_inputs db1 db2 r1 r2 y t :
  (forall k, k ∈ pk <$> r1 <-> k ∈ pk <$> r2) ->
  (forall k, k ∈ pk <$> r1 ->
     filter_student db1 k y t ≡ₚ filter_student db2 k y t) ->
  calculate_class_positions db1 r1 y t = calculate_class_positions db2 r2 y t.
Proof.
  intros Hset Hrows.
  pose proof (averages_dict_perm db1 db2 r1 r2 y t Hset Hrows) as Hperm.
  rewrite !calculate_class_positions_eq. f_equal. apply map_eq. intros k.
  unfold class_writes, sorted_students_by_avg.
  by apply (sorted_writes_perm dec_ltb snd fst).
Qed.

(** X6.  The class positions depend on the roster only as a set of students:
    two rosters with the same students, in any order and with any
    repetitions, give the same dictionary of class positions. *)
Theorem class_positions_ignore_roster_order
    (db : list Score) (roster1 roster2 : list Student) (y t : Z)
    (Hsame : forall k, k ∈ pk <$> roster1 <-> k ∈ pk <$> roster2) :
  calculate_class_positions db roster1 y t
  = calculate_class_positions db roster2 y t.
Proof. by apply class_positions_same_inputs. Qed.

Lemma class_positions_ignore_roster_order_witness :
  calculate_class_positions cohort_scores (sample_roster 3) 1 1
  = calculate_class_positions cohort_scores
      [mkStudent 3 1; mkStudent 1 1; mkStudent 2 1; mkStudent 3 1] 1 1.
Proof.
  apply class_positions_ignore_roster_order.
  intros k. unfold sample_roster. simpl.
  rewrite !elem_of_cons, !elem_of_nil. tauto.
Defined.

(** X7.  The class positions read the table [Score] only through the rows of
    the students of the roster in the given year and term: rows of other
    students, other years or other terms, and the order of the rows, have no
    effect on any class position. *)
Theorem class_positions_use_only_own_rows
    (db1 db2 : list Score) (roster : list Student) (y t : Z)
    (Hrows : forall s, s ∈ roster ->
               filter_student db1 (pk s) y t ≡ₚ filter_student db2 (pk s) y t) :
  calculate_class_positions db1 roster y t
  = calculate_class_positions db2 roster y t.
Proof.
  apply class_positions_same_inputs; [done|].
  intros k (s & -> & Hs)%list_elem_of_fmap. by apply Hrows.
Qed.

Lemma class_positions_use_only_own_rows_witness :
  calculate_class_positions cohort_scores (sample_roster 3) 1 1
  = calculate_class_positions
      (mkScore 1 1 2 1 100 100 :: mkScore 8 1 1 1 5000 5000 :: cohort_scores)
      (sample_roster 3) 1 1.
Proof.
  apply class_positions_use_only_own_rows.
  intros s Hs. unfold sample_roster in Hs. simpl in Hs.
  repeat (apply elem_of_cons in Hs as [->|Hs]; [by vm_compute|]).
  by apply elem_of_nil in Hs.
Defined.

(** ** Grades *)

(** X8.  The grade never gets worse when the total goes up: of two rows, the
    one with the higher (or equal) total has a letter at least as good, in
    the order F, D, C, B, A. *)
Theorem grade_is_monotone (s1 s2 : Score)
    (Hle : total_score s1 <= total_score s2) :
  (grade_points (grade s1) <= grade_points (grade s2))%nat.
Proof.
  pose proof (grade_cases s1) as H1. pose proof (grade_cases s2) as H2.
  cbv zeta in *. unfold hundredths in *.
  destruct H1 as [[? ->]|[[? ->]|[[? ->]|[[? ->]|[? ->]]]]];
    destruct H2 as [[? ->]|[[? ->]|[[? ->]|[[? ->]|[? ->]]]]];
    vm_compute grade_points; lia.
Qed.

Lemma grade_is_monotone_witness :
  (grade_points (grade (sample_score 1 1 3000 3500))
   <= grade_points (grade (sample_score 2 1 4000 3999)))%nat.
Proof.
  apply grade_is_monotone. unfold total_score. simpl. lia.
Defined.

(** ** Exact averages *)

Lemma strip_zeros_pow (k : nat) (c E : Z) :
  strip_zeros k (c * 10 ^ Z.of_nat k) (E - Z.of_nat k) E = (c, E).
Proof.
  induction k as [|k IH].
  - cbn [strip_zeros]. f_equal; [change (10 ^ Z.of_nat 0) with 1|]; lia.
  - cbn [strip_zeros]. rewrite Nat2Z.inj_succ, Z.pow_succ_r by lia.
    replace (c * (10 * 10 ^ Z.of_nat k)) with (c * 10 ^ Z.of_nat k * 10) by lia.
    rewrite Z.mod_mul, Z.div_mul by lia.
    replace (E - Z.succ (Z.of_nat k) <? E) with true
      by (symmetry; apply Z.ltb_lt; lia).
    cbn [andb Z.eqb].
    replace (E - Z.succ (Z.of_nat k) + 1) with (E - Z.of_nat k) by lia.
    apply IH.
Qed.

Lemma div_eucl_mul (x n : Z) : n <> 0 -> Z.div_eucl (x * n) n = (x, 0).
Proof.
  intros Hn.
  pose proof (Z.div_mul x n Hn) as Hd. pose proof (Z.mod_mul x n Hn) as Hm.
  unfold Z.div, Z.modulo in Hd, Hm.
  destruct (Z.div_eucl (x * n) n) as [q0 r0]. cbn in Hd, Hm. by subst.
Qed.

(** A quotient that has at most 28 digits is computed exactly, and keeps the
    exponent of the dividend. *)
Lemma dec_quotient_exact (q n e : Z) :
  0 < n -> Z.abs q < 10 ^ 28 ->
  dec_quotient (mkDecimal (n * q) e) n = mkDecimal q e.
Proof.
  intros Hn Hq. unfold dec_quotient. cbn [coefficient exponent].
  destruct (Z.eqb_spec (n * q) 0) as [H0|Hne].
  - assert (q = 0) as -> by nia. reflexivity.
  - assert (q <> 0) as Hq0 by (intros ->; lia).
    assert (0 < Z.abs q) as Hpos by lia.
    rewrite Z.abs_mul, (Z.abs_eq n) by lia.
    set (shift := ndigits n - ndigits (n * Z.abs q) + prec + 1).
    assert (1 <= shift) as Hshift.
    { destruct (ndigits_spec n Hn) as (_ & _ & Hhi).
      assert (ndigits (n * Z.abs q) <= ndigits n + 28); [|unfold shift, prec; lia].
      apply ndigits_le; [nia|].
      destruct (ndigits_spec n Hn) as (Hge & _ & _).
      rewrite pow10_split by lia. nia. }
    replace (0 <=? shift) with true by (symmetry; apply Z.leb_le; lia).
    replace (n * Z.abs q * 10 ^ shift) with (Z.abs q * 10 ^ shift * n) by lia.
    rewrite div_eucl_mul by lia. cbn [Z.eqb].
    rewrite <- (Z2Nat.id shift) at 2 3 by lia.
    rewrite strip_zeros_pow.
    rewrite dec_fix_short; [|done|by apply ndigits_le].
    f_equal. rewrite Z.sgn_mul, (Z.sgn_pos n) by done. destruct q; cbn; lia.
Qed.

(** X9.  An average that comes out even is not rounded.  When the sum of
    the totals of a student's rows is the number of rows times a value with
    two decimal places (as with a single row, or with equal totals), the
    average stored for the student, which is the one ranked, is exactly that
    value, with two decimal places. *)
Theorem exact_average_is_not_rounded
    (db : list Score) (roster : list Student) (y t : Z) (s : Student) (q : Z)
    (Hroster : s ∈ roster)
    (Hscores : filter_student db (pk s) y t <> [])
    (Hexact : sum_total_scores (filter_student db (pk s) y t)
              = Z.of_nat (length (filter_student db (pk s) y t)) * q)
    (Hq : Z.abs q < 10 ^ 28) :
  exists avgs,
    student_averages db roster y t = Ok avgs
    /\ dict_get avgs (pk s) = Some (dec_of_hundredths q).
Proof.
  exists (averages_dict db roster y t). split; [apply student_averages_eq|].
  rewrite averages_dict_get, decide_True by (by apply list_elem_of_fmap_2).
  f_equal. unfold average_value. rewrite bool_decide_eq_true_2 by done.
  unfold mean_total_score. rewrite Hexact.
  apply dec_quotient_exact; [|done].
  destruct (filter_student db (pk s) y t); [done|]. cbn [length]. lia.
Qed.

Lemma exact_average_is_not_rounded_witness :
  exists avgs,
    student_averages cohort_scores (sample_roster 4) 1 1 = Ok avgs
    /\ dict_get avgs 1 = Some (dec_of_hundredths 8500).
Proof.
  apply (exact_average_is_not_rounded cohort_scores (sample_roster 4) 1 1
           (mkStudent 1 1) 8500).
  - unfold sample_roster. simpl. in_list.
  - by vm_compute.
  - by vm_compute.
  - by vm_compute.
Defined.

(** ** The data of the report cards *)

Lemma filter_none {A : Type} (P : A -> Prop) `{!forall x, Decision (P x)}
    (l : list A) :
  (forall x, x ∈ l -> ~ P x) -> filter P l = [].
Proof.
  induction l as [|x l IH]; intros Hno; [done|].
  rewrite filter_cons, decide_False by (apply Hno; left).
  apply IH. intros y Hy. apply Hno. by right.
Qed.

Lemma for_each_collect {A B : Type} (body : list B -> A -> result (list B))
    (f : A -> B) (l : list A) :
  (forall acc x, x ∈ l -> body acc x = Ok (acc ++ [f x])) ->
  forall acc, for_each body acc l = Ok (acc ++ (f <$> l)).
Proof.
  induction l as [|x l IH]; intros Hb acc; simpl.
  - by rewrite app_nil_r.
  - rewrite Hb by left. simpl. rewrite IH by (intros; apply Hb; by right).
    by rewrite <- app_assoc.
Qed.

Lemma learners_average_eq (student_scores : list Score) :
  learners_average student_scores = Ok (shown_average student_scores).
Proof.
  unfold learners_average, shown_average.
  destruct student_scores as [|x l]; [done|].
  rewrite bool_decide_eq_true_2 by done. reflexivity.
Qed.

Lemma shown_average_perm (l1 l2 : list Score) :
  l1 ≡ₚ l2 -> shown_average l1 = shown_average l2.
Proof.
  intros Hp. unfold shown_average. rewrite (mean_total_score_perm _ _ Hp).
  destruct l1 as [|x l1].
  - apply Permutation_nil_l in Hp. by subst l2.
  - destruct l2 as [|y l2]; [by apply Permutation_nil_r in Hp|done].
Qed.

Lemma with_subject_positions_fst m l : (with_subject_positions m l).*1 = l.
Proof.
  unfold with_subject_positions. rewrite <- list_fmap_compose.
  etrans; [|apply list_fmap_id]. by apply list_fmap_ext.
Qed.

Lemma with_subject_positions_is_Some qs m l :
  calculate_subject_positions qs = Ok m ->
  l ⊆ qs ->
  Forall (fun sp : Score * option nat => is_Some sp.2)
         (with_subject_positions m l).
Proof.
  intros Hm Hsub. unfold with_subject_positions.
  apply Forall_fmap, Forall_forall. intros x Hx. simpl.
  apply (subject_position_is_Some qs m (student x) (subject x) Hm).
  exists x. split_and!; [by apply Hsub|done|done].
Qed.

Section ReportCardFacts.
Context (Student_objects : list StudentRow) (Score_objects : list Score)
        (ReportCardRemarks_objects : list ReportCardRemarks).
Context (format_2f : Decimal -> string)
        (order_by_subject_name : list Score -> list Score).

Lemma class_report_cards_data_eq gl ay t :
  exists class_positions subject_positions,
    calculate_class_positions Score_objects
      (as_student <$> students_in_class_of Student_objects gl ay) ay t
    = Ok class_positions
    /\ calculate_subject_positions
         (all_scores_in_grade_term Student_objects Score_objects gl ay t)
       = Ok subject_positions
    /\ class_report_cards_data Student_objects Score_objects
         ReportCardRemarks_objects format_2f gl ay t
       = Ok (report_card_entry ReportCardRemarks_objects format_2f
               class_positions subject_positions
               (all_scores_in_grade_term Student_objects Score_objects gl ay t)
               ay t
             <$> students_in_class_of Student_objects gl ay).
Proof.
  destruct (subject_positions_run
              (all_scores_in_grade_term Student_objects Score_objects gl ay t))
    as (sp & Hsp).
  pose proof (calculate_class_positions_eq Score_objects
                (as_student <$> students_in_class_of Student_objects gl ay)
                ay t) as Hcp.
  eexists _, sp. split_and!; [exact Hcp|exact Hsp|].
  unfold class_report_cards_data. rewrite Hcp, Hsp. simpl.
  apply (for_each_collect _ _ _) with (acc := []).
  intros acc r _. unfold report_card_step.
  by rewrite learners_average_eq.
Qed.

(** With unique primary keys a listed student is the only row under its
    key. *)
Lemma filter_pk_unique (r : StudentRow) :
  NoDup ((fun r : StudentRow => pk r) <$> Student_objects) ->
  r ∈ Student_objects ->
  filter (fun r' : StudentRow => pk r' = pk r) Student_objects = [r].
Proof.
  induction Student_objects as [|r0 T IH]; intros Hnd Hr;
    [by apply elem_of_nil in Hr|].
  rewrite fmap_cons in Hnd. apply NoDup_cons in Hnd as [Hr0 Hnd].
  rewrite filter_cons. apply elem_of_cons in Hr as [->|Hr].
  - rewrite decide_True by done. f_equal. apply filter_none.
    intros r' Hr' Hpk. apply Hr0. rewrite <- Hpk.
    by apply (list_elem_of_fmap_2 (fun r : StudentRow => pk r)).
  - rewrite decide_False; [by apply IH|].
    intros Hpk. apply Hr0. rewrite Hpk.
    by apply (list_elem_of_fmap_2 (fun r : StudentRow => pk r)).
Qed.

Lemma student_grade_level_of (r : StudentRow) :
  NoDup ((fun r : StudentRow => pk r) <$> Student_objects) ->
  r ∈ Student_objects ->
  student_grade_level Student_objects (pk r) = Some (grade_level r).
Proof.
  intros Hnd Hr. unfold student_grade_level.
  by rewrite filter_pk_unique.
Qed.

(** The rows of a student of the grade level among the rows of the grade
    level are the rows the class ranking reads for the student. *)
Lemma scores_of_student_in_grade (r : StudentRow) ay t :
  NoDup ((fun r : StudentRow => pk r) <$> Student_objects) ->
  r ∈ Student_objects ->
  filter (fun s => student s = pk r)
    (all_scores_in_grade_term Student_objects Score_objects (grade_level r) ay t)
  = filter_student Score_objects (pk r) ay t.
Proof.
  intros Hnd Hr. unfold all_scores_in_grade_term, filter_student.
  rewrite list_filter_filter. apply filter_ext_in. intros s _. split.
  - intros (? & ? & ? & _). done.
  - intros (Hs & ? & ?). split_and!; [done|done|done|].
    rewrite Hs. by apply student_grade_level_of.
Qed.

Lemma students_in_class_of_elem_of (r : StudentRow) gl ay :
  r ∈ students_in_class_of Student_objects gl ay
  <-> r ∈ Student_objects /\ grade_level r = gl
      /\ current_academic_year r = Some ay.
Proof.
  unfold students_in_class_of. rewrite list_elem_of_filter.
  split; [by intros [[? ?] ?]|by intros (? & ? & ?)].
Qed.

(** X10.  The class report lists exactly the students enrolled in the grade
    level for the year, in their order, and never shows ['N/A']: every
    listed student has a class position, and every score row shown for a
    student has a subject position. *)
Theorem class_report_has_every_position (gl ay t : Z) :
  exists data,
    class_report_cards_data Student_objects Score_objects
      ReportCardRemarks_objects format_2f gl ay t = Ok data
    /\ entry_student <$> data = students_in_class_of Student_objects gl ay
    /\ Forall (fun e =>
                 is_Some (entry_position_in_class e)
                 /\ Forall (fun sp : Score * option nat => is_Some sp.2)
                           (entry_student_scores e))
              data.
Proof.
  destruct (class_report_cards_data_eq gl ay t) as (cp & sp & Hcp & Hsp & ->).
  eexists. split_and!; [done| |].
  - rewrite <- list_fmap_compose. etrans; [|apply list_fmap_id].
    by apply list_fmap_ext.
  - apply Forall_fmap, Forall_forall. intros r Hr. simpl. split.
    + apply (class_position_is_Some _ _ _ _ _ _ Hcp).
      exists r. split; [by apply list_elem_of_fmap_2|done].
    + apply (with_subject_positions_is_Some _ _ _ Hsp).
      intros x [_ Hx]%list_elem_of_filter. done.
Qed.

(** X11.  In the class report the average printed for a student is the
    [.2f] format of the mean that is ranked.  With unique primary keys of
    students, the rows shown for a student are the student's rows of the
    year and term, the printed string is the format of the mean of their
    totals (of zero without rows), and the position is one more than the
    number of enrolled students of the grade level whose mean is strictly
    higher.  The position is computed from the mean as the division returns
    it, not from the two places that are printed. *)
Theorem class_report_prints_the_ranked_mean (gl ay t : Z)
    (Hpk : NoDup ((fun r : StudentRow => pk r) <$> Student_objects)) :
  let roster := as_student <$> students_in_class_of Student_objects gl ay in
  exists data,
    class_report_cards_data Student_objects Score_objects
      ReportCardRemarks_objects format_2f gl ay t = Ok data
    /\ Forall (fun e =>
                 let value := average_value Score_objects ay t
                                (pk (entry_student e)) in
                 (entry_student_scores e).*1
                 = filter_student Score_objects (pk (entry_student e)) ay t
                 /\ entry_learners_average_score e = format_2f value
                 /\ entry_position_in_class e
                    = Some (standard_rank dec_ltb value
                              (averages_dict Score_objects roster ay t).*2))
              data.
Proof.
  intros roster.
  destruct (class_report_cards_data_eq gl ay t) as (cp & sp & Hcp & Hsp & ->).
  eexists. split; [done|].
  apply Forall_fmap, Forall_forall.
  intros r Hin. pose proof Hin as (Hr & <- & _)%students_in_class_of_elem_of.
  simpl.
  rewrite with_subject_positions_fst, scores_of_student_in_grade by done.
  split_and!; [done|done|].
  apply (class_position_lookup _ _ _ _ _ r Hcp).
  by apply list_elem_of_fmap_2.
Qed.

Lemma individual_report_data_eq (r : StudentRow) ay t :
  exists cp sp,
    calculate_class_positions Score_objects
      (as_student <$> students_in_class_of Student_objects (grade_level r) ay)
      ay t = Ok cp
    /\ calculate_subject_positions
         (all_scores_in_grade_term Student_objects Score_objects
            (grade_level r) ay t) = Ok sp
    /\ individual_report_data Student_objects Score_objects
         ReportCardRemarks_objects format_2f order_by_subject_name r ay t
       = Ok (let student_scores :=
               order_by_subject_name
                 (filter_student Score_objects (pk r) ay t) in
             mkIndividualReport
               (with_subject_positions sp student_scores)
               (format_2f (shown_average student_scores))
               (cp !! pk r)
               (remarks_of ReportCardRemarks_objects (pk r) ay t)).
Proof.
  destruct (subject_positions_run
              (all_scores_in_grade_term Student_objects Score_objects
                 (grade_level r) ay t)) as (sp & Hsp).
  pose proof (calculate_class_positions_eq Score_objects
                (as_student
                   <$> students_in_class_of Student_objects (grade_level r) ay)
                ay t) as Hcp.
  eexists _, sp. split_and!; [exact Hcp|exact Hsp|].
  unfold individual_report_data.
  by rewrite learners_average_eq, Hcp, Hsp.
Qed.

(** X12.  The individual report shows ['N/A'] as the class position exactly
    when the student is not enrolled for the year of the report (the
    student's current year is another one, or none): the roster that is
    ranked is the student's grade level as enrolled for that year. *)
Theorem individual_report_position_missing_iff_not_enrolled
    (r : StudentRow) (ay t : Z)
    (Hpk : NoDup ((fun r : StudentRow => pk r) <$> Student_objects))
    (Hin : r ∈ Student_objects) :
  exists report,
    individual_report_data Student_objects Score_objects
      ReportCardRemarks_objects format_2f order_by_subject_name r ay t
    = Ok report
    /\ (report_position_in_class report = None
        <-> current_academic_year r <> Some ay).
Proof.
  destruct (individual_report_data_eq r ay t) as (cp & sp & Hcp & Hsp & ->).
  eexists. split; [done|]. simpl.
  rewrite eq_None_not_Some, (class_position_is_Some _ _ _ _ _ _ Hcp).
  split.
  - intros Hno Hay. apply Hno. exists r. split; [|done].
    apply list_elem_of_fmap_2, students_in_class_of_elem_of. done.
  - intros Hay (s & Hs & Hpks).
    apply list_elem_of_fmap in Hs as (r' & -> & Hr').
    apply students_in_class_of_elem_of in Hr' as (Hr' & _ & Hay').
    assert (r' = r) as ->; [|done].
    by apply (NoDup_fmap_inj (fun r : StudentRow => pk r) Student_objects).
Qed.

(** X13.  The individual report shows the student's rows of the year and
    term (in the order of the subject names), each with a subject position
    and never ['N/A'], and prints the formatted mean of their totals, the
    value the class ranking uses for the student. *)
Theorem individual_report_shows_ranked_rows
    (r : StudentRow) (ay t : Z)
    (Hpk : NoDup ((fun r : StudentRow => pk r) <$> Student_objects))
    (Hin : r ∈ Student_objects)
    (Hperm : forall l, order_by_subject_name l ≡ₚ l) :
  exists report,
    individual_report_data Student_objects Score_objects
      ReportCardRemarks_objects format_2f order_by_subject_name r ay t
    = Ok report
    /\ (report_student_scores report).*1
       ≡ₚ filter_student Score_objects (pk r) ay t
    /\ Forall (fun sp : Score * option nat => is_Some sp.2)
              (report_student_scores report)
    /\ report_learners_average_score report
       = format_2f (average_value Score_objects ay t (pk r)).
Proof.
  destruct (individual_report_data_eq r ay t) as (cp & sp & Hcp & Hsp & ->).
  eexists. split; [done|]. cbv zeta. simpl. split_and!.
  - by rewrite with_subject_positions_fst.
  - apply (with_subject_positions_is_Some _ _ _ Hsp).
    intros x Hx. rewrite Hperm in Hx.
    rewrite <- (scores_of_student_in_grade r ay t Hpk Hin) in Hx.
    by apply list_elem_of_filter in Hx as [_ Hx].
  - f_equal. by apply shown_average_perm.
Qed.

(** X14.  The two reports agree.  For a student enrolled in the grade level
    for the year, the entry of the class report and the individual report
    show the same class position, the same printed average, the same
    remarks, and the same score rows with the same subject positions (up to
    the order of the rows). *)
Theorem individual_and_class_reports_agree
    (r : StudentRow) (ay t : Z)
    (Hpk : NoDup ((fun r : StudentRow => pk r) <$> Student_objects))
    (Hin : r ∈ students_in_class_of Student_objects (grade_level r) ay)
    (Hperm : forall l, order_by_subject_name l ≡ₚ l) :
  exists data report e,
    class_report_cards_data Student_objects Score_objects
      ReportCardRemarks_objects format_2f (grade_level r) ay t = Ok data
    /\ individual_report_data Student_objects Score_objects
         ReportCardRemarks_objects format_2f order_by_subject_name r ay t
       = Ok report
    /\ e ∈ data
    /\ entry_student e = r
    /\ entry_position_in_class e = report_position_in_class report
    /\ entry_learners_average_score e = report_learners_average_score report
    /\ entry_remarks e = report_remarks report
    /\ entry_student_scores e ≡ₚ report_student_scores report.
Proof.
  destruct (class_report_cards_data_eq (grade_level r) ay t)
    as (cp & sp & Hcp & Hsp & ->).
  destruct (individual_report_data_eq r ay t) as (cp' & sp' & Hcp' & Hsp' & ->).
  rewrite Hcp in Hcp'. injection Hcp' as <-.
  rewrite Hsp in Hsp'. injection Hsp' as <-.
  pose proof Hin as (Hr & _)%students_in_class_of_elem_of.
  eexists _, _, _. split_and!; [done|done| | | | | |].
  - by apply list_elem_of_fmap_2.
  - done.
  - done.
  - cbv zeta. simpl. rewrite scores_of_student_in_grade by done.
    f_equal. symmetry. by apply shown_average_perm.
  - done.
  - cbv zeta. simpl. rewrite scores_of_student_in_grade by done.
    unfold with_subject_positions. apply fmap_Permutation. by symmetry.
Qed.
End ReportCardFacts.

Lemma sample_students_pk_NoDup :
  NoDup ((fun r : StudentRow => pk r) <$> sample_students).
Proof. apply (bool_decide_unpack _). by vm_compute. Qed.

Lemma class_report_prints_the_ranked_mean_witness :
  exists data,
    class_report_cards_data sample_students cohort_scores sample_remarks
      sample_format 1 1 1 = Ok data
    /\ Forall (fun e =>
                 (entry_student_scores e).*1
                 = filter_student cohort_scores (pk (entry_student e)) 1 1
                 /\ entry_learners_average_score e
                    = sample_format
                        (average_value cohort_scores 1 1 (pk (entry_student e)))
                 /\ entry_position_in_class e
                    = Some (standard_rank dec_ltb
                              (average_value cohort_scores 1 1
                                 (pk (entry_student e)))
                              (averages_dict cohort_scores
                                 (as_student
                                    <$> students_in_class_of sample_students 1 1)
                                 1 1).*2))
              data.
Proof.
  exact (class_report_prints_the_ranked_mean sample_students cohort_scores
           sample_remarks sample_format 1 1 1 sample_students_pk_NoDup).
Defined.

Lemma individual_report_position_missing_iff_not_enrolled_witness :
  exists report,
    individual_report_data sample_students cohort_scores sample_remarks
      sample_format (fun l => l) (mkStudentRow (mkStudent 4 1) None) 1 1
    = Ok report
    /\ (report_position_in_class report = None <-> None <> Some 1).
Proof.
  apply (individual_report_position_missing_iff_not_enrolled sample_students
           cohort_scores sample_remarks sample_format (fun l => l)
           (mkStudentRow (mkStudent 4 1) None) 1 1 sample_students_pk_NoDup).
  unfold sample_students. in_list.
Defined.

Lemma individual_report_shows_ranked_rows_witness :
  exists report,
    individual_report_data sample_students cohort_scores sample_remarks
      sample_format (fun l => l) (mkStudentRow (mkStudent 1 1) (Some 1)) 1 1
    = Ok report
    /\ (report_student_scores report).*1 ≡ₚ filter_student cohort_scores 1 1 1
    /\ Forall (fun sp : Score * option nat => is_Some sp.2)
              (report_student_scores report)
    /\ report_learners_average_score report
       = sample_format (average_value cohort_scores 1 1 1).
Proof.
  apply (individual_report_shows_ranked_rows sample_students cohort_scores
           sample_remarks sample_format (fun l => l)
           (mkStudentRow (mkStudent 1 1) (Some 1)) 1 1
           sample_students_pk_NoDup).
  - unfold sample_students. in_list.
  - done.
Defined.

Lemma individual_and_class_reports_agree_witness :
  exists data report e,
    class_report_cards_data sample_students cohort_scores sample_remarks
      sample_format 1 1 1 = Ok data
    /\ individual_report_data sample_students cohort_scores sample_remarks
         sample_format (fun l => l) (mkStudentRow (mkStudent 2 1) (Some 1)) 1 1
       = Ok report
    /\ e ∈ data
    /\ entry_student e = mkStudentRow (mkStudent 2 1) (Some 1)
    /\ entry_position_in_class e = report_position_in_class report
    /\ entry_learners_average_score e = report_learners_average_score report
    /\ entry_remarks e = report_remarks report
    /\ entry_student_scores e ≡ₚ report_student_scores report.
Proof.
  apply (individual_and_class_reports_agree sample_students cohort_scores
           sample_remarks sample_format (fun l => l)
           (mkStudentRow (mkStudent 2 1) (Some 1)) 1 1
           sample_students_pk_NoDup).
  - apply list_elem_of_filter. split; [by split|].
    unfold sample_students. in_list.
  - done.
Defined.

(** ** Rows created by the class score entry page *)

Lemma filter_key_nil {A K : Type} `{EqDecision K} (f : A -> K) (k : K)
    (l : list A) :
  filter (fun x => f x = k) l = [] <-> k ∉ f <$> l.
Proof.
  induction l as [|x l IH]; [split; [intros _; apply not_elem_of_nil|done]|].
  rewrite filter_cons, fmap_cons, not_elem_of_cons.
  destruct (decide (f x = k)) as [Hx|Hx].
  - split; [done|]. by intros [Hne _].
  - rewrite IH. split; [by intros; split|by intros [_ ?]].
Qed.

Lemma filter_key_unique {A K : Type} `{EqDecision K} (f : A -> K) (k : K)
    (l : list A) (x : A) :
  NoDup (f <$> l) -> x ∈ l -> f x = k -> filter (fun y => f y = k) l = [x].
Proof.
  induction l as [|y l IH]; intros Hnd Hx Hk; [by apply elem_of_nil in Hx|].
  rewrite fmap_cons in Hnd. apply NoDup_cons in Hnd as [Hy Hnd].
  rewrite filter_cons. apply elem_of_cons in Hx as [->|Hx].
  - rewrite decide_True by done. f_equal.
    apply filter_key_nil. by rewrite <- Hk.
  - rewrite decide_False; [by apply IH|].
    intros Hyk. apply Hy. rewrite Hyk, <- Hk. by apply list_elem_of_fmap_2.
Qed.

Lemma get_score_found (table : list Score) (score : Score) :
  NoDup (unique_key <$> table) -> score ∈ table ->
  get_score table (unique_key score) = Found score.
Proof.
  intros Hnd Hin. unfold get_score.
  by rewrite (filter_key_unique unique_key _ table score).
Qed.

Lemma get_score_missing (table : list Score) (key : Z * Z * Z * Z) :
  key ∉ unique_key <$> table -> get_score table key = Failed DoesNotExist.
Proof.
  intros Hk. unfold get_score. by rewrite (proj2 (filter_key_nil _ _ _) Hk).
Qed.

Lemma extends_by_refl (P : Score -> Prop) (table : list Score) :
  extends_by P table table.
Proof. exists []. by rewrite app_nil_r. Qed.

Lemma extends_by_trans (P : Score -> Prop) (t1 t2 t3 : list Score) :
  extends_by P t1 t2 -> extends_by P t2 t3 -> extends_by P t1 t3.
Proof.
  intros (c1 & -> & H1) (c2 & -> & H2). exists (c1 ++ c2).
  split; [by rewrite app_assoc|]. by apply Forall_app.
Qed.

Lemma extends_by_key (P : Score -> Prop) (t1 t2 : list Score)
    (k : Z * Z * Z * Z) :
  extends_by P t1 t2 -> k ∈ unique_key <$> t1 -> k ∈ unique_key <$> t2.
Proof.
  intros (c & -> & _) Hk. rewrite fmap_app. apply elem_of_app. by left.
Qed.

(** A loop whose body keeps [I], moves the state along the preorder [R] and
    establishes [has (key x)], a property that [R] preserves. *)
Lemma query_for_each_stable {A S K : Type} (I : S -> Prop) (R : S -> S -> Prop)
    (has : K -> S -> Prop) (key : A -> K) (body : S -> A -> query S)
    (l : list A) :
  (forall s, R s s) ->
  (forall s1 s2 s3, R s1 s2 -> R s2 s3 -> R s1 s3) ->
  (forall s s' k, R s s' -> has k s -> has k s') ->
  (forall s x, x ∈ l -> I s ->
     exists s', body s x = Found s' /\ I s' /\ R s s' /\ has (key x) s') ->
  forall s, I s ->
    exists s', query_for_each body s l = Found s' /\ I s' /\ R s s'
      /\ forall x, x ∈ l -> has (key x) s'.
Proof.
  intros Hrefl Htrans Hmono.
  induction l as [|x l IH]; intros Hbody s Hs.
  - exists s. split_and!; [done..|]. by intros x Hx%elem_of_nil.
  - destruct (Hbody s x) as (s1 & Hrun & Hs1 & HR1 & Hhas);
      [by left|done|].
    destruct (IH (fun s y Hy => Hbody s y (list_elem_of_further _ _ _ Hy))
                s1 Hs1) as (s2 & Hrun2 & Hs2 & HR2 & Hall).
    exists s2. cbn [query_for_each]. rewrite Hrun. split_and!; [done..| |].
    + by eapply Htrans.
    + intros y [->|Hy]%elem_of_cons; [by eapply Hmono|by apply Hall].
Qed.

Lemma initial_data_step_spec (P : Score -> Prop)
    (term_pk academic_year_pk : Z) (student : Student)
    (state : list Score * list Score) (subject_pk : Z) :
  P (mkScore (pk student) subject_pk term_pk academic_year_pk 0 0) ->
  NoDup (unique_key <$> state.1) ->
  exists state',
    initial_data_step term_pk academic_year_pk student state subject_pk
      = Found state'
    /\ NoDup (unique_key <$> state'.1)
    /\ extends_by P state.1 state'.1
    /\ (pk student, subject_pk, term_pk, academic_year_pk)
         ∈ unique_key <$> state'.1.
Proof.
  destruct state as [table initial_data]. cbn [fst]. intros HP Hnd.
  unfold initial_data_step, get_or_create_score.
  destruct (decide ((pk student, subject_pk, term_pk, academic_year_pk)
                      ∈ unique_key <$> table)) as [Hk|Hk].
  - pose proof Hk as (score & Hkey & Hin)%list_elem_of_fmap.
    rewrite Hkey, get_score_found by done. cbn.
    eexists. split; [reflexivity|]. cbn [fst].
    split_and!; [done|apply extends_by_refl|by rewrite <- Hkey].
  - rewrite get_score_missing by done. cbn.
    eexists. split; [reflexivity|]. cbn [fst]. split_and!.
    + rewrite fmap_app. apply NoDup_app. split_and!; [done| |].
      * by intros k Hin [->|[]%elem_of_nil]%elem_of_cons.
      * apply NoDup_singleton.
    + exists [mkScore (pk student) subject_pk term_pk academic_year_pk 0 0].
      split; [done|]. by repeat constructor.
    + rewrite fmap_app. apply elem_of_app. right. by left.
Qed.

Lemma prepare_initial_data_spec (table : list Score)
    (students_in_class : list Student) (subjects_for_grade : list Z)
    (term_pk academic_year_pk : Z) :
  NoDup (unique_key <$> table) ->
  exists table' initial_data,
    prepare_initial_data table students_in_class subjects_for_grade
      term_pk academic_year_pk = Found (table', initial_data)
    /\ NoDup (unique_key <$> table')
    /\ extends_by
         (blank_row_of students_in_class subjects_for_grade
            term_pk academic_year_pk) table table'
    /\ forall student subject_pk,
         student ∈ students_in_class -> subject_pk ∈ subjects_for_grade ->
         (pk student, subject_pk, term_pk, academic_year_pk)
           ∈ unique_key <$> table'.
Proof.
  intros Hnd. unfold prepare_initial_data.
  set (P := blank_row_of students_in_class subjects_for_grade
              term_pk academic_year_pk).
  destruct (query_for_each_stable
    (fun s : list Score * list Score => NoDup (unique_key <$> s.1))
    (fun s s' => extends_by P s.1 s'.1)
    (fun (ks : list (Z * Z * Z * Z)) (s : list Score * list Score) =>
       forall k, k ∈ ks -> k ∈ unique_key <$> s.1)
    (fun student : Student =>
       (fun subject_pk => (pk student, subject_pk, term_pk, academic_year_pk))
         <$> subjects_for_grade)
    (fun state student =>
       query_for_each (initial_data_step term_pk academic_year_pk student)
         state subjects_for_grade) students_in_class)
    with (s := (table, @nil Score)) as (s' & Hrun & Hnd' & Hext & Hall).
  - intros s. apply extends_by_refl.
  - intros s1 s2 s3. apply extends_by_trans.
  - intros s s' ks Hext Hks k Hk. eapply extends_by_key; [done|]. by apply Hks.
  - intros s student Hst Hs.
    destruct (query_for_each_stable
      (fun s : list Score * list Score => NoDup (unique_key <$> s.1))
      (fun s s' => extends_by P s.1 s'.1)
      (fun (k : Z * Z * Z * Z) (s : list Score * list Score) =>
         k ∈ unique_key <$> s.1)
      (fun subject_pk => (pk student, subject_pk, term_pk, academic_year_pk))
      (initial_data_step term_pk academic_year_pk student) subjects_for_grade)
      with (s := s) as (s' & Hrun & Hnd' & Hext & Hall).
    + intros s0. apply extends_by_refl.
    + intros s1 s2 s3. apply extends_by_trans.
    + intros s1 s2 k. apply extends_by_key.
    + intros s0 subject_pk Hsu. apply initial_data_step_spec.
      unfold P, blank_row_of. cbn. split_and!; [done..|].
      by apply list_elem_of_fmap_2.
    + done.
    + exists s'. split_and!; [done..|].
      intros k (subject_pk & -> & Hsu)%list_elem_of_fmap. by apply Hall.
  - done.
  - destruct s' as [table' initial_data]. exists table', initial_data.
    split_and!; [done..|]. intros student subject_pk Hst Hsu.
    apply (Hall student Hst).
    by apply (list_elem_of_fmap_2
      (fun su : Z => (pk student, su, term_pk, academic_year_pk))).
Qed.

(** A table that already holds a row for every pair is left as it is. *)
Lemma prepare_initial_data_complete (table : list Score)
    (students_in_class : list Student) (subjects_for_grade : list Z)
    (term_pk academic_year_pk : Z) :
  NoDup (unique_key <$> table) ->
  (forall student subject_pk,
     student ∈ students_in_class -> subject_pk ∈ subjects_for_grade ->
     (pk student, subject_pk, term_pk, academic_year_pk)
       ∈ unique_key <$> table) ->
  exists initial_data,
    prepare_initial_data table students_in_class subjects_for_grade
      term_pk academic_year_pk = Found (table, initial_data).
Proof.
  intros Hnd Hall. unfold prepare_initial_data.
  destruct (query_for_each_stable
    (fun s : list Score * list Score => s.1 = table)
    (fun _ _ => True) (fun (_ : unit) _ => True) (fun _ : Student => tt)
    (fun state student =>
       query_for_each (initial_data_step term_pk academic_year_pk student)
         state subjects_for_grade) students_in_class)
    with (s := (table, @nil Score)) as (s' & Hrun & Hs' & _); try done.
  - intros s student Hst Hs.
    destruct (query_for_each_stable
      (fun s : list Score * list Score => s.1 = table)
      (fun _ _ => True) (fun (_ : unit) _ => True) (fun _ : Z => tt)
      (initial_data_step term_pk academic_year_pk student) subjects_for_grade)
      with (s := s) as (s' & Hrun & Hs' & _); try done.
    + intros [t d] subject_pk Hsu Ht. cbn [fst] in Ht. subst t.
      specialize (Hall student subject_pk Hst Hsu).
      apply list_elem_of_fmap in Hall as (score & Hkey & Hin).
      unfold initial_data_step, get_or_create_score.
      rewrite Hkey, get_score_found by done. cbn. by eexists.
    + by exists s'.
  - destruct s' as [t d]. cbn [fst] in Hs'. subst t. by exists d.
Qed.

(** X15.  Opening the class score entry page only adds rows, and only blank
    ones.  On a table with one row per student, subject, term and year, the
    loops that prepare the page finish without an exception; the table
    afterwards is the table before followed by new rows; every new row has
    class score 0 and exam score 0, is in the current term and year, and
    belongs to a student of the class and a subject of the grade level; and
    the table still has one row per key, so no row was created twice or for
    a key that had one. *)
Theorem score_entry_page_adds_only_blank_rows (table : list Score)
    (students_in_class : list Student) (subjects_for_grade : list Z)
    (term_pk academic_year_pk : Z)
    (Hkeys : NoDup (unique_key <$> table)) :
  exists created initial_data,
    prepare_initial_data table students_in_class subjects_for_grade
      term_pk academic_year_pk = Found (table ++ created, initial_data)
    /\ NoDup (unique_key <$> table ++ created)
    /\ Forall (blank_row_of students_in_class subjects_for_grade
                 term_pk academic_year_pk) created.
Proof.
  destruct (prepare_initial_data_spec table students_in_class
              subjects_for_grade term_pk academic_year_pk Hkeys)
    as (table' & initial_data & Hrun & Hnd & (created & -> & Hblank) & _).
  by exists created, initial_data.
Qed.

Lemma score_entry_page_adds_only_blank_rows_witness :
  exists created initial_data,
    prepare_initial_data cohort_scores (sample_roster 3) sample_subjects 1 1
    = Found (cohort_scores ++ created, initial_data)
    /\ NoDup (unique_key <$> cohort_scores ++ created)
    /\ Forall (blank_row_of (sample_roster 3) sample_subjects 1 1) created.
Proof.
  apply score_entry_page_adds_only_blank_rows.
  apply (bool_decide_unpack _). by vm_compute.
Defined.

(** X16.  After the loops that prepare the class score entry page, every
    student of the class has exactly one row in every subject of the grade
    level for the current term and year: the lookup [Score.objects.get] the
    page runs when the form is posted finds its row and raises neither
    [DoesNotExist] nor [MultipleObjectsReturned], and running the
    get-or-create loops again, as the page does when it is displayed,
    leaves the table as it is. *)
Theorem score_entry_page_rows_found_afterwards (table : list Score)
    (students_in_class : list Student) (subjects_for_grade : list Z)
    (term_pk academic_year_pk : Z)
    (Hkeys : NoDup (unique_key <$> table)) :
  exists table' initial_data,
    prepare_initial_data table students_in_class subjects_for_grade
      term_pk academic_year_pk = Found (table', initial_data)
    /\ (forall student subject_pk,
          student ∈ students_in_class -> subject_pk ∈ subjects_for_grade ->
          exists score,
            get_score table' (pk student, subject_pk, term_pk, academic_year_pk)
            = Found score
            /\ score ∈ table'
            /\ unique_key score
               = (pk student, subject_pk, term_pk, academic_year_pk))
    /\ exists initial_data',
         prepare_initial_data table' students_in_class subjects_for_grade
           term_pk academic_year_pk = Found (table', initial_data').
Proof.
  destruct (prepare_initial_data_spec table students_in_class
              subjects_for_grade term_pk academic_year_pk Hkeys)
    as (table' & initial_data & Hrun & Hnd & _ & Hall).
  exists table', initial_data. split_and!; [done| |].
  - intros student subject_pk Hst Hsu.
    pose proof (Hall student subject_pk Hst Hsu)
      as (score & Hkey & Hin)%list_elem_of_fmap.
    exists score. rewrite Hkey. split_and!; [|done|done].
    by apply get_score_found.
  - by apply prepare_initial_data_complete.
Qed.

Lemma score_entry_page_rows_found_afterwards_witness :
  exists table' initial_data,
    prepare_initial_data cohort_scores (sample_roster 3) sample_subjects 1 1
    = Found (table', initial_data)
    /\ (forall student subject_pk,
          student ∈ sample_roster 3 -> subject_pk ∈ sample_subjects ->
          exists score,
            get_score table' (pk student, subject_pk, 1, 1) = Found score
            /\ score ∈ table'
            /\ unique_key score = (pk student, subject_pk, 1, 1))
    /\ exists initial_data',
         prepare_initial_data table' (sample_roster 3) sample_subjects 1 1
         = Found (table', initial_data').
Proof.
  apply score_entry_page_rows_found_afterwards.
  apply (bool_decide_unpack _). by vm_compute.
Defined.

(** X17.  Once the class score entry page has been opened for a grade level,
    the class report of the current term has a subject position for every
    enrolled student of the grade level in every subject of the grade level,
    whether or not marks were entered for the student: the blank rows take
    part in the ranking. *)
Theorem score_entry_page_ranks_whole_class
    (Student_objects : list StudentRow) (table : list Score)
    (subjects_for_grade : list Z) (grade_level_pk academic_year_pk term_pk : Z)
    (Hpk : NoDup ((fun r : StudentRow => pk r) <$> Student_objects))
    (Hkeys : NoDup (unique_key <$> table)) :
  exists table' initial_data subject_positions,
    prepare_initial_data table
      (as_student
         <$> students_in_class_of Student_objects grade_level_pk academic_year_pk)
      subjects_for_grade term_pk academic_year_pk
    = Found (table', initial_data)
    /\ calculate_subject_positions
         (all_scores_in_grade_term Student_objects table'
            grade_level_pk academic_year_pk term_pk)
       = Ok subject_positions
    /\ forall (r : StudentRow) subject_pk,
         r ∈ students_in_class_of Student_objects grade_level_pk academic_year_pk ->
         subject_pk ∈ subjects_for_grade ->
         is_Some (subject_positions !! (pk r, subject_pk)).
Proof.
  destruct (prepare_initial_data_spec table
              (as_student <$> students_in_class_of Student_objects
                                grade_level_pk academic_year_pk)
              subjects_for_grade term_pk academic_year_pk Hkeys)
    as (table' & initial_data & Hrun & Hnd & _ & Hall).
  destruct (subject_positions_run
              (all_scores_in_grade_term Student_objects table'
                 grade_level_pk academic_year_pk term_pk)) as (sp & Hsp).
  exists table', initial_data, sp. split_and!; [done|done|].
  intros r subject_pk Hr Hsu.
  apply (subject_position_is_Some _ _ _ _ Hsp).
  assert (as_student r ∈ as_student <$> students_in_class_of Student_objects
                                          grade_level_pk academic_year_pk)
    as Hst by (by apply list_elem_of_fmap_2).
  pose proof (Hall r subject_pk Hst Hsu)
    as (score & Hkey & Hin)%list_elem_of_fmap.
  clear Hst.
  injection Hkey as Hst Hsubject Hterm Hyear.
  apply students_in_class_of_elem_of in Hr as (Hr & Hgl & _).
  exists score. split_and!; [|done|done].
  apply list_elem_of_filter. split_and!; [done|done| |done].
  rewrite <- Hst, <- Hgl. by apply student_grade_level_of.
Qed.

Lemma score_entry_page_ranks_whole_class_witness :
  exists table' initial_data subject_positions,
    prepare_initial_data cohort_scores
      (as_student <$> students_in_class_of sample_students 1 1)
      sample_subjects 1 1
    = Found (table', initial_data)
    /\ calculate_subject_positions
         (all_scores_in_grade_term sample_students table' 1 1 1)
       = Ok subject_positions
    /\ forall (r : StudentRow) subject_pk,
         r ∈ students_in_class_of sample_students 1 1 ->
         subject_pk ∈ sample_subjects ->
         is_Some (subject_positions !! (pk r, subject_pk)).
Proof.
  apply score_entry_page_ranks_whole_class.
  - exact sample_students_pk_NoDup.
  - apply (bool_decide_unpack _). by vm_compute.
Defined.

(** ** Roles and the listing views *)

Lemma is_class_teacher_eq (user : User) :
  is_class_teacher user
  = Found (match assigned_grade user with Some _ => true | None => false end).
Proof.
  unfold is_class_teacher, assigned_grade, has_teacher_profile,
    get_teacher_profile.
  destruct (in_group "Class Teachers" user); [|done].
  destruct (teacher_profile user) as [profile|]; [|done].
  cbn. by destruct (class_teacher_of profile).
Qed.

Lemma assigned_grade_profile (user : User) (gl : Z) :
  assigned_grade user = Some gl ->
  exists profile,
    get_teacher_profile user = Found profile
    /\ class_teacher_of profile = Some gl.
Proof.
  unfold assigned_grade, get_teacher_profile.
  destruct (in_group "Class Teachers" user); [|done].
  destruct (teacher_profile user) as [profile|]; [|done].
  cbn. intros Hgl. by exists profile.
Qed.

Lemma student_list_view_eq (Student_objects : list StudentRow) (user : User) :
  student_list_view Student_objects user
  = Found (mkListContext
             (match assigned_grade user with
              | Some gl =>
                  filter (fun r : StudentRow => grade_level r = gl)
                         Student_objects
              | None => Student_objects
              end)
             (is_administrator user)
             (match assigned_grade user with Some _ => true | None => false end),
           []).
Proof.
  unfold student_list_view. rewrite !is_class_teacher_eq.
  destruct (assigned_grade user) as [gl|] eqn:Hgrade; [|done].
  destruct (assigned_grade_profile user gl Hgrade) as (profile & -> & Hgl).
  cbn. by rewrite Hgl.
Qed.

Lemma grade_level_list_view_eq (GradeLevel_objects : list Z) (user : User) :
  grade_level_list_view GradeLevel_objects user
  = Found (mkListContext
             (match assigned_grade user with
              | Some gl => filter (fun g => g = gl) GradeLevel_objects
              | None => GradeLevel_objects
              end)
             (is_administrator user)
             (match assigned_grade user with Some _ => true | None => false end),
           []).
Proof.
  unfold grade_level_list_view. rewrite !is_class_teacher_eq.
  destruct (assigned_grade user) as [gl|] eqn:Hgrade; [|done].
  destruct (assigned_grade_profile user gl Hgrade) as (profile & -> & Hgl).
  cbn. by rewrite Hgl.
Qed.

Lemma may_generate_class_report_of_own_grade (user : User) (gl : Z) :
  is_administrator user = true \/ assigned_grade user = Some gl ->
  may_generate_class_report user gl = Found true.
Proof.
  intros Hrole. unfold may_generate_class_report.
  destruct (is_administrator user); [done|].
  destruct Hrole as [|Hgrade]; [done|].
  rewrite is_class_teacher_eq, Hgrade.
  destruct (assigned_grade_profile user gl Hgrade) as (profile & -> & Hgl).
  cbn. by rewrite bool_decide_eq_true_2.
Qed.

Lemma may_generate_report_of_own_class (Score_objects : list Score)
    (user : User) (r : StudentRow) (ay t : Z) :
  is_administrator user = true \/ assigned_grade user = Some (grade_level r) ->
  may_generate_individual_report Score_objects user r ay t = Found true.
Proof.
  intros Hrole. unfold may_generate_individual_report.
  destruct (is_administrator user); [done|].
  destruct Hrole as [|Hgrade]; [done|].
  rewrite is_class_teacher_eq, Hgrade.
  destruct (assigned_grade_profile user _ Hgrade) as (profile & -> & Hgl).
  cbn. by rewrite bool_decide_eq_true_2.
Qed.

(** X18.  The two listing views never raise and never warn.  For every user
    they return their context without adding a message: the access to the
    teacher profile is always guarded, and the branch that warns that the
    user is not assigned to a grade level cannot be reached.  A class
    teacher is shown the students of the own grade level, and that grade
    level only; every other user is shown all students and all grade
    levels. *)
Theorem listing_views_never_warn (Student_objects : list StudentRow)
    (GradeLevel_objects : list Z) (user : User) :
  student_list_view Student_objects user
  = Found (mkListContext
             (match assigned_grade user with
              | Some gl =>
                  filter (fun r : StudentRow => grade_level r = gl)
                         Student_objects
              | None => Student_objects
              end)
             (is_administrator user)
             (match assigned_grade user with Some _ => true | None => false end),
           [])
  /\ grade_level_list_view GradeLevel_objects user
     = Found (mkListContext
                (match assigned_grade user with
                 | Some gl => filter (fun g => g = gl) GradeLevel_objects
                 | None => GradeLevel_objects
                 end)
                (is_administrator user)
                (match assigned_grade user with
                 | Some _ => true
                 | None => false
                 end),
              []).
Proof.
  split; [apply student_list_view_eq|apply grade_level_list_view_eq].
Qed.

(** X19.  What an administrator or a class teacher is shown, they may
    print.  For such a user, every student listed by [student_list_view]
    passes the permission test in the body of
    [generate_individual_report_card], for any year and term, and every grade
    level listed by [grade_level_list_view] passes the permission test in
    the body of [generate_class_report_card]; neither test raises. *)
Theorem listed_rows_are_permitted (Student_objects : list StudentRow)
    (GradeLevel_objects : list Z) (Score_objects : list Score) (user : User)
    (ay t : Z)
    (Hrole : is_administrator user = true \/ is_Some (assigned_grade user)) :
  exists students grade_levels,
    student_list_view Student_objects user = Found (students, [])
    /\ grade_level_list_view GradeLevel_objects user = Found (grade_levels, [])
    /\ (forall r, r ∈ context_rows students ->
          may_generate_individual_report Score_objects user r ay t
          = Found true)
    /\ (forall g, g ∈ context_rows grade_levels ->
          may_generate_class_report user g = Found true).
Proof.
  eexists _, _.
  split; [apply student_list_view_eq|].
  split; [apply grade_level_list_view_eq|]. cbn [context_rows].
  destruct (assigned_grade user) as [gl|] eqn:Hgrade.
  - split.
    + intros r [Hgl _]%list_elem_of_filter.
      apply may_generate_report_of_own_class. right. by rewrite Hgl.
    + intros g [-> _]%list_elem_of_filter.
      apply may_generate_class_report_of_own_grade. by right.
  - destruct Hrole as [Hadmin|[? [=]]]. split.
    + intros r _. apply may_generate_report_of_own_class. by left.
    + intros g _. apply may_generate_class_report_of_own_grade. by left.
Qed.

Lemma listed_rows_are_permitted_witness :
  exists students grade_levels,
    student_list_view sample_students sample_class_teacher
    = Found (students, [])
    /\ grade_level_list_view [1; 2] sample_class_teacher
       = Found (grade_levels, [])
    /\ (forall r, r ∈ context_rows students ->
          may_generate_individual_report cohort_scores sample_class_teacher
            r 1 1 = Found true)
    /\ (forall g, g ∈ context_rows grade_levels ->
          may_generate_class_report sample_class_teacher g = Found true).
Proof.
  apply listed_rows_are_permitted. right. by exists 1.
Defined.

